(** * Borrowing transaction engine of the library manager

    A shallow embedding of the borrow / return / overdue paths of
    [server/routes.ts] (the route handlers), [server/storage.ts]
    ([DbStorage]) and [shared/schema.ts] (tables and the insert schema),
    and the properties of the lending core stated over it.

    Modelling choices, all taken from the source:

    - a table is the list of its rows; [select ... where ... limit 1]
      followed by [result[0]] is [find]; [update ... where eq(id)] rewrites
      every row that matches; [insert] adds a row. The store promises no
      order for the rows of a query without [orderBy]: the position of a
      row in a list is part of the representation only;
    - an [insert] is refused when the primary key is already present, when a
      column that [references] another table names a row that is not there,
      and when a value does not fit its column; the tables [users] and
      [schools] are present as the lists of their ids, which is all the
      lending core and the catalog read of them;
    - the column type [integer] holds the 32-bit signed range: a write of a
      value outside it is refused by the store and surfaces as an exception;
    - timestamps are milliseconds since the epoch, as a JavaScript [Date]
      holds them; a [Date] reaches a [timestamp] column as the text of
      [toISOString()], which the store reads for the years 0001 to 9999
      only; what the handlers read from the clock ([new Date()], [NOW()],
      [defaultNow()]), a time within those years, and the identifier
      [gen_random_uuid()] draws are supplied to each request by its
      environment [Env];
    - a [string] stands for a text of the store: the strings of a request
      are taken to be free of the NUL character, which the store accepts
      in no text;
    - every [await storage.f(...)] is one store operation; a handler is a
      program over those operations ([Prog]), run either to completion or
      interleaved with another handler at the [await]s;
    - an exception inside a handler's [try] block ends it with the response
      of its [catch] block. *)

From Stdlib Require Import ZArith List Ascii String Bool Lia.
Import ListNotations.

Local Open Scope string_scope.
Local Open Scope Z_scope.

(** ** shared/schema.ts: rows *)

(** [typeof books.$inferSelect] *)
Record Book := mkBook {
  b_id : string;
  b_title : string;
  b_author : string;
  b_isbn : string;
  b_category : string;
  b_status : string;
  b_totalCopies : Z;
  b_availableCopies : Z;
  b_schoolId : option string;
  b_createdAt : Z
}.

(** [updateBookSchema = insertBookSchema.partial()]: every field optional;
    [None] is a key that is absent from the update. *)
Record UpdateBook := mkUpdateBook {
  u_title : option string;
  u_author : option string;
  u_isbn : option string;
  u_category : option string;
  u_status : option string;
  u_totalCopies : option Z;
  u_availableCopies : option Z;
  u_schoolId : option (option string)
}.

(** [typeof borrowTransactions.$inferSelect] *)
Record BorrowTransaction := mkBorrowTransaction {
  t_id : string;
  t_bookId : string;
  t_userId : string;
  t_schoolId : option string;
  t_borrowedAt : Z;
  t_dueDate : Z;
  t_returnedAt : option Z;
  t_status : string
}.

(** [InsertBorrowTransaction & { userId: string }]: what [createTransaction]
    receives. [id] and [borrowedAt] are omitted by the schema and filled by
    the column defaults; [returnedAt] and [status] are optional. *)
Record InsertBorrowTransaction := mkInsertBorrowTransaction {
  i_bookId : string;
  i_userId : string;
  i_schoolId : option string;
  i_dueDate : Z;
  i_returnedAt : option Z;
  i_status : option string
}.

(** server/auth.ts: [JwtPayload], the verified actor in [req.user]. *)
Record JwtPayload := mkJwtPayload {
  userId : string;
  email : string;
  role : string;
  schoolId : option string
}.

(** The tables: [books] and [borrowTransactions] with their rows, [users]
    and [schools] with the ids of theirs. *)
Record Store := mkStore {
  books : list Book;
  borrowTransactions : list BorrowTransaction;
  users : list string;
  schools : list string
}.

(** What a request reads from outside the store: the clock and the
    identifier that [gen_random_uuid()] yields for its insert. *)
Record Env := mkEnv {
  now : Z;
  uuid : string
}.

(** ** Values of JavaScript and of the columns *)

Definition INT4_MIN : Z := -2147483648.
Definition INT4_MAX : Z := 2147483647.

Definition int4_ok (z : Z) : bool := (INT4_MIN <=? z) && (z <=? INT4_MAX).

Definition opt_int4_ok (o : option Z) : bool :=
  match o with Some z => int4_ok z | None => true end.

(** The times a [timestamp] column takes from the driver, which sends
    [value.toISOString()]: from 0001-01-01T00:00:00.000Z to
    9999-12-31T23:59:59.999Z. Before and after them the text has a year
    0000 or a signed six-digit year, which the store does not accept. *)
Definition TIMESTAMP_MIN : Z := -62135596800000.
Definition TIMESTAMP_MAX : Z := 253402300799999.

Definition timestamp_ok (ms : Z) : bool :=
  (TIMESTAMP_MIN <=? ms) && (ms <=? TIMESTAMP_MAX).

Definition opt_timestamp_ok (o : option Z) : bool :=
  match o with Some ms => timestamp_ok ms | None => true end.

(** JavaScript truthiness of a [string | null]: [null] and the empty string
    are falsy. *)
Definition truthy (o : option string) : bool :=
  match o with
  | Some s => negb (s =? "")%string
  | None => false
  end.

(** [a === b] on [string | null]. *)
Definition opt_string_eqb (a b : option string) : bool :=
  match a, b with
  | Some x, Some y => (x =? y)%string
  | None, None => true
  | _, _ => false
  end.

(** ** server/storage.ts: DbStorage *)

Inductive DbError :=
| UniqueViolation
| NumericOutOfRange
| InvalidDatetime
| ForeignKeyViolation.

(** A table has a row of this id. *)
Definition on_record (ids : list string) (id : string) : bool :=
  existsb (fun k => (k =? id)%string) ids.

Definition opt_on_record (ids : list string) (o : option string) : bool :=
  match o with Some id => on_record ids id | None => true end.

Definition getBook (s : Store) (id : string) : option Book :=
  find (fun b => (b_id b =? id)%string) (books s).

Definition set_book (u : UpdateBook) (b : Book) : Book :=
  {| b_id := b_id b;
     b_title := match u_title u with Some x => x | None => b_title b end;
     b_author := match u_author u with Some x => x | None => b_author b end;
     b_isbn := match u_isbn u with Some x => x | None => b_isbn b end;
     b_category := match u_category u with Some x => x | None => b_category b end;
     b_status := match u_status u with Some x => x | None => b_status b end;
     b_totalCopies :=
       match u_totalCopies u with Some x => x | None => b_totalCopies b end;
     b_availableCopies :=
       match u_availableCopies u with Some x => x | None => b_availableCopies b end;
     b_schoolId := match u_schoolId u with Some x => x | None => b_schoolId b end;
     b_createdAt := b_createdAt b |}.

(** The rows after [update ... where eq(books.id, id)]. The rewritten row is
    kept where it was in the list; where the store then puts it among the
    rows of a later query is not specified. *)
Definition update_books (id : string) (u : UpdateBook) (l : list Book) : list Book :=
  map (fun b => if (b_id b =? id)%string then set_book u b else b) l.

(** [db.update(books).set(bookUpdate).where(eq(books.id, id)).returning()],
    then [result[0]]. *)
Definition updateBook (s : Store) (id : string) (u : UpdateBook)
  : DbError + (Store * option Book) :=
  if opt_int4_ok (u_totalCopies u) && opt_int4_ok (u_availableCopies u) then
    let s' := {| books := update_books id u (books s);
                 borrowTransactions := borrowTransactions s;
                 users := users s;
                 schools := schools s |} in
    inr (s', getBook s' id)
  else inl NumericOutOfRange.

Definition getActiveTransactionsByUserId (s : Store) (uid : string)
  : list BorrowTransaction :=
  filter (fun t => (t_userId t =? uid)%string && (t_status t =? "active")%string)
         (borrowTransactions s).

Definition getTransactionById (s : Store) (id : string) : option BorrowTransaction :=
  find (fun t => (t_id t =? id)%string) (borrowTransactions s).

Definition inserted_row (e : Env) (i : InsertBorrowTransaction) : BorrowTransaction :=
  {| t_id := uuid e;
     t_bookId := i_bookId i;
     t_userId := i_userId i;
     t_schoolId := i_schoolId i;
     t_borrowedAt := now e;
     t_dueDate := i_dueDate i;
     t_returnedAt := i_returnedAt i;
     t_status := match i_status i with Some x => x | None => "active" end |}.

(** Why the store refuses the row of a loan, if it does: [dueDate] or
    [returnedAt] is a time the [timestamp] column does not take; the id is
    that of a loan on record; or [bookId], [userId] or a [schoolId] that is
    not [null] names no row of the table it references. *)
Definition insert_error (e : Env) (s : Store) (i : InsertBorrowTransaction)
  : option DbError :=
  if negb (timestamp_ok (i_dueDate i) && opt_timestamp_ok (i_returnedAt i)) then
    Some InvalidDatetime
  else
    match getTransactionById s (uuid e) with
    | Some _ => Some UniqueViolation
    | None =>
        match getBook s (i_bookId i) with
        | None => Some ForeignKeyViolation
        | Some _ =>
            if on_record (users s) (i_userId i)
               && opt_on_record (schools s) (i_schoolId i)
            then None
            else Some ForeignKeyViolation
        end
    end.

(** [db.insert(borrowTransactions).values(transaction).returning()], then
    [result[0]]. *)
Definition createTransaction (e : Env) (s : Store) (i : InsertBorrowTransaction)
  : DbError + (Store * BorrowTransaction) :=
  match insert_error e s i with
  | Some err => inl err
  | None =>
      let t := inserted_row e i in
      inr ({| books := books s;
              borrowTransactions := (borrowTransactions s ++ [t])%list;
              users := users s;
              schools := schools s |}, t)
  end.

Definition set_returned (e : Env) (t : BorrowTransaction) : BorrowTransaction :=
  {| t_id := t_id t;
     t_bookId := t_bookId t;
     t_userId := t_userId t;
     t_schoolId := t_schoolId t;
     t_borrowedAt := t_borrowedAt t;
     t_dueDate := t_dueDate t;
     t_returnedAt := Some (now e);
     t_status := "returned" |}.

Definition return_rows (e : Env) (id : string) (l : list BorrowTransaction)
  : list BorrowTransaction :=
  map (fun t => if (t_id t =? id)%string then set_returned e t else t) l.

(** [db.update(borrowTransactions).set({returnedAt: new Date(), status:
    "returned"}).where(eq(borrowTransactions.id, transactionId)).returning()],
    then [result[0]]. *)
Definition returnBook (e : Env) (s : Store) (id : string)
  : Store * option BorrowTransaction :=
  let s' := {| books := books s;
               borrowTransactions := return_rows e id (borrowTransactions s);
               users := users s;
               schools := schools s |} in
  (s', getTransactionById s' id).

(** The argument is the [schoolId?: string] parameter; [if (schoolId)] takes
    the scoped query for a truthy value and the global one otherwise. *)
Definition getOverdueTransactions (e : Env) (s : Store) (sid : option string)
  : list BorrowTransaction :=
  if truthy sid then
    filter (fun t => (t_status t =? "active")%string
                     && opt_string_eqb (t_schoolId t) sid
                     && (t_dueDate t <? now e))
           (borrowTransactions s)
  else
    filter (fun t => (t_status t =? "active")%string && (t_dueDate t <? now e))
           (borrowTransactions s).

(** ** Handlers as programs over the store operations *)

(** One constructor per [await storage.f(...)] the lending handlers make; the
    continuation receives what the promise resolves to. *)
Inductive Prog (R : Type) : Type :=
| Ret (r : R)
| GetBook (id : string) (k : option Book -> Prog R)
| UpdateBookOp (id : string) (u : UpdateBook) (k : option Book -> Prog R)
| GetActiveTransactionsByUserId (uid : string) (k : list BorrowTransaction -> Prog R)
| GetTransactionById (id : string) (k : option BorrowTransaction -> Prog R)
| CreateTransaction (i : InsertBorrowTransaction) (k : BorrowTransaction -> Prog R)
| ReturnBook (id : string) (k : option BorrowTransaction -> Prog R)
| GetOverdueTransactions (sid : option string) (k : list BorrowTransaction -> Prog R).

Arguments Ret {R} r.
Arguments GetBook {R} id k.
Arguments UpdateBookOp {R} id u k.
Arguments GetActiveTransactionsByUserId {R} uid k.
Arguments GetTransactionById {R} id k.
Arguments CreateTransaction {R} i k.
Arguments ReturnBook {R} id k.
Arguments GetOverdueTransactions {R} sid k.

Fixpoint pbind {A B : Type} (p : Prog A) (f : A -> Prog B) : Prog B :=
  match p with
  | Ret r => f r
  | GetBook id k => GetBook id (fun x => pbind (k x) f)
  | UpdateBookOp id u k => UpdateBookOp id u (fun x => pbind (k x) f)
  | GetActiveTransactionsByUserId uid k =>
      GetActiveTransactionsByUserId uid (fun x => pbind (k x) f)
  | GetTransactionById id k => GetTransactionById id (fun x => pbind (k x) f)
  | CreateTransaction i k => CreateTransaction i (fun x => pbind (k x) f)
  | ReturnBook id k => ReturnBook id (fun x => pbind (k x) f)
  | GetOverdueTransactions sid k =>
      GetOverdueTransactions sid (fun x => pbind (k x) f)
  end.

Declare Scope prog_scope.
Delimit Scope prog_scope with prog.
Notation "x <- c ;; k" := (pbind c (fun x => k))
  (at level 61, c at next level, right associativity) : prog_scope.
Notation "c ;; k" := (pbind c (fun _ => k))
  (at level 61, right associativity) : prog_scope.
Local Open Scope prog_scope.

Module storage.
Definition getBook (id : string) : Prog (option Book) := GetBook id Ret.
Definition updateBook (id : string) (u : UpdateBook) : Prog (option Book) :=
  UpdateBookOp id u Ret.
Definition getActiveTransactionsByUserId (uid : string)
  : Prog (list BorrowTransaction) := GetActiveTransactionsByUserId uid Ret.
Definition getTransactionById (id : string) : Prog (option BorrowTransaction) :=
  GetTransactionById id Ret.
Definition createTransaction (i : InsertBorrowTransaction)
  : Prog BorrowTransaction := CreateTransaction i Ret.
Definition returnBook (id : string) : Prog (option BorrowTransaction) :=
  ReturnBook id Ret.
Definition getOverdueTransactions (sid : option string)
  : Prog (list BorrowTransaction) := GetOverdueTransactions sid Ret.
End storage.

(** What one step of a program does: the program is finished, or its first
    operation ran against the store and left the rest of the program, or the
    operation threw. *)
Inductive Outcome (R : Type) : Type :=
| Done (r : R)
| Next (s : Store) (p : Prog R)
| Thrown (err : DbError).

Arguments Done {R} r.
Arguments Next {R} s p.
Arguments Thrown {R} err.

Definition step {R : Type} (e : Env) (p : Prog R) (s : Store) : Outcome R :=
  match p with
  | Ret r => Done r
  | GetBook id k => Next s (k (getBook s id))
  | UpdateBookOp id u k =>
      match updateBook s id u with
      | inr (s', r) => Next s' (k r)
      | inl err => Thrown err
      end
  | GetActiveTransactionsByUserId uid k =>
      Next s (k (getActiveTransactionsByUserId s uid))
  | GetTransactionById id k => Next s (k (getTransactionById s id))
  | CreateTransaction i k =>
      match createTransaction e s i with
      | inr (s', t) => Next s' (k t)
      | inl err => Thrown err
      end
  | ReturnBook id k =>
      let (s', r) := returnBook e s id in Next s' (k r)
  | GetOverdueTransactions sid k => Next s (k (getOverdueTransactions e s sid))
  end.

(** Running a program to completion with nothing in between its operations:
    the final store and either the value or the exception. *)
Fixpoint exec {R : Type} (e : Env) (p : Prog R) (s : Store) : Store * (DbError + R) :=
  match p with
  | Ret r => (s, inr r)
  | GetBook id k => exec e (k (getBook s id)) s
  | UpdateBookOp id u k =>
      match updateBook s id u with
      | inr (s', r) => exec e (k r) s'
      | inl err => (s, inl err)
      end
  | GetActiveTransactionsByUserId uid k =>
      exec e (k (getActiveTransactionsByUserId s uid)) s
  | GetTransactionById id k => exec e (k (getTransactionById s id)) s
  | CreateTransaction i k =>
      match createTransaction e s i with
      | inr (s', t) => exec e (k t) s'
      | inl err => (s, inl err)
      end
  | ReturnBook id k =>
      let (s', r) := returnBook e s id in exec e (k r) s'
  | GetOverdueTransactions sid k =>
      exec e (k (getOverdueTransactions e s sid)) s
  end.

(** ** The request and the response *)

(** A value of the JSON request body, as far as the insert schema tells
    values apart: an absent key, [null], a string, or anything else. *)
Inductive Json :=
| JUndefined
| JNull
| JStr (s : string)
| JOther.

(** [new Date(req.body.dueDate)], which [z.coerce.date()] computes before it
    checks the result: an invalid date or a time value. A [Date] holds time
    values far beyond the years a [timestamp] column takes. *)
Inductive JsDate :=
| InvalidDate
| ValidDate (ms : Z).

(** The keys of [req.body] that [insertBorrowTransactionSchema] keeps: the
    columns of [borrowTransactions] without [id], [borrowedAt] and [userId]. *)
Record BorrowBody := mkBorrowBody {
  body_bookId : Json;
  body_schoolId : Json;
  body_dueDate : JsDate;
  body_returnedAt : Json;
  body_status : Json
}.

(** The object [insertBorrowTransactionSchema.parse] returns. *)
Record Validated := mkValidated {
  v_bookId : string;
  v_schoolId : option string;
  v_dueDate : Z;
  v_returnedAt : option Z;
  v_status : option string
}.

(** [insertBorrowTransactionSchema.parse(req.body)]; [None] is the thrown
    [ZodError]. [bookId] is a required string, [schoolId] an optional
    nullable string, [dueDate] any value that coerces to a valid date,
    [returnedAt] an optional nullable [Date] (which no JSON value is) and
    [status] an optional string. *)
Definition parse (b : BorrowBody) : option Validated :=
  match body_bookId b, body_schoolId b, body_dueDate b,
        body_returnedAt b, body_status b with
  | JStr bid, (JUndefined | JNull | JStr _) as sid, ValidDate d,
    (JUndefined | JNull), (JUndefined | JStr _) as st =>
      Some {| v_bookId := bid;
              v_schoolId := match sid with JStr x => Some x | _ => None end;
              v_dueDate := d;
              v_returnedAt := None;
              v_status := match st with JStr x => Some x | _ => None end |}
  | _, _, _, _, _ => None
  end.

Inductive ResBody :=
| Message (m : string)
| ZodMessage
| TransactionJson (t : option BorrowTransaction)
| TransactionsJson (l : list BorrowTransaction).

(** [res.status(code).json(body)]; a bare [res.json(body)] has code 200. *)
Record Response := mkResponse {
  res_status : Z;
  res_json : ResBody
}.

Definition respond (code : Z) (m : string) : Response :=
  {| res_status := code; res_json := Message m |}.

(** A route handler: the body of its [try] block and the response of its
    [catch] block for an error that is not a [ZodError]. *)
Record Handler := mkHandler {
  try_block : Prog Response;
  catch_block : Response
}.

Definition handle (e : Env) (h : Handler) (s : Store) : Store * Response :=
  match exec e (try_block h) s with
  | (s', inr r) => (s', r)
  | (s', inl _) => (s', catch_block h)
  end.

(** ** server/routes.ts: the lending routes *)

(** The handler ends with this response. *)
Definition send (r : Response) : Prog Response := Ret r.

(** [requireRole(...allowedRoles)]: [allowedRoles.includes(req.user.role)]. *)
Definition includes (allowed : list string) (r : string) : bool :=
  existsb (fun a => (a =? r)%string) allowed.

(** GET /api/transactions/overdue *)
Definition overdue_try (user : JwtPayload) : Prog Response :=
  if negb (includes ["admin"; "super_admin"] (role user)) then
    send (respond 403 "Insufficient permissions")
  else
    let schoolId := if truthy (schoolId user) then schoolId user else None in
    overdueTransactions <- storage.getOverdueTransactions schoolId ;;
    send {| res_status := 200; res_json := TransactionsJson overdueTransactions |}.

Definition overdue (user : JwtPayload) : Handler :=
  {| try_block := overdue_try user;
     catch_block := respond 500 "Failed to fetch overdue transactions" |}.

(** POST /api/transactions/borrow *)
Definition borrow_try (user : JwtPayload) (body : BorrowBody) : Prog Response :=
  match parse body with
  | None => send {| res_status := 400; res_json := ZodMessage |}
  | Some validated =>
    if negb (truthy (schoolId user)) then
      send (respond 400 "User must be associated with a school")
    else
      book <- storage.getBook (v_bookId validated) ;;
      match book with
      | None => send (respond 404 "Book not found")
      | Some book =>
        if negb (opt_string_eqb (b_schoolId book) (schoolId user)) then
          send (respond 403 "This book belongs to a different school")
        else if b_availableCopies book <=? 0 then
          send (respond 400 "No copies available")
        else
          activeLoans <- storage.getActiveTransactionsByUserId (userId user) ;;
          if (5 <=? List.length activeLoans)%nat then
            send (respond 400 "Maximum loan limit reached (5 books)")
          else
            transaction <- storage.createTransaction
              {| i_bookId := v_bookId validated;
                 i_userId := userId user;
                 i_schoolId := schoolId user;
                 i_dueDate := v_dueDate validated;
                 i_returnedAt := v_returnedAt validated;
                 i_status := v_status validated |} ;;
            storage.updateBook (v_bookId validated)
              {| u_title := None; u_author := None; u_isbn := None;
                 u_category := None;
                 u_status :=
                   Some (if b_availableCopies book - 1 =? 0 then "borrowed"
                         else b_status book);
                 u_totalCopies := None;
                 u_availableCopies := Some (b_availableCopies book - 1);
                 u_schoolId := None |} ;;
            send {| res_status := 201; res_json := TransactionJson (Some transaction) |}
      end
  end.

Definition borrow (user : JwtPayload) (body : BorrowBody) : Handler :=
  {| try_block := borrow_try user body;
     catch_block := respond 500 "Failed to borrow book" |}.

(** POST /api/transactions/:id/return *)
Definition return_try (user : JwtPayload) (id : string) : Prog Response :=
  transaction <- storage.getTransactionById id ;;
  match transaction with
  | None => send (respond 404 "Transaction not found")
  | Some transaction =>
    if negb (truthy (schoolId user))
       || negb (opt_string_eqb (t_schoolId transaction) (schoolId user)) then
      send (respond 403 "This transaction belongs to a different school")
    else
      let isOwner := (t_userId transaction =? userId user)%string in
      let isAdmin := (role user =? "admin")%string
                     || (role user =? "super_admin")%string in
      if negb isOwner && negb isAdmin then
        send (respond 403 "Not authorized")
      else if negb (t_status transaction =? "active")%string then
        send (respond 400 "Book already returned")
      else
        returned <- storage.returnBook id ;;
        book <- storage.getBook (t_bookId transaction) ;;
        match book with
        | Some book =>
            storage.updateBook (t_bookId transaction)
              {| u_title := None; u_author := None; u_isbn := None;
                 u_category := None;
                 u_status := Some "available";
                 u_totalCopies := None;
                 u_availableCopies := Some (b_availableCopies book + 1);
                 u_schoolId := None |} ;;
            send {| res_status := 200; res_json := TransactionJson returned |}
        | None =>
            send {| res_status := 200; res_json := TransactionJson returned |}
        end
  end.

Definition return_ (user : JwtPayload) (id : string) : Handler :=
  {| try_block := return_try user id;
     catch_block := respond 500 "Failed to return book" |}.

(** ** Two requests in flight *)

(** A request in flight: its environment, what is left of its [try] block and
    the response of its [catch] block. *)
Record Task := mkTask {
  task_env : Env;
  task_prog : Prog Response;
  task_catch : Response
}.

Definition start (e : Env) (h : Handler) : Task :=
  {| task_env := e; task_prog := try_block h; task_catch := catch_block h |}.

(** The request performs its next store operation; a request that has
    responded stays as it is. *)
Definition advance (t : Task) (s : Store) : Store * Task :=
  match step (task_env t) (task_prog t) s with
  | Done _ => (s, t)
  | Next s' p =>
      (s', {| task_env := task_env t; task_prog := p; task_catch := task_catch t |})
  | Thrown _ =>
      (s, {| task_env := task_env t; task_prog := Ret (task_catch t);
             task_catch := task_catch t |})
  end.

Definition response_of (t : Task) : option Response :=
  match task_prog t with
  | Ret r => Some r
  | _ => None
  end.

(** A schedule names, operation by operation, which of the two requests goes
    next: [true] the first, [false] the second. *)
Fixpoint interleave (sched : list bool) (s : Store) (a b : Task)
  : Store * Task * Task :=
  match sched with
  | [] => (s, a, b)
  | true :: sched' => let (s', a') := advance a s in interleave sched' s' a' b
  | false :: sched' => let (s', b') := advance b s in interleave sched' s' a b'
  end.

(** Both requests have responded: the final store and the two responses. *)
Definition outcome (c : Store * Task * Task) : option (Store * Response * Response) :=
  match c with
  | (s, a, b) =>
      match response_of a, response_of b with
      | Some ra, Some rb => Some (s, ra, rb)
      | _, _ => None
      end
  end.

(** A sequence of requests, each handled to completion before the next. *)
Inductive Request :=
| Borrow (e : Env) (user : JwtPayload) (body : BorrowBody)
| Return (e : Env) (user : JwtPayload) (id : string)
| ListOverdue (e : Env) (user : JwtPayload).

Definition serve (r : Request) (s : Store) : Store * Response :=
  match r with
  | Borrow e user body => handle e (borrow user body) s
  | Return e user id => handle e (return_ user id) s
  | ListOverdue e user => handle e (overdue user) s
  end.

Fixpoint serve_all (rs : list Request) (s : Store) : Store :=
  match rs with
  | [] => s
  | r :: rs' => serve_all rs' (fst (serve r s))
  end.

(** ** Sample data *)

Module Sample.
Definition book1 : Book :=
  {| b_id := "b1"; b_title := "Dune"; b_author := "Herbert"; b_isbn := "111";
     b_category := "Fiction"; b_status := "available";
     b_totalCopies := 1; b_availableCopies := 1;
     b_schoolId := Some "school-a"; b_createdAt := 0 |}.

Definition book2 : Book :=
  {| b_id := "b2"; b_title := "Emma"; b_author := "Austen"; b_isbn := "222";
     b_category := "Fiction"; b_status := "available";
     b_totalCopies := 2; b_availableCopies := 2;
     b_schoolId := Some "school-b"; b_createdAt := 0 |}.

Definition alice : JwtPayload :=
  {| userId := "alice"; email := "alice@a.example"; role := "user";
     schoolId := Some "school-a" |}.

Definition bob : JwtPayload :=
  {| userId := "bob"; email := "bob@a.example"; role := "user";
     schoolId := Some "school-a" |}.

Definition admin_a : JwtPayload :=
  {| userId := "root-a"; email := "admin@a.example"; role := "admin";
     schoolId := Some "school-a" |}.

Definition carol : JwtPayload :=
  {| userId := "carol"; email := "carol@b.example"; role := "user";
     schoolId := Some "school-b" |}.

Definition body (bid : string) (due : Z) : BorrowBody :=
  {| body_bookId := JStr bid; body_schoolId := JUndefined;
     body_dueDate := ValidDate due; body_returnedAt := JUndefined;
     body_status := JUndefined |}.

Definition loan (id bid uid : string) (sid : option string) (due : Z)
           (st : string) : BorrowTransaction :=
  {| t_id := id; t_bookId := bid; t_userId := uid; t_schoolId := sid;
     t_borrowedAt := 0; t_dueDate := due;
     t_returnedAt := if (st =? "active")%string then None else Some 50;
     t_status := st |}.

(** The ids of the users and of the schools on record. *)
Definition people : list string := ["alice"; "bob"; "root-a"; "carol"].
Definition campuses : list string := ["school-a"; "school-b"].

(** A store with these books and loans, and the users and schools above. *)
Definition store (bs : list Book) (ts : list BorrowTransaction) : Store :=
  {| books := bs; borrowTransactions := ts;
     users := people; schools := campuses |}.

Definition catalog : Store := store [book1; book2] [].

Definition env (t : Z) (u : string) : Env := {| now := t; uuid := u |}.
End Sample.

(** ** The handlers, case by case *)

(** The object literals the handlers pass to the store. *)
Definition borrow_insert (user : JwtPayload) (v : Validated) : InsertBorrowTransaction :=
  {| i_bookId := v_bookId v;
     i_userId := userId user;
     i_schoolId := schoolId user;
     i_dueDate := v_dueDate v;
     i_returnedAt := v_returnedAt v;
     i_status := v_status v |}.

Definition borrow_patch (book : Book) : UpdateBook :=
  {| u_title := None; u_author := None; u_isbn := None; u_category := None;
     u_status :=
       Some (if b_availableCopies book - 1 =? 0 then "borrowed" else b_status book);
     u_totalCopies := None;
     u_availableCopies := Some (b_availableCopies book - 1);
     u_schoolId := None |}.

Definition return_patch (book : Book) : UpdateBook :=
  {| u_title := None; u_author := None; u_isbn := None; u_category := None;
     u_status := Some "available";
     u_totalCopies := None;
     u_availableCopies := Some (b_availableCopies book + 1);
     u_schoolId := None |}.

Definition with_loan (t : BorrowTransaction) (s : Store) : Store :=
  {| books := books s;
     borrowTransactions := (borrowTransactions s ++ [t])%list;
     users := users s;
     schools := schools s |}.

Definition with_patch (id : string) (u : UpdateBook) (s : Store) : Store :=
  {| books := update_books id u (books s);
     borrowTransactions := borrowTransactions s;
     users := users s;
     schools := schools s |}.

Definition with_return (e : Env) (id : string) (s : Store) : Store :=
  {| books := books s;
     borrowTransactions := return_rows e id (borrowTransactions s);
     users := users s;
     schools := schools s |}.

Definition is_owner_or_admin (user : JwtPayload) (t : BorrowTransaction) : bool :=
  (t_userId t =? userId user)%string
  || ((role user =? "admin")%string || (role user =? "super_admin")%string).

Definition same_school (user : JwtPayload) (sid : option string) : bool :=
  truthy (schoolId user) && opt_string_eqb sid (schoolId user).

(** Every way the borrow handler can end, with the store it leaves and the
    response it sends. *)
Inductive BorrowResult (e : Env) (user : JwtPayload) (body : BorrowBody) (s : Store)
  : Store -> Response -> Prop :=
| BorrowInvalid :
    parse body = None ->
    BorrowResult e user body s s {| res_status := 400; res_json := ZodMessage |}
| BorrowNoSchool v :
    parse body = Some v ->
    truthy (schoolId user) = false ->
    BorrowResult e user body s s (respond 400 "User must be associated with a school")
| BorrowNotFound v :
    parse body = Some v ->
    truthy (schoolId user) = true ->
    getBook s (v_bookId v) = None ->
    BorrowResult e user body s s (respond 404 "Book not found")
| BorrowForbidden v book :
    parse body = Some v ->
    truthy (schoolId user) = true ->
    getBook s (v_bookId v) = Some book ->
    opt_string_eqb (b_schoolId book) (schoolId user) = false ->
    BorrowResult e user body s s (respond 403 "This book belongs to a different school")
| BorrowNoCopies v book :
    parse body = Some v ->
    truthy (schoolId user) = true ->
    getBook s (v_bookId v) = Some book ->
    opt_string_eqb (b_schoolId book) (schoolId user) = true ->
    b_availableCopies book <= 0 ->
    BorrowResult e user body s s (respond 400 "No copies available")
| BorrowLimit v book :
    parse body = Some v ->
    truthy (schoolId user) = true ->
    getBook s (v_bookId v) = Some book ->
    opt_string_eqb (b_schoolId book) (schoolId user) = true ->
    0 < b_availableCopies book ->
    (5 <= List.length (getActiveTransactionsByUserId s (userId user)))%nat ->
    BorrowResult e user body s s (respond 400 "Maximum loan limit reached (5 books)")
| BorrowRefused v book err :
    parse body = Some v ->
    truthy (schoolId user) = true ->
    getBook s (v_bookId v) = Some book ->
    opt_string_eqb (b_schoolId book) (schoolId user) = true ->
    0 < b_availableCopies book ->
    (List.length (getActiveTransactionsByUserId s (userId user)) < 5)%nat ->
    insert_error e s (borrow_insert user v) = Some err ->
    BorrowResult e user body s s (respond 500 "Failed to borrow book")
| BorrowOutOfRange v book :
    parse body = Some v ->
    truthy (schoolId user) = true ->
    getBook s (v_bookId v) = Some book ->
    opt_string_eqb (b_schoolId book) (schoolId user) = true ->
    0 < b_availableCopies book ->
    (List.length (getActiveTransactionsByUserId s (userId user)) < 5)%nat ->
    insert_error e s (borrow_insert user v) = None ->
    int4_ok (b_availableCopies book - 1) = false ->
    BorrowResult e user body s
      (with_loan (inserted_row e (borrow_insert user v)) s)
      (respond 500 "Failed to borrow book")
| BorrowCreated v book :
    parse body = Some v ->
    truthy (schoolId user) = true ->
    getBook s (v_bookId v) = Some book ->
    opt_string_eqb (b_schoolId book) (schoolId user) = true ->
    0 < b_availableCopies book ->
    (List.length (getActiveTransactionsByUserId s (userId user)) < 5)%nat ->
    insert_error e s (borrow_insert user v) = None ->
    int4_ok (b_availableCopies book - 1) = true ->
    BorrowResult e user body s
      (with_patch (v_bookId v) (borrow_patch book)
         (with_loan (inserted_row e (borrow_insert user v)) s))
      {| res_status := 201;
         res_json := TransactionJson (Some (inserted_row e (borrow_insert user v))) |}.

(** Every way the return handler can end. *)
Inductive ReturnResult (e : Env) (user : JwtPayload) (id : string) (s : Store)
  : Store -> Response -> Prop :=
| ReturnNotFound :
    getTransactionById s id = None ->
    ReturnResult e user id s s (respond 404 "Transaction not found")
| ReturnOtherSchool t :
    getTransactionById s id = Some t ->
    same_school user (t_schoolId t) = false ->
    ReturnResult e user id s s
      (respond 403 "This transaction belongs to a different school")
| ReturnNotAuthorized t :
    getTransactionById s id = Some t ->
    same_school user (t_schoolId t) = true ->
    is_owner_or_admin user t = false ->
    ReturnResult e user id s s (respond 403 "Not authorized")
| ReturnAlready t :
    getTransactionById s id = Some t ->
    same_school user (t_schoolId t) = true ->
    is_owner_or_admin user t = true ->
    t_status t <> "active" ->
    ReturnResult e user id s s (respond 400 "Book already returned")
| ReturnNoBook t :
    getTransactionById s id = Some t ->
    same_school user (t_schoolId t) = true ->
    is_owner_or_admin user t = true ->
    t_status t = "active" ->
    getBook s (t_bookId t) = None ->
    ReturnResult e user id s (with_return e id s)
      {| res_status := 200;
         res_json := TransactionJson (getTransactionById (with_return e id s) id) |}
| ReturnOutOfRange t book :
    getTransactionById s id = Some t ->
    same_school user (t_schoolId t) = true ->
    is_owner_or_admin user t = true ->
    t_status t = "active" ->
    getBook s (t_bookId t) = Some book ->
    int4_ok (b_availableCopies book + 1) = false ->
    ReturnResult e user id s (with_return e id s)
      (respond 500 "Failed to return book")
| ReturnDone t book :
    getTransactionById s id = Some t ->
    same_school user (t_schoolId t) = true ->
    is_owner_or_admin user t = true ->
    t_status t = "active" ->
    getBook s (t_bookId t) = Some book ->
    int4_ok (b_availableCopies book + 1) = true ->
    ReturnResult e user id s
      (with_patch (t_bookId t) (return_patch book) (with_return e id s))
      {| res_status := 200;
         res_json := TransactionJson (getTransactionById (with_return e id s) id) |}.

(** ** The inventory invariant *)

(** The active loans of a book. *)

Definition active_on (bid : string) (l : list BorrowTransaction) : Z :=
  Z.of_nat (List.length
    (filter (fun t => (t_bookId t =? bid)%string && (t_status t =? "active")%string) l)).

(** The store is consistent when book ids are a key and every book has a
    non-negative number of available copies that, together with the active
    loans of the book, stays within its total, itself an [integer]. *)
Definition book_consistent (l : list BorrowTransaction) (b : Book) : Prop :=
  0 <= b_availableCopies b /\
  b_availableCopies b + active_on (b_id b) l <= b_totalCopies b /\
  b_totalCopies b <= INT4_MAX.

Definition consistent (s : Store) : Prop :=
  NoDup (map b_id (books s)) /\
  Forall (book_consistent (borrowTransactions s)) (books s).

(** A catalog before any loan: the counters of every book are within bounds. *)
Definition fresh_catalog (s : Store) : Prop :=
  borrowTransactions s = [] /\
  NoDup (map b_id (books s)) /\
  Forall (fun b => 0 <= b_availableCopies b <= b_totalCopies b
                   /\ b_totalCopies b <= INT4_MAX) (books s).

(** The stores the lending routes can produce from a fresh catalog. *)
Inductive reachable : Store -> Prop :=
| reachable_fresh s : fresh_catalog s -> reachable s
| reachable_serve s r : reachable s -> reachable (fst (serve r s)).

(** ** Two Borrow requests for the last copy *)

(** Where a Borrow request stands between its store operations: before
    [getBook]; with the book read and the availability check passed; with
    the loan limit passed; with the loan inserted; or with its response. *)
Inductive Phase :=
| AtStart
| Checked (book : Book)
| Creating (book : Book)
| Updating (book : Book) (row : BorrowTransaction)
| Responded (r : Response).

(** What is left of [borrow_try] from its last, third and second store
    operation on; [advance_phase] below shows that the handler itself passes
    through these programs. *)
Definition borrow_from_update (v : Validated) (book : Book)
           (transaction : BorrowTransaction) : Prog Response :=
  storage.updateBook (v_bookId v) (borrow_patch book) ;;
  send {| res_status := 201; res_json := TransactionJson (Some transaction) |}.

Definition borrow_from_create (user : JwtPayload) (v : Validated) (book : Book)
  : Prog Response :=
  transaction <- storage.createTransaction (borrow_insert user v) ;;
  borrow_from_update v book transaction.

Definition borrow_from_count (user : JwtPayload) (v : Validated) (book : Book)
  : Prog Response :=
  activeLoans <- storage.getActiveTransactionsByUserId (userId user) ;;
  if (5 <=? List.length activeLoans)%nat then
    send (respond 400 "Maximum loan limit reached (5 books)")
  else borrow_from_create user v book.

Definition prog_at (user : JwtPayload) (body : BorrowBody) (v : Validated)
           (ph : Phase) : Prog Response :=
  match ph with
  | AtStart => borrow_try user body
  | Checked book => borrow_from_count user v book
  | Creating book => borrow_from_create user v book
  | Updating book row => borrow_from_update v book row
  | Responded r => Ret r
  end.

Definition task_at (e : Env) (user : JwtPayload) (body : BorrowBody) (v : Validated)
           (ph : Phase) : Task :=
  {| task_env := e; task_prog := prog_at user body v ph;
     task_catch := respond 500 "Failed to borrow book" |}.

(** The store operation a request at a phase performs, and the phase it
    reaches. *)
Definition phase_step (e : Env) (user : JwtPayload) (v : Validated)
           (ph : Phase) (s : Store) : Store * Phase :=
  match ph with
  | AtStart =>
      match getBook s (v_bookId v) with
      | None => (s, Responded (respond 404 "Book not found"))
      | Some book =>
          if negb (opt_string_eqb (b_schoolId book) (schoolId user)) then
            (s, Responded (respond 403 "This book belongs to a different school"))
          else if b_availableCopies book <=? 0 then
            (s, Responded (respond 400 "No copies available"))
          else (s, Checked book)
      end
  | Checked book =>
      if (5 <=? List.length (getActiveTransactionsByUserId s (userId user)))%nat then
        (s, Responded (respond 400 "Maximum loan limit reached (5 books)"))
      else (s, Creating book)
  | Creating book =>
      match insert_error e s (borrow_insert user v) with
      | Some _ => (s, Responded (respond 500 "Failed to borrow book"))
      | None =>
          (with_loan (inserted_row e (borrow_insert user v)) s,
           Updating book (inserted_row e (borrow_insert user v)))
      end
  | Updating book row =>
      if int4_ok (b_availableCopies book - 1) then
        (with_patch (v_bookId v) (borrow_patch book) s,
         Responded {| res_status := 201; res_json := TransactionJson (Some row) |})
      else (s, Responded (respond 500 "Failed to borrow book"))
  | Responded r => (s, Responded r)
  end.

(** What makes a request, handled alone in [s0], borrow the book [book0] of
    id [bid]: its body passes the schema and names the book, the actor is of
    the book's school and below the loan limit, and the store accepts the
    row of the loan. *)
Record Eligible (s0 : Store) (bid : string) (book0 : Book)
       (e : Env) (user : JwtPayload) (body : BorrowBody) (v : Validated) : Prop := {
  el_parse : parse body = Some v;
  el_truthy : truthy (schoolId user) = true;
  el_book : v_bookId v = bid;
  el_school : opt_string_eqb (b_schoolId book0) (schoolId user) = true;
  el_limit : (List.length (getActiveTransactionsByUserId s0 (userId user)) < 5)%nat;
  el_storable : insert_error e s0 (borrow_insert user v) = None
}.

(** A request past the availability check read the last copy. *)
Definition held_ok (ph : Phase) : Prop :=
  match ph with
  | Checked b | Creating b | Updating b _ => b_availableCopies b = 1
  | _ => True
  end.

(** The book is on record with at most one copy available, and the users
    and schools on record are those of [s0]. *)
Definition store_ok (s0 : Store) (bid : string) (s : Store) : Prop :=
  (exists b, getBook s bid = Some b /\ b_availableCopies b <= 1)
  /\ users s = users s0 /\ schools s = schools s0.

(** A request that nothing can stop from answering 201: no loan has been
    inserted since [s0] when it counts its loans, the store accepts its row
    when it inserts, and its decrement writes 0. *)
Definition lead (s0 : Store) (e : Env) (user : JwtPayload) (v : Validated)
           (ph : Phase) (s : Store) : Prop :=
  match ph with
  | AtStart => False
  | Checked _ => borrowTransactions s = borrowTransactions s0
  | Creating _ => insert_error e s (borrow_insert user v) = None
  | Updating _ _ => True
  | Responded r => res_status r = 201
  end.

Definition race_inv (s0 : Store) (bid : string)
           (eA : Env) (uA : JwtPayload) (vA : Validated)
           (eB : Env) (uB : JwtPayload) (vB : Validated)
           (s : Store) (pA pB : Phase) : Prop :=
  store_ok s0 bid s /\ held_ok pA /\ held_ok pB
  /\ ((pA = AtStart /\ pB = AtStart /\ s = s0)
      \/ lead s0 eA uA vA pA s \/ lead s0 eB uB vB pB s).

(** The store operations a request at a phase has left, at most. *)
Definition rank (ph : Phase) : nat :=
  match ph with
  | AtStart => 4
  | Checked _ => 3
  | Creating _ => 2
  | Updating _ _ => 1
  | Responded _ => 0
  end.

(** The turns a schedule gives to one of the two requests. *)
Definition turns (who : bool) (sched : list bool) : nat :=
  List.length (filter (Bool.eqb who) sched).

(** A request handled to completion from where it stands. *)
Definition finish (t : Task) (s : Store) : Store * Response :=
  match exec (task_env t) (task_prog t) s with
  | (s', inr r) => (s', r)
  | (s', inl _) => (s', task_catch t)
  end.

Definition responded (t : Task) (r : Response) : Task :=
  {| task_env := task_env t; task_prog := Ret r; task_catch := task_catch t |}.

(** * The rest of the lending core: reads, the catalog and the middleware *)

(** ** server/storage.ts: the other queries *)

Definition getAllBooks (s : Store) (sid : option string) : list Book :=
  if truthy sid then
    filter (fun b => opt_string_eqb (b_schoolId b) sid) (books s)
  else books s.

Definition getBookByIsbn (s : Store) (isbn : string) (sid : option string)
  : option Book :=
  if truthy sid then
    find (fun b => (b_isbn b =? isbn)%string && opt_string_eqb (b_schoolId b) sid)
         (books s)
  else find (fun b => (b_isbn b =? isbn)%string) (books s).

Definition getAllTransactions (s : Store) (sid : option string)
  : list BorrowTransaction :=
  if truthy sid then
    filter (fun t => opt_string_eqb (t_schoolId t) sid) (borrowTransactions s)
  else borrowTransactions s.

Definition getTransactionsByUserId (s : Store) (uid : string)
  : list BorrowTransaction :=
  filter (fun t => (t_userId t =? uid)%string) (borrowTransactions s).

Definition getTransactionsByUserAndSchool (s : Store) (uid sid : string)
  : list BorrowTransaction :=
  filter (fun t => (t_userId t =? uid)%string
                   && opt_string_eqb (t_schoolId t) (Some sid))
         (borrowTransactions s).

(** ** server/routes.ts: the read routes *)

(** What a route sends: [res.status(code).json(value)], the error shape
    [res.status(code).json({ message })], or the 400 that carries the text
    of a [ZodError]. *)
Inductive Reply (A : Type) : Type :=
| Body (code : Z) (value : A)
| Msg (code : Z) (message : string)
| Zod.

Arguments Body {A} code value.
Arguments Msg {A} code message.
Arguments Zod {A}.

Definition reply_code {A : Type} (r : Reply A) : Z :=
  match r with
  | Body code _ => code
  | Msg code _ => code
  | Zod => 400
  end.

(** GET /api/transactions *)
Definition list_transactions (user : JwtPayload) (s : Store)
  : Reply (list BorrowTransaction) :=
  if (role user =? "admin")%string then
    let schoolId := if truthy (schoolId user) then schoolId user else None in
    Body 200 (getAllTransactions s schoolId)
  else Body 200 (getTransactionsByUserId s (userId user)).

(** JavaScript [x || d] on a [string | undefined]: [undefined] and the empty
    string give [d]. *)
Definition or_default (x : option string) (d : string) : string :=
  match x with
  | Some v => if (v =? "")%string then d else v
  | None => d
  end.

(** An element of the [loansWithBooks] array. *)
Record LoanWithBook := mkLoanWithBook {
  lw_id : string;
  lw_bookId : string;
  lw_bookTitle : string;
  lw_bookAuthor : string;
  lw_bookIsbn : string;
  lw_borrowedAt : Z;
  lw_dueDate : Z;
  lw_returnedAt : option Z;
  lw_status : string
}.

(** The callback of [transactions.map] in the two loan views. *)
Definition loan_with_book (schoolBooks : list Book) (t : BorrowTransaction)
  : LoanWithBook :=
  let book := find (fun b => (b_id b =? t_bookId t)%string) schoolBooks in
  {| lw_id := t_id t;
     lw_bookId := t_bookId t;
     lw_bookTitle := or_default (option_map b_title book) "Unknown";
     lw_bookAuthor := or_default (option_map b_author book) "Unknown";
     lw_bookIsbn := or_default (option_map b_isbn book) "";
     lw_borrowedAt := t_borrowedAt t;
     lw_dueDate := t_dueDate t;
     lw_returnedAt := t_returnedAt t;
     lw_status := t_status t |}.

(** GET /api/transactions/my-loans *)
Definition my_loans (user : JwtPayload) (s : Store) : Reply (list LoanWithBook) :=
  match schoolId user with
  | Some sid =>
      if truthy (Some sid) then
        let transactions := getTransactionsByUserAndSchool s (userId user) sid in
        let schoolBooks := getAllBooks s (Some sid) in
        Body 200 (map (loan_with_book schoolBooks) transactions)
      else Body 200 []
  | None => Body 200 []
  end.

(** GET /api/books *)
Definition list_books (user : JwtPayload) (s : Store) : Reply (list Book) :=
  let schoolId := if truthy (schoolId user) then schoolId user else None in
  Body 200 (getAllBooks s schoolId).

(** GET /api/books/:id *)
Definition get_book (user : JwtPayload) (id : string) (s : Store) : Reply Book :=
  match getBook s id with
  | None => Msg 404 "Book not found"
  | Some book =>
      if truthy (schoolId user)
         && negb (opt_string_eqb (b_schoolId book) (schoolId user)) then
        Msg 403 "Access denied"
      else Body 200 book
  end.

(** ** server/auth.ts: the middleware *)

(** [s.split(" ")]: the pieces of [s] between single spaces. *)
Fixpoint split_space (s : string) : list string :=
  match s with
  | EmptyString => [EmptyString]
  | String c rest =>
      if Ascii.eqb c " "%char then EmptyString :: split_space rest
      else match split_space rest with
           | piece :: pieces => String c piece :: pieces
           | [] => [String c EmptyString]
           end
  end.

(** What a middleware does with a request: it calls [next()] with [req.user]
    set, or it ends the request with an error. *)
Inductive Gate :=
| Pass (user : JwtPayload)
| Reject (code : Z) (message : string).

(** [authenticateToken]. [verifyToken] is [jwt.verify] with the server's
    secret: the payload of a token it accepts, [None] when it throws. The
    argument is [req.headers["authorization"]]. *)
Definition authenticateToken (verifyToken : string -> option JwtPayload)
           (authHeader : option string) : Gate :=
  let token :=
    match authHeader with
    | None => None
    | Some h => if (h =? "")%string then Some h else nth_error (split_space h) 1
    end in
  match token with
  | None => Reject 401 "Authentication required"
  | Some t =>
      if (t =? "")%string then Reject 401 "Authentication required"
      else match verifyToken t with
           | Some user => Pass user
           | None => Reject 403 "Invalid or expired token"
           end
  end.

(** [requireRole(...allowedRoles)], after [authenticateToken] has set
    [req.user]. *)
Definition requireRole (allowedRoles : list string) (user : JwtPayload) : Gate :=
  if negb (includes allowedRoles (role user)) then
    Reject 403 "Insufficient permissions"
  else Pass user.

(** ** Invariants of the lending routes *)

(** No member holds more than five active loans. *)
Definition within_loan_limit (s : Store) : Prop :=
  forall uid, (List.length (getActiveTransactionsByUserId s uid) <= 5)%nat.

(** Every loan is of a book on record, of the loan's school. *)
Definition loans_match_books (s : Store) : Prop :=
  forall t, In t (borrowTransactions s) ->
    exists book, getBook s (t_bookId t) = Some book
                 /\ b_schoolId book = t_schoolId t.

(** A loan with a return time is a returned loan. *)
Definition return_times_ok (s : Store) : Prop :=
  forall t, In t (borrowTransactions s) ->
    t_returnedAt t <> None -> t_status t = "returned".

(** The stored status of a book says "borrowed" exactly when no copy is
    available. *)
Definition status_follows_counter (s : Store) : Prop :=
  forall b, In b (books s) ->
    (b_status b = "borrowed" <-> b_availableCopies b = 0).

(** The columns of a book that lending never writes. *)
Definition book_identity (b : Book)
  : string * string * string * string * string * Z * option string * Z :=
  (b_id b, b_title b, b_author b, b_isbn b, b_category b, b_totalCopies b,
   b_schoolId b, b_createdAt b).

(** The columns of a loan that are fixed when it is created. *)
Definition loan_identity (t : BorrowTransaction)
  : string * string * string * option string * Z * Z :=
  (t_id t, t_bookId t, t_userId t, t_schoolId t, t_borrowedAt t, t_dueDate t).

(** The string has a space in it. *)
Fixpoint has_space (s : string) : bool :=
  match s with
  | EmptyString => false
  | String c rest => Ascii.eqb c " "%char || has_space rest
  end.

(** ** The catalog: server/storage.ts and the book routes *)

(** [InsertBook], the result of [insertBookSchema.parse]: the columns of
    [books] without [id] and [createdAt]; the columns with a default are
    optional. *)
Record InsertBook := mkInsertBook {
  ib_title : string;
  ib_author : string;
  ib_isbn : string;
  ib_category : string;
  ib_status : option string;
  ib_totalCopies : option Z;
  ib_availableCopies : option Z;
  ib_schoolId : option string
}.

(** The row [db.insert(books).values(book)] writes: [id] and [createdAt]
    from their defaults, [status], [totalCopies] and [availableCopies] from
    theirs when the value has none. *)
Definition created_book (e : Env) (i : InsertBook) : Book :=
  {| b_id := uuid e;
     b_title := ib_title i;
     b_author := ib_author i;
     b_isbn := ib_isbn i;
     b_category := ib_category i;
     b_status := match ib_status i with Some x => x | None => "available" end;
     b_totalCopies := match ib_totalCopies i with Some x => x | None => 1 end;
     b_availableCopies := match ib_availableCopies i with Some x => x | None => 1 end;
     b_schoolId := ib_schoolId i;
     b_createdAt := now e |}.

(** [unique("books_isbn_school_unique").on(table.isbn, table.schoolId)]: the
    row has this ISBN and this school; a row without a school conflicts with
    none. *)
Definition same_key (isbn : string) (sid : option string) (b : Book) : bool :=
  match sid, b_schoolId b with
  | Some x, Some y => (b_isbn b =? isbn)%string && (y =? x)%string
  | _, _ => false
  end.

Fixpoint keys_unique (l : list Book) : bool :=
  match l with
  | [] => true
  | b :: rest =>
      negb (existsb (same_key (b_isbn b) (b_schoolId b)) rest) && keys_unique rest
  end.

(** [createBook]: the insert is refused when a counter is out of the integer
    range, when the id is taken or the school already has the ISBN, and
    when the school of the row is not on record. *)
Definition createBook (e : Env) (s : Store) (i : InsertBook)
  : DbError + (Store * Book) :=
  let b := created_book e i in
  if negb (int4_ok (b_totalCopies b) && int4_ok (b_availableCopies b)) then
    inl NumericOutOfRange
  else if existsb (fun x => (b_id x =? b_id b)%string) (books s)
          || existsb (same_key (b_isbn b) (b_schoolId b)) (books s) then
    inl UniqueViolation
  else if negb (opt_on_record (schools s) (b_schoolId b)) then
    inl ForeignKeyViolation
  else
    inr ({| books := (books s ++ [b])%list;
            borrowTransactions := borrowTransactions s;
            users := users s;
            schools := schools s |}, b).

(** The update has no key at all: [.set({})]. *)
Definition update_is_empty (u : UpdateBook) : bool :=
  match u_title u, u_author u, u_isbn u, u_category u, u_status u,
        u_totalCopies u, u_availableCopies u, u_schoolId u with
  | None, None, None, None, None, None, None, None => true
  | _, _, _, _, _, _, _, _ => false
  end.

(** [updateBook] as the PATCH route calls it, with an update that may write
    any column or none: an update without a key throws before it reaches
    the store; besides what [updateBook] above refuses, the store refuses a
    school that is not on record and a result in which a school has an ISBN
    twice. [None] is the exception. *)
Definition updateBook_any (s : Store) (id : string) (u : UpdateBook)
  : option (Store * option Book) :=
  if update_is_empty u then None
  else
    match updateBook s id u with
    | inl _ => None
    | inr (s', updated) =>
        let school_known :=
          match u_schoolId u, getBook s id with
          | Some (Some x), Some _ => on_record (schools s) x
          | _, _ => true
          end in
        if school_known && keys_unique (books s') then Some (s', updated) else None
    end.

(** [deleteBook]: [borrow_transactions.book_id] references [books.id], so
    the store refuses to delete a book that a loan names. [None] is the
    exception; otherwise the store and [result.length > 0]. *)
Definition deleteBook (s : Store) (id : string) : option (Store * bool) :=
  let deleted := filter (fun b => (b_id b =? id)%string) (books s) in
  match deleted with
  | [] => Some (s, false)
  | _ :: _ =>
      if existsb (fun t => (t_bookId t =? id)%string) (borrowTransactions s) then
        None
      else
        Some ({| books := filter (fun b => negb (b_id b =? id)%string) (books s);
                 borrowTransactions := borrowTransactions s;
                 users := users s;
                 schools := schools s |}, true)
  end.

(** The keys of the result of [insertBookSchema.parse({ ...req.body,
    schoolId })] that come from the body: the route overwrites the body's
    [schoolId] with the actor's before it parses. *)
Record BookFields := mkBookFields {
  bf_title : string;
  bf_author : string;
  bf_isbn : string;
  bf_category : string;
  bf_status : option string;
  bf_totalCopies : option Z;
  bf_availableCopies : option Z
}.

Definition with_school (f : BookFields) (sid : option string) : InsertBook :=
  {| ib_title := bf_title f;
     ib_author := bf_author f;
     ib_isbn := bf_isbn f;
     ib_category := bf_category f;
     ib_status := bf_status f;
     ib_totalCopies := bf_totalCopies f;
     ib_availableCopies := bf_availableCopies f;
     ib_schoolId := sid |}.

(** POST /api/books, behind [requireRole("admin", "super_admin")]. [parsed]
    is what the schema makes of the body's own keys, [None] when it throws a
    [ZodError]. *)
Definition create_book (e : Env) (user : JwtPayload) (parsed : option BookFields)
           (s : Store) : Store * Reply Book :=
  match requireRole ["admin"; "super_admin"] user with
  | Reject code m => (s, Msg code m)
  | Pass _ =>
      if negb (truthy (schoolId user)) then
        (s, Msg 400 "Admin must be associated with a school to add books")
      else
        match parsed with
        | None => (s, Zod)
        | Some fields =>
            let validated := with_school fields (schoolId user) in
            match getBookByIsbn s (ib_isbn validated) (schoolId user) with
            | Some _ => (s, Msg 400 "Book with this ISBN already exists")
            | None =>
                match createBook e s validated with
                | inr (s', book) => (s', Body 201 book)
                | inl _ => (s, Msg 500 "Failed to create book")
                end
            end
        end
  end.

(** PATCH /api/books/:id, behind [requireRole("admin", "super_admin")].
    [parsed] is [updateBookSchema.parse(req.body)], [None] when it throws. *)
Definition patch_book (user : JwtPayload) (id : string)
           (parsed : option UpdateBook) (s : Store) : Store * Reply (option Book) :=
  match requireRole ["admin"; "super_admin"] user with
  | Reject code m => (s, Msg code m)
  | Pass _ =>
      match getBook s id with
      | None => (s, Msg 404 "Book not found")
      | Some book =>
          if truthy (schoolId user)
             && negb (opt_string_eqb (b_schoolId book) (schoolId user)) then
            (s, Msg 403 "Access denied")
          else
            match parsed with
            | None => (s, Zod)
            | Some validated =>
                match updateBook_any s id validated with
                | Some (s', updatedBook) => (s', Body 200 updatedBook)
                | None => (s, Msg 500 "Failed to update book")
                end
            end
      end
  end.

(** DELETE /api/books/:id, behind [requireRole("admin", "super_admin")]. *)
Definition delete_book (user : JwtPayload) (id : string) (s : Store)
  : Store * Reply unit :=
  match requireRole ["admin"; "super_admin"] user with
  | Reject code m => (s, Msg code m)
  | Pass _ =>
      match getBook s id with
      | None => (s, Msg 404 "Book not found")
      | Some book =>
          if truthy (schoolId user)
             && negb (opt_string_eqb (b_schoolId book) (schoolId user)) then
            (s, Msg 403 "Access denied")
          else
            match deleteBook s id with
            | Some (s', deleted) =>
                if negb deleted then (s', Msg 404 "Book not found")
                else (s', Msg 200 "Book deleted successfully")
            | None => (s, Msg 500 "Failed to delete book")
            end
      end
  end.

(** A request to any of the routes that write the store, each handled to
    completion before the next. *)
Inductive Call :=
| Lend (r : Request)
| CreateBook (e : Env) (user : JwtPayload) (parsed : option BookFields)
| PatchBook (user : JwtPayload) (id : string) (parsed : option UpdateBook)
| DeleteBook (user : JwtPayload) (id : string).

Definition serve_call (c : Call) (s : Store) : Store :=
  match c with
  | Lend r => fst (serve r s)
  | CreateBook e user parsed => fst (create_book e user parsed s)
  | PatchBook user id parsed => fst (patch_book user id parsed s)
  | DeleteBook user id => fst (delete_book user id s)
  end.

Fixpoint serve_calls (cs : list Call) (s : Store) : Store :=
  match cs with
  | [] => s
  | c :: cs' => serve_calls cs' (serve_call c s)
  end.

(** Every loan names a book on record. *)
Definition loans_have_books (s : Store) : Prop :=
  forall t, In t (borrowTransactions s) -> getBook s (t_bookId t) <> None.

(** * Proofs *)

(** ** The handlers meet their case analyses *)

(** Runs a handler up to the next test on a value of the store. *)
Ltac run_handler :=
  cbn [exec pbind send fst snd try_block catch_block negb orb andb
       storage.getBook storage.updateBook storage.getActiveTransactionsByUserId
       storage.getTransactionById storage.createTransaction storage.returnBook
       storage.getOverdueTransactions].

Lemma borrow_result e user body s :
  BorrowResult e user body s
    (fst (handle e (borrow user body) s)) (snd (handle e (borrow user body) s)).
Proof.
  unfold handle, borrow, borrow_try; run_handler.
  destruct (parse body) as [v|] eqn:Hp; run_handler; [|now apply BorrowInvalid].
  destruct (truthy (schoolId user)) eqn:Ht; run_handler;
    [|now apply BorrowNoSchool with v].
  destruct (getBook s (v_bookId v)) as [book|] eqn:Hb; run_handler;
    [|now apply BorrowNotFound with v].
  destruct (opt_string_eqb (b_schoolId book) (schoolId user)) eqn:Hs; run_handler;
    [|now apply BorrowForbidden with v book].
  destruct (Z.leb_spec (b_availableCopies book) 0) as [Ha|Ha]; run_handler;
    [now apply BorrowNoCopies with v book|].
  destruct (Nat.leb_spec 5 (List.length (getActiveTransactionsByUserId s (userId user))))
    as [Hl|Hl]; run_handler; [now apply BorrowLimit with v book|].
  unfold createTransaction.
  destruct (insert_error e s _) as [err|] eqn:Hd; run_handler.
  { now apply BorrowRefused with v book err. }
  unfold updateBook; cbn [u_totalCopies u_availableCopies opt_int4_ok andb].
  destruct (int4_ok (b_availableCopies book - 1)) eqn:Hr; run_handler.
  - now apply (BorrowCreated e user body s v book).
  - now apply (BorrowOutOfRange e user body s v book).
Qed.

Lemma return_result e user id s :
  ReturnResult e user id s
    (fst (handle e (return_ user id) s)) (snd (handle e (return_ user id) s)).
Proof.
  unfold handle, return_, return_try; run_handler.
  destruct (getTransactionById s id) as [t|] eqn:Ht; run_handler;
    [|now apply ReturnNotFound].
  destruct (same_school user (t_schoolId t)) eqn:Hsame.
  2:{ replace (negb (truthy (schoolId user))
               || negb (opt_string_eqb (t_schoolId t) (schoolId user))) with true.
      - run_handler. now apply ReturnOtherSchool with t.
      - unfold same_school in Hsame.
        destruct (truthy (schoolId user)), (opt_string_eqb (t_schoolId t) (schoolId user));
          simpl in *; congruence. }
  replace (negb (truthy (schoolId user))
           || negb (opt_string_eqb (t_schoolId t) (schoolId user))) with false.
  2:{ unfold same_school in Hsame.
      destruct (truthy (schoolId user)), (opt_string_eqb (t_schoolId t) (schoolId user));
        simpl in *; congruence. }
  destruct (is_owner_or_admin user t) eqn:Hok.
  2:{ replace (negb (t_userId t =? userId user)%string
               && negb ((role user =? "admin")%string || (role user =? "super_admin")%string))
        with true.
      - run_handler. now apply ReturnNotAuthorized with t.
      - unfold is_owner_or_admin in Hok. rewrite <- negb_orb, Hok. reflexivity. }
  replace (negb (t_userId t =? userId user)%string
           && negb ((role user =? "admin")%string || (role user =? "super_admin")%string))
    with false.
  2:{ unfold is_owner_or_admin in Hok. rewrite <- negb_orb, Hok. reflexivity. }
  destruct (String.eqb_spec (t_status t) "active") as [Hact|Hact]; run_handler.
  2:{ now apply ReturnAlready with t. }
  unfold returnBook; run_handler.
  change {| books := books s;
            borrowTransactions := return_rows e id (borrowTransactions s);
            users := users s;
            schools := schools s |}
    with (with_return e id s).
  change (getBook (with_return e id s) (t_bookId t)) with (getBook s (t_bookId t)).
  destruct (getBook s (t_bookId t)) as [book|] eqn:Hb; run_handler.
  2:{ now apply (ReturnNoBook e user id s t). }
  unfold updateBook; cbn [u_totalCopies u_availableCopies opt_int4_ok andb].
  destruct (int4_ok (b_availableCopies book + 1)) eqn:Hr; run_handler.
  - now apply (ReturnDone e user id s t book).
  - now apply (ReturnOutOfRange e user id s t book).
Qed.

(** ** What the store accepts *)

Lemma insert_error_none e s i :
  insert_error e s i = None <->
  timestamp_ok (i_dueDate i) = true
  /\ opt_timestamp_ok (i_returnedAt i) = true
  /\ getTransactionById s (uuid e) = None
  /\ getBook s (i_bookId i) <> None
  /\ on_record (users s) (i_userId i) = true
  /\ opt_on_record (schools s) (i_schoolId i) = true.
Proof.
  unfold insert_error.
  destruct (timestamp_ok (i_dueDate i)), (opt_timestamp_ok (i_returnedAt i));
    cbn [andb negb]; try (split; [discriminate|intuition discriminate]).
  destruct (getTransactionById s (uuid e));
    [split; [discriminate|intuition discriminate]|].
  destruct (getBook s (i_bookId i)); [|split; [discriminate|intuition congruence]].
  destruct (on_record (users s) (i_userId i)),
    (opt_on_record (schools s) (i_schoolId i)); cbn [andb];
    split; intuition discriminate.
Qed.

Lemma insert_error_fresh e s i :
  insert_error e s i = None -> getTransactionById s (uuid e) = None.
Proof. intros H. now apply insert_error_none in H. Qed.

(** The store accepts a row after whatever left the loans, the users and
    the schools as they were and kept the book on record. *)
Lemma insert_error_frame e s0 s i :
  borrowTransactions s = borrowTransactions s0 ->
  users s = users s0 ->
  schools s = schools s0 ->
  getBook s (i_bookId i) <> None ->
  insert_error e s0 i = None -> insert_error e s i = None.
Proof.
  intros Ht Hu Hs Hb H. apply insert_error_none in H as (H1 & H2 & H3 & _ & H5 & H6).
  apply insert_error_none. unfold getTransactionById in *.
  rewrite Ht, Hu, Hs. tauto.
Qed.

(** ** Rows after an update *)

Lemma set_book_id u b : b_id (set_book u b) = b_id b.
Proof. reflexivity. Qed.

Lemma update_books_ids id u l : map b_id (update_books id u l) = map b_id l.
Proof.
  unfold update_books. induction l as [|b l IH]; cbn [map]; [reflexivity|].
  rewrite IH. now destruct (b_id b =? id)%string.
Qed.

Lemma getBook_with_patch id u s id' :
  getBook (with_patch id u s) id' =
  option_map (fun b => if (b_id b =? id)%string then set_book u b else b)
             (getBook s id').
Proof.
  unfold getBook, with_patch, update_books; cbn [books].
  induction (books s) as [|b l IH]; cbn [map find option_map]; [reflexivity|].
  destruct (b_id b =? id)%string eqn:E; cbn [b_id set_book];
    destruct (b_id b =? id')%string; cbn [option_map]; try rewrite E; auto.
Qed.

Lemma getBook_with_return e id s id' :
  getBook (with_return e id s) id' = getBook s id'.
Proof. reflexivity. Qed.

Lemma getBook_with_loan t s id : getBook (with_loan t s) id = getBook s id.
Proof. reflexivity. Qed.

Lemma getTransactionById_with_patch id u s id' :
  getTransactionById (with_patch id u s) id' = getTransactionById s id'.
Proof. reflexivity. Qed.

Lemma getTransactionById_with_return e id s id' :
  getTransactionById (with_return e id s) id' =
  option_map (fun t => if (t_id t =? id)%string then set_returned e t else t)
             (getTransactionById s id').
Proof.
  unfold getTransactionById, with_return, return_rows; cbn [borrowTransactions].
  induction (borrowTransactions s) as [|t l IH]; cbn [map find option_map];
    [reflexivity|].
  destruct (t_id t =? id)%string eqn:E; cbn [t_id set_returned];
    destruct (t_id t =? id')%string; cbn [option_map]; try rewrite E; auto.
Qed.

Lemma getTransactionById_with_loan t s id :
  getTransactionById (with_loan t s) id =
  match getTransactionById s id with
  | Some x => Some x
  | None => if (t_id t =? id)%string then Some t else None
  end.
Proof.
  unfold getTransactionById, with_loan; cbn [borrowTransactions].
  induction (borrowTransactions s) as [|x l IH]; cbn [app find]; [reflexivity|].
  now destruct (t_id x =? id)%string.
Qed.

Lemma find_some_id {A} (key : A -> string) id l x :
  find (fun a => (key a =? id)%string) l = Some x -> In x l /\ key x = id.
Proof.
  intros H. apply find_some in H. destruct H as [Hin Heq].
  split; [assumption|]. now apply String.eqb_eq.
Qed.

(** With a primary key, the row [getBook] finds is the only one of its id. *)
Lemma getBook_unique s b :
  NoDup (map b_id (books s)) -> In b (books s) -> getBook s (b_id b) = Some b.
Proof.
  unfold getBook. induction (books s) as [|x l IH]; cbn; [easy|].
  intros Hnd [->|Hin].
  - now rewrite String.eqb_refl.
  - inversion Hnd as [|? ? Hx Hl]; subst.
    destruct (String.eqb_spec (b_id x) (b_id b)) as [Heq|Hne]; [|now apply IH].
    exfalso. apply Hx. rewrite Heq. now apply in_map.
Qed.

Lemma active_on_nonneg bid l : 0 <= active_on bid l.
Proof. unfold active_on. lia. Qed.

Lemma active_on_cons bid t l :
  active_on bid (t :: l) =
  (if (t_bookId t =? bid)%string && (t_status t =? "active")%string then 1 else 0)
  + active_on bid l.
Proof.
  unfold active_on; cbn [filter].
  destruct ((t_bookId t =? bid)%string && (t_status t =? "active")%string);
    cbn [List.length]; lia.
Qed.

Lemma active_on_app bid l1 l2 :
  active_on bid (l1 ++ l2) = active_on bid l1 + active_on bid l2.
Proof.
  induction l1 as [|t l1 IH]; cbn [app].
  - unfold active_on at 2; cbn. lia.
  - rewrite !active_on_cons, IH. lia.
Qed.

Lemma active_on_snoc bid l t :
  active_on bid (l ++ [t]) =
  active_on bid l
  + (if (t_bookId t =? bid)%string && (t_status t =? "active")%string then 1 else 0).
Proof.
  rewrite active_on_app, active_on_cons. unfold active_on at 2; cbn [filter List.length].
  lia.
Qed.

Lemma active_on_return_rows bid e id l :
  active_on bid (return_rows e id l) <= active_on bid l.
Proof.
  induction l as [|t l IH]; cbn [return_rows map]; [lia|].
  fold (return_rows e id l). rewrite !active_on_cons.
  destruct (t_id t =? id)%string; cbn [set_returned t_bookId t_status].
  - replace ("returned" =? "active")%string with false by reflexivity.
    rewrite andb_false_r.
    destruct ((t_bookId t =? bid)%string && (t_status t =? "active")%string); lia.
  - lia.
Qed.

(** Returning the active loan that [getTransactionById] finds frees one copy
    of its book. *)
Lemma active_on_returned e id l t :
  find (fun x => (t_id x =? id)%string) l = Some t ->
  t_status t = "active" ->
  active_on (t_bookId t) (return_rows e id l) + 1 <= active_on (t_bookId t) l.
Proof.
  induction l as [|x l IH]; cbn [find return_rows map]; [discriminate|].
  fold (return_rows e id l). intros Hf Hact. rewrite !active_on_cons.
  destruct (t_id x =? id)%string.
  - injection Hf as ->. cbn [set_returned t_bookId t_status].
    rewrite Hact, String.eqb_refl.
    replace ("returned" =? "active")%string with false by reflexivity.
    replace ("active" =? "active")%string with true by reflexivity.
    cbn [andb].
    pose proof (active_on_return_rows (t_bookId t) e id l). lia.
  - specialize (IH Hf Hact). lia.
Qed.

Lemma fresh_catalog_consistent s : fresh_catalog s -> consistent s.
Proof.
  intros (Hl & Hnd & Hb). split; [assumption|].
  rewrite Hl. eapply Forall_impl; [|exact Hb].
  intros b (Ha & Ht). unfold book_consistent, active_on; cbn. lia.
Qed.

Lemma int4_ok_true z : INT4_MIN <= z <= INT4_MAX -> int4_ok z = true.
Proof.
  intros H. unfold int4_ok. apply andb_true_iff. split; apply Z.leb_le; lia.
Qed.

Lemma consistent_found s id book :
  consistent s -> getBook s id = Some book ->
  In book (books s) /\ b_id book = id /\ book_consistent (borrowTransactions s) book.
Proof.
  intros [_ Hall] Hg. apply find_some_id in Hg as [Hin Hid].
  repeat split; try assumption; rewrite Forall_forall in Hall; now apply Hall.
Qed.

Lemma consistent_return_rows e id s :
  consistent s -> consistent (with_return e id s).
Proof.
  intros [Hnd Hall]. split; [exact Hnd|]. cbn [with_return books borrowTransactions].
  eapply Forall_impl; [|exact Hall].
  intros b (H0 & H1 & H2). unfold book_consistent.
  pose proof (active_on_return_rows (b_id b) e id (borrowTransactions s)). lia.
Qed.

Lemma consistent_borrow e user body s :
  consistent s -> consistent (fst (handle e (borrow user body) s)).
Proof.
  intros Hc. pose proof (borrow_result e user body s) as H.
  destruct (handle e (borrow user body) s) as [s' r]; cbn [fst snd] in *.
  inversion H; subst; try assumption.
  - (* the decrement cannot leave the integer range *)
    exfalso.
    match goal with Hg : getBook s _ = Some _ |- _ =>
      destruct (consistent_found _ _ _ Hc Hg) as (_ & _ & K0 & K1 & K2) end.
    pose proof (active_on_nonneg (b_id book) (borrowTransactions s)).
    match goal with Hr : int4_ok _ = false |- _ =>
      rewrite int4_ok_true in Hr; [discriminate|] end.
    unfold INT4_MIN, INT4_MAX in *. lia.
  - match goal with Hg : getBook s _ = Some _ |- _ =>
      destruct (consistent_found _ _ _ Hc Hg) as (Hin & Hid & K0 & K1 & K2) end.
    destruct Hc as [Hnd Hall]. split.
    + cbn [with_patch with_loan books]. now rewrite update_books_ids.
    + cbn [with_patch with_loan books borrowTransactions].
      unfold update_books. rewrite Forall_map, Forall_forall.
      rewrite Forall_forall in Hall. intros b Hb.
      destruct (Hall b Hb) as (B0 & B1 & B2).
      unfold book_consistent.
      destruct (String.eqb_spec (b_id b) (v_bookId v)) as [Heq|Hne].
      * assert (b = book) as ->.
        { pose proof (getBook_unique s b Hnd Hb) as Hu. rewrite Heq in Hu.
          congruence. }
        cbn [set_book borrow_patch b_id b_availableCopies b_totalCopies
             u_availableCopies u_totalCopies].
        rewrite active_on_snoc.
        destruct (_ && _); lia.
      * rewrite active_on_snoc.
        cbn [inserted_row borrow_insert t_bookId i_bookId].
        replace (v_bookId v =? b_id b)%string with false
          by (symmetry; apply String.eqb_neq; congruence).
        cbn [andb]. lia.
Qed.

Lemma consistent_return e user id s :
  consistent s -> consistent (fst (handle e (return_ user id) s)).
Proof.
  intros Hc. pose proof (return_result e user id s) as H.
  destruct (handle e (return_ user id) s) as [s' r]; cbn [fst snd] in *.
  inversion H; subst; try assumption; try now apply consistent_return_rows.
  match goal with Hg : getBook s _ = Some _ |- _ =>
    destruct (consistent_found _ _ _ Hc Hg) as (Hin & Hid & K0 & K1 & K2) end.
  destruct Hc as [Hnd Hall]. split.
  - cbn [with_patch with_return books]. now rewrite update_books_ids.
  - cbn [with_patch with_return books borrowTransactions].
    unfold update_books. rewrite Forall_map, Forall_forall.
    rewrite Forall_forall in Hall. intros b Hb.
    destruct (Hall b Hb) as (B0 & B1 & B2).
    unfold book_consistent.
    pose proof (active_on_return_rows (b_id b) e id (borrowTransactions s)).
    destruct (String.eqb_spec (b_id b) (t_bookId t)) as [Heq|Hne]; [|lia].
    assert (b = book) as ->.
    { pose proof (getBook_unique s b Hnd Hb) as Hu. rewrite Heq in Hu. congruence. }
    cbn [set_book return_patch b_id b_availableCopies b_totalCopies
         u_availableCopies u_totalCopies].
    match goal with Hf : getTransactionById s id = Some t, Ha : t_status t = _ |- _ =>
      pose proof (active_on_returned e id _ t Hf Ha) as Hdec end.
    rewrite <- Hid in Hdec. lia.
Qed.

Lemma overdue_store e user s : fst (handle e (overdue user) s) = s.
Proof.
  unfold handle, overdue, overdue_try.
  destruct (negb (includes ["admin"; "super_admin"] (role user))); reflexivity.
Qed.

Lemma consistent_serve r s : consistent s -> consistent (fst (serve r s)).
Proof.
  destruct r; cbn [serve]; intros Hc.
  - now apply consistent_borrow.
  - now apply consistent_return.
  - now rewrite overdue_store.
Qed.

Lemma reachable_consistent s : reachable s -> consistent s.
Proof.
  induction 1 as [s Hf|s r _ IH].
  - now apply fresh_catalog_consistent.
  - now apply consistent_serve.
Qed.

Lemma reachable_serve_all rs s : reachable s -> reachable (serve_all rs s).
Proof.
  revert s. induction rs as [|r rs IH]; intros s Hs; cbn [serve_all]; [assumption|].
  apply IH. now constructor.
Qed.

(** C2, as the code has it. In every store reached from a catalog without
    loans by requests handled one after the other, and after any further
    sequence of Borrow and Return requests handled that way, every book has
    0 <= availableCopies <= totalCopies. *)
Theorem counters_within_bounds s rs b :
  reachable s ->
  In b (books (serve_all rs s)) ->
  0 <= b_availableCopies b <= b_totalCopies b.
Proof.
  intros Hr Hin.
  pose proof (reachable_consistent _ (reachable_serve_all rs s Hr)) as [_ Hall].
  rewrite Forall_forall in Hall. destruct (Hall b Hin) as (H0 & H1 & _).
  pose proof (active_on_nonneg (b_id b) (borrowTransactions (serve_all rs s))). lia.
Qed.

(** C2, at a concrete catalog and sequence of requests. *)
Lemma counters_within_bounds_witness :
  let rs := [Borrow (Sample.env 1000 "t1") Sample.alice (Sample.body "b1" 5000);
             Return (Sample.env 2000 "t2") Sample.alice "t1";
             Borrow (Sample.env 3000 "t3") Sample.bob (Sample.body "b1" 9000)] in
  let b := set_book (borrow_patch Sample.book1) Sample.book1 in
  reachable Sample.catalog
  /\ In b (books (serve_all rs Sample.catalog))
  /\ 0 <= b_availableCopies b <= b_totalCopies b.
Proof.
  cbv zeta.
  assert (Hfresh : reachable Sample.catalog).
  { apply reachable_fresh. split; [reflexivity|]. split.
    - cbn. repeat constructor; cbn; intuition discriminate.
    - repeat constructor; cbn; unfold INT4_MAX; lia. }
  assert (Hin : In (set_book (borrow_patch Sample.book1) Sample.book1)
    (books (serve_all
      [Borrow (Sample.env 1000 "t1") Sample.alice (Sample.body "b1" 5000);
       Return (Sample.env 2000 "t2") Sample.alice "t1";
       Borrow (Sample.env 3000 "t3") Sample.bob (Sample.body "b1" 9000)]
      Sample.catalog))).
  { vm_compute. left. reflexivity. }
  split; [exact Hfresh|]. split; [exact Hin|].
  exact (counters_within_bounds Sample.catalog _ _ Hfresh Hin).
Defined.

(** C2, as stated, fails: the store the two interleaved Borrow requests for
    the single copy of "b1" leave satisfies the bounds, and the two Return
    requests for their loans, handled one after the other, both answer 200
    and leave availableCopies = 2 > totalCopies = 1. *)
Lemma returns_after_race_exceed_total :
  let A := start (Sample.env 1000 "t1") (borrow Sample.alice (Sample.body "b1" 5000)) in
  let B := start (Sample.env 1000 "t2") (borrow Sample.bob (Sample.body "b1" 5000)) in
  let raced :=
    fst (fst (interleave [true; false; true; false; true; false; true; false]
                Sample.catalog A B)) in
  let r1 := Return (Sample.env 2000 "u1") Sample.alice "t1" in
  let r2 := Return (Sample.env 3000 "u2") Sample.bob "t2" in
  Forall (fun b => 0 <= b_availableCopies b <= b_totalCopies b) (books raced)
  /\ res_status (snd (serve r1 raced)) = 200
  /\ res_status (snd (serve r2 (fst (serve r1 raced)))) = 200
  /\ exists b,
       getBook (serve_all [r1; r2] raced) "b1" = Some b
       /\ b_availableCopies b = 2
       /\ b_totalCopies b = 1
       /\ ~ b_availableCopies b <= b_totalCopies b.
Proof.
  cbv zeta. split; [|split; [reflexivity|split; [reflexivity|]]].
  - repeat constructor; cbn; lia.
  - eexists. split; [reflexivity|]. cbn. repeat split. lia.
Qed.

(** ** Using the case analyses *)

(** Two lookups of the same key found the same row. *)
Ltac same_rows :=
  repeat match goal with
  | H1 : ?a = Some ?x, H2 : ?a = Some ?y |- _ =>
      first [ is_var y; assert (y = x) by congruence; subst y; clear H2
            | is_var x; assert (x = y) by congruence; subst x; clear H1 ]
  end.

Ltac absurd_case :=
  solve [ congruence | lia | exfalso; same_rows; solve [congruence | lia] ].

Ltac borrow_cases e user body s :=
  let H := fresh "Hres" in
  pose proof (borrow_result e user body s) as H;
  destruct (handle e (borrow user body) s) as [? ?]; cbn [fst snd] in H;
  inversion H; subst; clear H; try absurd_case; same_rows.

Ltac return_cases e user id s :=
  let H := fresh "Hres" in
  pose proof (return_result e user id s) as H;
  destruct (handle e (return_ user id) s) as [? ?]; cbn [fst snd] in H;
  inversion H; subst; clear H; try absurd_case; same_rows.

(** ** A returned loan stays returned *)

Lemma returned_stays_serve r s id t :
  getTransactionById s id = Some t ->
  t_status t = "returned" ->
  exists t', getTransactionById (fst (serve r s)) id = Some t'
             /\ t_status t' = "returned".
Proof.
  intros Hg Hst.
  assert (Hloan : forall x p u,
    exists t', getTransactionById (with_patch p u (with_loan x s)) id = Some t'
               /\ t_status t' = "returned").
  { intros x p u. exists t. split; [|assumption].
    change (getTransactionById (with_loan x s) id = Some t).
    now rewrite getTransactionById_with_loan, Hg. }
  assert (Hret : forall e' id',
    exists t', getTransactionById (with_return e' id' s) id = Some t'
               /\ t_status t' = "returned").
  { intros e' id'. rewrite getTransactionById_with_return, Hg. cbn [option_map].
    destruct (t_id t =? id')%string; eauto. }
  destruct r as [e user body|e user id'|e user]; cbn [serve].
  - borrow_cases e user body s; cbn [fst]; eauto.
    exists t. split; [|assumption].
    now rewrite getTransactionById_with_loan, Hg.
  - return_cases e user id' s; cbn [fst]; eauto.
    apply (Hret e id').
  - rewrite overdue_store. eauto.
Qed.

Lemma returned_stays rs s id t :
  getTransactionById s id = Some t ->
  t_status t = "returned" ->
  exists t', getTransactionById (serve_all rs s) id = Some t'
             /\ t_status t' = "returned".
Proof.
  revert s t. induction rs as [|r rs IH]; intros s t Hg Hst; cbn [serve_all]; eauto.
  destruct (returned_stays_serve r s id t Hg Hst) as (t' & Hg' & Hst'). eauto.
Qed.

(** C4. A Return of a loan whose status is not "active" changes nothing and
    does not succeed, whoever asks; for an actor of the loan's school who
    owns the loan or is an admin it answers 400 "Book already returned"; and
    a loan that is "returned" is still "returned" after any further sequence
    of requests. *)
Theorem returned_loan_is_final e user id s t :
  getTransactionById s id = Some t ->
  t_status t <> "active" ->
  (fst (handle e (return_ user id) s) = s
   /\ res_status (snd (handle e (return_ user id) s)) <> 200)
  /\ (same_school user (t_schoolId t) = true ->
      is_owner_or_admin user t = true ->
      handle e (return_ user id) s = (s, respond 400 "Book already returned"))
  /\ (t_status t = "returned" ->
      forall rs, exists t',
        getTransactionById (serve_all rs s) id = Some t'
        /\ t_status t' = "returned").
Proof.
  intros Hg Hst. repeat split.
  - return_cases e user id s; reflexivity.
  - return_cases e user id s; cbn; discriminate.
  - intros Hs Ho. return_cases e user id s; reflexivity.
  - intros Hr rs. now apply returned_stays with t.
Qed.

Lemma returned_loan_is_final_witness :
  let s := Sample.store [Sample.book1]
             [Sample.loan "t1" "b1" "alice" (Some "school-a") 900 "returned"] in
  let t := Sample.loan "t1" "b1" "alice" (Some "school-a") 900 "returned" in
  getTransactionById s "t1" = Some t
  /\ t_status t <> "active"
  /\ handle (Sample.env 1000 "u1") (return_ Sample.alice "t1") s
     = (s, respond 400 "Book already returned").
Proof.
  cbv zeta. split; [reflexivity|]. split; [discriminate|].
  apply (returned_loan_is_final (Sample.env 1000 "u1") Sample.alice "t1" _
           (Sample.loan "t1" "b1" "alice" (Some "school-a") 900 "returned"));
    [reflexivity | discriminate | reflexivity | reflexivity].
Defined.

(** ** Borrow then Return *)

(** C7. When a Borrow succeeds (201, with the created loan) and the Return
    of that loan then succeeds (200), every book has the number of
    available copies it had before the pair. *)
Theorem borrow_then_return_neutral e1 user1 body s0 s1 loan e2 user2 s2 r2 :
  handle e1 (borrow user1 body) s0
    = (s1, {| res_status := 201; res_json := TransactionJson (Some loan) |}) ->
  handle e2 (return_ user2 (t_id loan)) s1 = (s2, r2) ->
  res_status r2 = 200 ->
  forall id,
    option_map b_availableCopies (getBook s2 id)
    = option_map b_availableCopies (getBook s0 id).
Proof.
  intros Hb Hr H200 id.
  pose proof (borrow_result e1 user1 body s0) as Hres. rewrite Hb in Hres.
  cbn [fst snd] in Hres. inversion Hres; subst; clear Hres.
  set (row := inserted_row e1 (borrow_insert user1 v)) in *.
  assert (Hrow : getTransactionById
            (with_patch (v_bookId v) (borrow_patch book) (with_loan row s0))
            (t_id row) = Some row).
  { change (getTransactionById (with_loan row s0) (t_id row) = Some row).
    rewrite getTransactionById_with_loan.
    replace (getTransactionById s0 (t_id row)) with (@None BorrowTransaction)
      by (symmetry; eapply insert_error_fresh; eassumption).
    now rewrite String.eqb_refl. }
  assert (Hbook : getBook
            (with_patch (v_bookId v) (borrow_patch book) (with_loan row s0))
            (t_bookId row) = Some (set_book (borrow_patch book) book)).
  { rewrite getBook_with_patch.
    change (getBook (with_loan row s0) (t_bookId row)) with (getBook s0 (v_bookId v)).
    match goal with Hg : getBook s0 _ = Some book |- _ => rewrite Hg end.
    cbn [option_map].
    match goal with Hg : getBook s0 _ = Some book |- _ =>
      apply find_some_id in Hg as [_ Hid]; rewrite Hid end.
    now rewrite String.eqb_refl. }
  pose proof (return_result e2 user2 (t_id row)
    (with_patch (v_bookId v) (borrow_patch book) (with_loan row s0))) as Hres.
  rewrite Hr in Hres. cbn [fst snd] in Hres.
  inversion Hres; subst; clear Hres; try (cbn in H200; discriminate);
    try congruence; same_rows.
  rewrite getBook_with_patch, getBook_with_return, getBook_with_patch,
    getBook_with_loan.
  destruct (getBook s0 id) as [b|] eqn:Hg; cbn [option_map]; [|reflexivity].
  change (t_bookId row) with (v_bookId v).
  destruct (b_id b =? v_bookId v)%string eqn:E; cbn [set_book b_id]; rewrite ?E;
    [|reflexivity].
  cbn [set_book return_patch borrow_patch b_availableCopies u_availableCopies].
  apply String.eqb_eq in E.
  pose proof (find_some_id b_id _ _ _ Hg) as [_ Hid].
  assert (b = book) as -> by congruence.
  f_equal. lia.
Qed.

Lemma borrow_then_return_neutral_witness :
  let s0 := Sample.catalog in
  let loan := Sample.loan "t1" "b1" "alice" (Some "school-a") 5000 "active" in
  let loan' :=
    {| t_id := "t1"; t_bookId := "b1"; t_userId := "alice";
       t_schoolId := Some "school-a"; t_borrowedAt := 1000; t_dueDate := 5000;
       t_returnedAt := None; t_status := "active" |} in
  let s1 := fst (handle (Sample.env 1000 "t1")
                   (borrow Sample.alice (Sample.body "b1" 5000)) s0) in
  let s2 := fst (handle (Sample.env 2000 "t2") (return_ Sample.alice "t1") s1) in
  handle (Sample.env 1000 "t1") (borrow Sample.alice (Sample.body "b1" 5000)) s0
    = (s1, {| res_status := 201; res_json := TransactionJson (Some loan') |})
  /\ res_status (snd (handle (Sample.env 2000 "t2") (return_ Sample.alice "t1") s1))
     = 200
  /\ option_map b_availableCopies (getBook s2 "b1")
     = option_map b_availableCopies (getBook s0 "b1").
Proof.
  cbv zeta. split; [reflexivity|]. split; [reflexivity|].
  eapply (borrow_then_return_neutral (Sample.env 1000 "t1") Sample.alice
            (Sample.body "b1" 5000) Sample.catalog _ _
            (Sample.env 2000 "t2") Sample.alice).
  - reflexivity.
  - cbn [t_id]. apply surjective_pairing.
  - reflexivity.
Defined.

(** ** Return and the total *)

(** C3, as the code has it. A Return that passes the handler's checks and
    finds the book adds 1 to its availableCopies and answers 200, whatever
    totalCopies is: the only bound is the range of the integer column. *)
Theorem return_increments e user id s t book :
  getTransactionById s id = Some t ->
  same_school user (t_schoolId t) = true ->
  is_owner_or_admin user t = true ->
  t_status t = "active" ->
  getBook s (t_bookId t) = Some book ->
  b_availableCopies book + 1 <= INT4_MAX ->
  INT4_MIN <= b_availableCopies book + 1 ->
  exists s' r book',
    handle e (return_ user id) s = (s', r)
    /\ res_status r = 200
    /\ getBook s' (t_bookId t) = Some book'
    /\ b_availableCopies book' = b_availableCopies book + 1
    /\ b_totalCopies book' = b_totalCopies book.
Proof.
  intros Hg Hs Ho Ha Hb Hmax Hmin.
  assert (Hr : int4_ok (b_availableCopies book + 1) = true)
    by (apply int4_ok_true; lia).
  assert (Hid : b_id book = t_bookId t) by (apply find_some_id in Hb; tauto).
  return_cases e user id s.
  do 3 eexists. split; [reflexivity|]. split; [reflexivity|].
  rewrite getBook_with_patch, getBook_with_return, Hb. cbn [option_map].
  rewrite Hid, String.eqb_refl. repeat split.
Qed.

Lemma return_increments_witness :
  let t := Sample.loan "t1" "b1" "alice" (Some "school-a") 5000 "active" in
  let s := Sample.store [Sample.book1] [t] in
  getBook s "b1" = Some Sample.book1
  /\ exists s' r book',
       handle (Sample.env 2000 "u") (return_ Sample.alice "t1") s = (s', r)
       /\ res_status r = 200
       /\ getBook s' "b1" = Some book'
       /\ b_availableCopies book' = 1 + 1
       /\ b_totalCopies book' = 1.
Proof.
  cbv zeta. split; [reflexivity|].
  apply (return_increments (Sample.env 2000 "u") Sample.alice "t1" _
           (Sample.loan "t1" "b1" "alice" (Some "school-a") 5000 "active")
           Sample.book1);
    try reflexivity; unfold INT4_MAX, INT4_MIN; cbn; lia.
Defined.

(** C3, as stated, fails: with every copy of the book already available
    (availableCopies = totalCopies = 1) and an active loan of it on record,
    the Return answers 200 and leaves availableCopies = 2 > totalCopies. *)
Lemma return_exceeds_total :
  let t := Sample.loan "t1" "b1" "alice" (Some "school-a") 5000 "active" in
  let s := Sample.store [Sample.book1] [t] in
  let out := handle (Sample.env 2000 "u") (return_ Sample.alice "t1") s in
  res_status (snd out) = 200
  /\ exists book', getBook (fst out) "b1" = Some book'
                   /\ b_availableCopies book' = 2
                   /\ b_totalCopies book' = 1
                   /\ ~ b_availableCopies book' <= b_totalCopies book'.
Proof.
  cbv zeta. split; [reflexivity|].
  eexists. split; [reflexivity|]. cbn. repeat split. lia.
Qed.

(** ** The due date of a Borrow *)

Lemma parse_due_date body v :
  parse body = Some v -> body_dueDate body = ValidDate (v_dueDate v).
Proof.
  unfold parse. intros H.
  destruct (body_bookId body), (body_schoolId body), (body_dueDate body),
    (body_returnedAt body), (body_status body); try discriminate;
    injection H as <-; reflexivity.
Qed.

Lemma parse_fields body v :
  parse body = Some v ->
  body_bookId body = JStr (v_bookId v)
  /\ v_returnedAt v = None
  /\ (v_status v = None \/ exists x, v_status v = Some x /\ body_status body = JStr x).
Proof.
  unfold parse. intros H.
  destruct (body_bookId body), (body_schoolId body), (body_dueDate body),
    (body_returnedAt body), (body_status body); try discriminate;
    injection H as <-; cbn; repeat split; eauto.
Qed.

Lemma parse_invalid_date body : body_dueDate body = InvalidDate -> parse body = None.
Proof.
  unfold parse. intros ->.
  destruct (body_bookId body), (body_schoolId body); reflexivity.
Qed.

Lemma insert_error_uuid e e' s i :
  uuid e' = uuid e -> insert_error e' s i = insert_error e s i.
Proof. unfold insert_error. now intros ->. Qed.

(** The borrow handler never reads the clock: two requests that differ in
    the time at which they are handled get the same status code and leave
    the same books. *)
Lemma borrow_ignores_clock e e' user body s :
  uuid e' = uuid e ->
  res_status (snd (handle e' (borrow user body) s))
    = res_status (snd (handle e (borrow user body) s))
  /\ books (fst (handle e' (borrow user body) s))
     = books (fst (handle e (borrow user body) s)).
Proof.
  intros Hu. unfold handle, borrow, borrow_try; run_handler.
  destruct (parse body) as [v|]; run_handler; [|now split].
  destruct (truthy (schoolId user)); run_handler; [|now split].
  destruct (getBook s (v_bookId v)) as [book|]; run_handler; [|now split].
  destruct (opt_string_eqb (b_schoolId book) (schoolId user)); run_handler;
    [|now split].
  destruct (b_availableCopies book <=? 0); run_handler; [now split|].
  destruct (5 <=? List.length (getActiveTransactionsByUserId s (userId user)))%nat;
    run_handler; [now split|].
  unfold createTransaction. rewrite (insert_error_uuid e e') by assumption.
  destruct (insert_error e s _); run_handler; [now split|].
  unfold updateBook; cbn [u_totalCopies u_availableCopies opt_int4_ok andb].
  destruct (int4_ok (b_availableCopies book - 1)); run_handler; now split.
Qed.

(** C5, as the code has it. A Borrow whose due date does not coerce to a
    valid date is rejected with the validation response (400) and changes
    nothing. A due date that does is never compared with the current time:
    the status code of the answer and the books the request leaves are the
    same whatever the clock reads, and a Borrow that succeeds records the
    loan with exactly the due date given. *)
Theorem borrow_due_date_only_parsed e user body s :
  (body_dueDate body = InvalidDate ->
   handle e (borrow user body) s
     = (s, {| res_status := 400; res_json := ZodMessage |}))
  /\ (forall e',
        uuid e' = uuid e ->
        res_status (snd (handle e' (borrow user body) s))
          = res_status (snd (handle e (borrow user body) s))
        /\ books (fst (handle e' (borrow user body) s))
           = books (fst (handle e (borrow user body) s)))
  /\ (forall s' loan,
        handle e (borrow user body) s
          = (s', {| res_status := 201; res_json := TransactionJson (Some loan) |}) ->
        body_dueDate body = ValidDate (t_dueDate loan)
        /\ getTransactionById s' (uuid e) = Some loan).
Proof.
  split; [|split].
  - intros Hd. apply parse_invalid_date in Hd.
    borrow_cases e user body s; try reflexivity.
  - intros e' Hu. now apply borrow_ignores_clock.
  - intros s' loan H.
    pose proof (borrow_result e user body s) as Hres. rewrite H in Hres.
    cbn [fst snd] in Hres. inversion Hres; subst; clear Hres. split.
    + cbn [inserted_row borrow_insert t_dueDate i_dueDate].
      now apply parse_due_date.
    + rewrite getTransactionById_with_patch, getTransactionById_with_loan.
      match goal with Hi : insert_error _ _ _ = None |- _ =>
        rewrite (insert_error_fresh _ _ _ Hi) end.
      cbn [inserted_row t_id]. now rewrite String.eqb_refl.
Qed.

Lemma borrow_due_date_only_parsed_witness :
  let early := Sample.env 1000 "t1" in
  let late := Sample.env 9000 "t1" in
  let body := Sample.body "b1" 5000 in
  let loan := {| t_id := "t1"; t_bookId := "b1"; t_userId := "alice";
                 t_schoolId := Some "school-a"; t_borrowedAt := 9000;
                 t_dueDate := 5000; t_returnedAt := None;
                 t_status := "active" |} in
  res_status (snd (handle early (borrow Sample.alice body) Sample.catalog)) = 201
  /\ res_status (snd (handle late (borrow Sample.alice body) Sample.catalog))
     = res_status (snd (handle early (borrow Sample.alice body) Sample.catalog))
  /\ t_dueDate loan < now late
  /\ body_dueDate body = ValidDate (t_dueDate loan).
Proof.
  cbv zeta.
  pose proof (borrow_due_date_only_parsed (Sample.env 1000 "t1") Sample.alice
                (Sample.body "b1" 5000) Sample.catalog) as (_ & Hclock & _).
  pose proof (borrow_due_date_only_parsed (Sample.env 9000 "t1") Sample.alice
                (Sample.body "b1" 5000) Sample.catalog) as (_ & _ & Hdue).
  split; [reflexivity|].
  split; [exact (proj1 (Hclock (Sample.env 9000 "t1") eq_refl))|].
  split; [cbn; lia|].
  exact (proj1 (Hdue _ _ eq_refl)).
Defined.

(** C5, as stated, fails: at time 1000 a Borrow with due date 999 answers
    201, records the loan and takes the copy. *)
Lemma borrow_with_past_due_date_accepted :
  let e := Sample.env 1000 "t1" in
  let out := handle e (borrow Sample.alice (Sample.body "b1" 999)) Sample.catalog in
  999 < now e
  /\ res_status (snd out) = 201
  /\ (exists loan, getTransactionById (fst out) "t1" = Some loan
                   /\ t_dueDate loan = 999 /\ t_status loan = "active")
  /\ option_map b_availableCopies (getBook (fst out) "b1") = Some 0.
Proof.
  cbv zeta. split; [cbn; lia|]. split; [reflexivity|]. split; [|reflexivity].
  eexists. split; [reflexivity|]. split; reflexivity.
Qed.

(** ** Records of another school *)




(** ** The overdue query *)

Lemma opt_string_eqb_eq a b : opt_string_eqb a b = true <-> a = b.
Proof.
  destruct a as [x|], b as [y|]; cbn; try (split; congruence).
  rewrite String.eqb_eq. split; congruence.
Qed.

Lemma getOverdueTransactions_spec e s sid t :
  In t (getOverdueTransactions e s sid) <->
  In t (borrowTransactions s)
  /\ t_status t = "active"
  /\ t_dueDate t < now e
  /\ (truthy sid = true -> t_schoolId t = sid).
Proof.
  unfold getOverdueTransactions.
  destruct (truthy sid) eqn:Hs; rewrite filter_In, !andb_true_iff,
    ?String.eqb_eq, ?Z.ltb_lt, ?opt_string_eqb_eq; intuition congruence.
Qed.

(** C8. For an admin or super admin, the overdue route answers 200 with
    exactly the loans that are "active", have a due date strictly before
    the current time and, when the actor has a school, belong to that
    school; and for every actor the route leaves the store as it was. *)
Theorem list_overdue_exact e user s :
  fst (handle e (overdue user) s) = s
  /\ (includes ["admin"; "super_admin"] (role user) = true ->
      exists l,
        snd (handle e (overdue user) s)
          = {| res_status := 200; res_json := TransactionsJson l |}
        /\ forall t,
             In t l <->
             In t (borrowTransactions s)
             /\ t_status t = "active"
             /\ t_dueDate t < now e
             /\ (truthy (schoolId user) = true -> t_schoolId t = schoolId user)).
Proof.
  split; [apply overdue_store|].
  intros Hrole. unfold handle, overdue, overdue_try; cbn [try_block].
  rewrite Hrole. run_handler. eexists. split; [reflexivity|].
  intros t. rewrite getOverdueTransactions_spec.
  destruct (truthy (schoolId user)) eqn:Hs; [rewrite Hs; tauto|].
  cbn [truthy]. intuition congruence.
Qed.

Lemma list_overdue_exact_witness :
  let late := Sample.loan "t1" "b1" "alice" (Some "school-a") 900 "active" in
  let s := Sample.store [Sample.book1; Sample.book2]
             [late;
              Sample.loan "t2" "b1" "bob" (Some "school-a") 5000 "active";
              Sample.loan "t3" "b1" "bob" (Some "school-a") 100 "returned";
              Sample.loan "t4" "b2" "carol" (Some "school-b") 100 "active"] in
  includes ["admin"; "super_admin"] (role Sample.admin_a) = true
  /\ handle (Sample.env 1000 "u") (overdue Sample.admin_a) s
     = (s, {| res_status := 200; res_json := TransactionsJson [late] |})
  /\ exists l,
       snd (handle (Sample.env 1000 "u") (overdue Sample.admin_a) s)
         = {| res_status := 200; res_json := TransactionsJson l |}
       /\ forall t,
            In t l <->
            In t (borrowTransactions s)
            /\ t_status t = "active"
            /\ t_dueDate t < 1000
            /\ (truthy (schoolId Sample.admin_a) = true
                -> t_schoolId t = schoolId Sample.admin_a).
Proof.
  cbv zeta. split; [reflexivity|]. split; [reflexivity|].
  apply (proj2 (list_overdue_exact (Sample.env 1000 "u") Sample.admin_a _)).
  reflexivity.
Defined.

(** ** The loan limit *)

(** C9. For a Borrow that reaches the loan-limit check, the answer is 400
    "Maximum loan limit reached (5 books)" exactly when the actor has at
    least 5 loans with status "active" in the whole table: the count
    selects on the user id and the status only, not on the school of the
    loan. *)
Theorem loan_limit_counts_every_school e user body s v book :
  parse body = Some v ->
  truthy (schoolId user) = true ->
  getBook s (v_bookId v) = Some book ->
  opt_string_eqb (b_schoolId book) (schoolId user) = true ->
  0 < b_availableCopies book ->
  (handle e (borrow user body) s
     = (s, respond 400 "Maximum loan limit reached (5 books)")
   <->
   (5 <= List.length
           (filter (fun t => (t_userId t =? userId user)%string
                             && (t_status t =? "active")%string)
                   (borrowTransactions s)))%nat).
Proof.
  intros Hp Ht Hb Hs Ha.
  change (filter _ (borrowTransactions s))
    with (getActiveTransactionsByUserId s (userId user)).
  split.
  - intros H.
    destruct (Nat.leb_spec 5
      (List.length (getActiveTransactionsByUserId s (userId user)))) as [|Hlt];
      [assumption|exfalso].
    pose proof (borrow_result e user body s) as Hres. rewrite H in Hres.
    cbn [fst snd] in Hres. inversion Hres; subst; same_rows; lia.
  - intros H. borrow_cases e user body s; try reflexivity.
Qed.

Lemma loan_limit_counts_every_school_witness :
  let elsewhere id := Sample.loan id "b2" "alice" (Some "school-b") 5000 "active" in
  let s := Sample.store [Sample.book1; Sample.book2]
             [elsewhere "t1"; elsewhere "t2"; elsewhere "t3";
              elsewhere "t4"; elsewhere "t5"] in
  getBook s "b1" = Some Sample.book1
  /\ handle (Sample.env 1000 "t6") (borrow Sample.alice (Sample.body "b1" 5000)) s
     = (s, respond 400 "Maximum loan limit reached (5 books)").
Proof.
  cbv zeta. split; [reflexivity|].
  refine (proj2 (loan_limit_counts_every_school (Sample.env 1000 "t6")
            Sample.alice (Sample.body "b1" 5000) _
            {| v_bookId := "b1"; v_schoolId := None; v_dueDate := 5000;
               v_returnedAt := None; v_status := None |}
            Sample.book1 _ _ _ _ _) _);
    try reflexivity; cbn; lia.
Defined.

(** ** Two Borrow requests for the last copy *)

Lemma advance_phase e user body v ph s :
  parse body = Some v ->
  truthy (schoolId user) = true ->
  advance (task_at e user body v ph) s
  = (fst (phase_step e user v ph s),
     task_at e user body v (snd (phase_step e user v ph s))).
Proof.
  intros Hp Ht. unfold advance, task_at; cbn [task_env task_prog task_catch].
  destruct ph as [|book|book|book row|r]; cbn [prog_at phase_step].
  - unfold borrow_try. rewrite Hp, Ht. cbn [negb step pbind storage.getBook].
    destruct (getBook s (v_bookId v)) as [book|]; [|reflexivity].
    destruct (negb (opt_string_eqb (b_schoolId book) (schoolId user))); [reflexivity|].
    destruct (b_availableCopies book <=? 0); reflexivity.
  - unfold borrow_from_count.
    cbn [step pbind storage.getActiveTransactionsByUserId].
    destruct (5 <=? List.length (getActiveTransactionsByUserId s (userId user)))%nat;
      reflexivity.
  - unfold borrow_from_create. cbn [step pbind storage.createTransaction].
    unfold createTransaction.
    destruct (insert_error e s (borrow_insert user v)); reflexivity.
  - unfold borrow_from_update. cbn [step pbind storage.updateBook].
    unfold updateBook; cbn [borrow_patch u_totalCopies u_availableCopies
                            opt_int4_ok andb].
    destruct (int4_ok (b_availableCopies book - 1)); reflexivity.
  - reflexivity.
Qed.

Lemma phase_step_rank e user v ph s :
  (rank (snd (phase_step e user v ph s)) <= pred (rank ph))%nat.
Proof.
  destruct ph as [|book|book|book row|r]; cbn [phase_step].
  - destruct (getBook s (v_bookId v)) as [book|]; [|cbn; lia].
    destruct (negb _); [cbn; lia|].
    destruct (b_availableCopies book <=? 0); cbn; lia.
  - destruct (5 <=? _)%nat; cbn; lia.
  - destruct (insert_error e s (borrow_insert user v)); cbn; lia.
  - destruct (int4_ok _); cbn; lia.
  - cbn. lia.
Qed.

Section LastCopy.

Variable s0 : Store.
Variable bid : string.
Variable book0 : Book.
Hypothesis Hbook0 : getBook s0 bid = Some book0.
Hypothesis Hlast : b_availableCopies book0 = 1.

Lemma race_inv_sym eA uA vA eB uB vB s pA pB :
  race_inv s0 bid eA uA vA eB uB vB s pA pB ->
  race_inv s0 bid eB uB vB eA uA vA s pB pA.
Proof. unfold race_inv. intuition. Qed.

Lemma race_inv_start eA uA vA eB uB vB :
  race_inv s0 bid eA uA vA eB uB vB s0 AtStart AtStart.
Proof.
  unfold race_inv, store_ok; cbn [held_ok]. repeat split; auto.
  exists book0. split; [assumption|lia].
Qed.

Lemma race_inv_step eA uA bodyA vA eB uB vB s pA pB :
  Eligible s0 bid book0 eA uA bodyA vA ->
  race_inv s0 bid eA uA vA eB uB vB s pA pB ->
  race_inv s0 bid eA uA vA eB uB vB
    (fst (phase_step eA uA vA pA s)) (snd (phase_step eA uA vA pA s)) pB.
Proof.
  intros [Hp Ht Hb Hs Hl Hf] (Hst & HA & HB & Hd).
  destruct Hst as ((cur & Hcur & Hle) & Husers & Hschools).
  assert (Hst : store_ok s0 bid s) by (repeat split; eauto).
  destruct pA as [|book|book|book row|r]; cbn [phase_step]; rewrite ?Hb.
  - (* getBook *)
    rewrite Hcur; cbn [fst snd].
    destruct (opt_string_eqb (b_schoolId cur) (schoolId uA)) eqn:Hsch; cbn [negb].
    2:{ split; [exact Hst|]. repeat split; auto.
        destruct Hd as [(_ & _ & ->)|[[]|Hd]]; [congruence|auto]. }
    destruct (Z.leb_spec (b_availableCopies cur) 0) as [Hneg|Hgt]; cbn [fst snd].
    { split; [exact Hst|]. repeat split; auto.
      destruct Hd as [(_ & _ & ->)|[[]|Hd]]; [|auto].
      exfalso. assert (cur = book0) by congruence. subst. lia. }
    split; [exact Hst|]. split; [cbn [held_ok]; lia|]. split; [exact HB|].
    destruct Hd as [(_ & _ & ->)|[[]|Hd]]; cbn [lead]; auto.
  - (* getActiveTransactionsByUserId *)
    destruct (Nat.leb_spec 5 (List.length (getActiveTransactionsByUserId s (userId uA))))
      as [Hge|Hlt]; cbn [fst snd]; (split; [exact Hst|]); repeat split; auto.
    + destruct Hd as [(Hx & _)|[Hd|Hd]]; [discriminate| |auto].
      exfalso. cbn [lead] in Hd. unfold getActiveTransactionsByUserId in *.
      rewrite Hd in Hge. lia.
    + destruct Hd as [(Hx & _)|[Hd|Hd]]; [discriminate| |auto].
      right; left. cbn [lead] in *.
      apply (insert_error_frame eA s0 s); try assumption.
      cbn [borrow_insert i_bookId]. rewrite Hb. congruence.
  - (* createTransaction *)
    destruct (insert_error eA s (borrow_insert uA vA)) eqn:Hg; cbn [fst snd].
    + split; [exact Hst|]. repeat split; auto.
      destruct Hd as [(Hx & _)|[Hd|Hd]]; [discriminate| |auto].
      cbn [lead] in Hd. congruence.
    + split; [|split; [exact HA|split; [exact HB|right; left; exact I]]].
      repeat split; try assumption. exists cur. split; assumption.
  - (* updateBook *)
    cbn [held_ok] in HA. rewrite HA.
    replace (int4_ok (1 - 1)) with true by reflexivity. cbn [fst snd].
    split; [|split; [exact I|split; [exact HB|right; left; reflexivity]]].
    repeat split; try assumption.
    eexists. rewrite getBook_with_patch, Hcur. cbn [option_map].
    split; [reflexivity|].
    destruct (b_id cur =? bid)%string; [cbn; rewrite HA; lia|assumption].
  - (* responded *)
    cbn [fst snd]. split; [exact Hst|]. repeat split; auto.
Qed.

Lemma response_at e user body v ph r :
  parse body = Some v ->
  truthy (schoolId user) = true ->
  response_of (task_at e user body v ph) = Some r -> ph = Responded r.
Proof.
  intros Hp Ht. unfold response_of, task_at; cbn [task_prog].
  destruct ph; cbn [prog_at]; try discriminate; [|congruence].
  unfold borrow_try. rewrite Hp, Ht. discriminate.
Qed.

Variables e1 e2 : Env.
Variables u1 u2 : JwtPayload.
Variables body1 body2 : BorrowBody.
Variables v1 v2 : Validated.
Hypothesis H1 : Eligible s0 bid book0 e1 u1 body1 v1.
Hypothesis H2 : Eligible s0 bid book0 e2 u2 body2 v2.

Lemma race_inv_interleave sched :
  forall s p1 p2,
    race_inv s0 bid e1 u1 v1 e2 u2 v2 s p1 p2 ->
    exists s' p1' p2',
      interleave sched s (task_at e1 u1 body1 v1 p1) (task_at e2 u2 body2 v2 p2)
      = (s', task_at e1 u1 body1 v1 p1', task_at e2 u2 body2 v2 p2')
      /\ race_inv s0 bid e1 u1 v1 e2 u2 v2 s' p1' p2'
      /\ (rank p1' <= rank p1 - turns true sched)%nat
      /\ (rank p2' <= rank p2 - turns false sched)%nat.
Proof.
  induction sched as [|[|] sched IH]; intros s p1 p2 Hinv; cbn [interleave].
  - exists s, p1, p2. unfold turns; cbn [filter List.length].
    split; [reflexivity|]. split; [assumption|]. split; lia.
  - rewrite (advance_phase e1 u1 body1 v1 p1 s (el_parse _ _ _ _ _ _ _ H1)
               (el_truthy _ _ _ _ _ _ _ H1)).
    destruct (IH (fst (phase_step e1 u1 v1 p1 s)) (snd (phase_step e1 u1 v1 p1 s)) p2)
      as (s' & p1' & p2' & He & Hi & R1 & R2).
    { now apply race_inv_step with body1. }
    exists s', p1', p2'. split; [assumption|]. split; [assumption|].
    pose proof (phase_step_rank e1 u1 v1 p1 s).
    unfold turns in *; cbn [filter Bool.eqb List.length] in *. split; lia.
  - rewrite (advance_phase e2 u2 body2 v2 p2 s (el_parse _ _ _ _ _ _ _ H2)
               (el_truthy _ _ _ _ _ _ _ H2)).
    destruct (IH (fst (phase_step e2 u2 v2 p2 s)) p1 (snd (phase_step e2 u2 v2 p2 s)))
      as (s' & p1' & p2' & He & Hi & R1 & R2).
    { apply race_inv_sym. apply race_inv_step with body2; [assumption|].
      now apply race_inv_sym. }
    exists s', p1', p2'. split; [assumption|]. split; [assumption|].
    pose proof (phase_step_rank e2 u2 v2 p2 s).
    unfold turns in *; cbn [filter Bool.eqb List.length] in *. split; lia.
Qed.

(** However the store operations of the two requests interleave, once both
    have responded at least one of them has answered 201. *)
Lemma one_borrow_succeeds sched s' r1 r2 :
  outcome (interleave sched s0 (start e1 (borrow u1 body1))
                               (start e2 (borrow u2 body2)))
    = Some (s', r1, r2) ->
  res_status r1 = 201 \/ res_status r2 = 201.
Proof.
  change (start e1 (borrow u1 body1)) with (task_at e1 u1 body1 v1 AtStart).
  change (start e2 (borrow u2 body2)) with (task_at e2 u2 body2 v2 AtStart).
  destruct (race_inv_interleave sched s0 AtStart AtStart (race_inv_start e1 u1 v1 e2 u2 v2))
    as (s & p1 & p2 & -> & (_ & _ & _ & Hd) & _).
  unfold outcome.
  destruct (response_of (task_at e1 u1 body1 v1 p1)) as [x1|] eqn:R1; [|discriminate].
  destruct (response_of (task_at e2 u2 body2 v2 p2)) as [x2|] eqn:R2; [|discriminate].
  intros H. injection H as _ <- <-.
  apply response_at in R1; [|apply H1|apply H1].
  apply response_at in R2; [|apply H2|apply H2].
  subst. destruct Hd as [(Hx & _)|[Hd|Hd]]; [discriminate|auto|auto].
Qed.

(** A schedule that gives each request four turns lets both respond. *)
Lemma both_respond sched :
  (4 <= turns true sched)%nat ->
  (4 <= turns false sched)%nat ->
  exists s' r1 r2,
    outcome (interleave sched s0 (start e1 (borrow u1 body1))
                                 (start e2 (borrow u2 body2)))
    = Some (s', r1, r2).
Proof.
  intros T1 T2.
  change (start e1 (borrow u1 body1)) with (task_at e1 u1 body1 v1 AtStart).
  change (start e2 (borrow u2 body2)) with (task_at e2 u2 body2 v2 AtStart).
  destruct (race_inv_interleave sched s0 AtStart AtStart (race_inv_start e1 u1 v1 e2 u2 v2))
    as (s & p1 & p2 & -> & _ & R1 & R2).
  cbn [rank] in R1, R2.
  destruct p1; cbn [rank] in R1; try lia.
  destruct p2; cbn [rank] in R2; try lia.
  do 3 eexists. reflexivity.
Qed.

(** Handled one after the other, the first request takes the copy and the
    second is told that no copy is available. *)
Lemma serial_borrows :
  exists s1 loan,
    handle e1 (borrow u1 body1) s0
      = (s1, {| res_status := 201; res_json := TransactionJson (Some loan) |})
    /\ handle e2 (borrow u2 body2) s1 = (s1, respond 400 "No copies available")
    /\ option_map b_availableCopies (getBook s1 bid) = Some 0.
Proof.
  destruct H1 as [Hp1 Ht1 Hb1 Hs1 Hl1 Hf1], H2 as [Hp2 Ht2 Hb2 Hs2 Hl2 Hf2].
  assert (Hid : b_id book0 = bid) by (apply find_some_id in Hbook0; tauto).
  assert (Hr : int4_ok (b_availableCopies book0 - 1) = true)
    by (rewrite Hlast; reflexivity).
  rewrite <- Hb1 in Hbook0.
  assert (Hg1 : getBook
            (with_patch (v_bookId v1) (borrow_patch book0)
               (with_loan (inserted_row e1 (borrow_insert u1 v1)) s0)) bid
          = Some (set_book (borrow_patch book0) book0)).
  { rewrite getBook_with_patch, getBook_with_loan, <- Hb1, Hbook0.
    cbn [option_map]. now rewrite Hid, Hb1, String.eqb_refl. }
  do 2 eexists. split; [|split].
  - borrow_cases e1 u1 body1 s0; try reflexivity.
  - rewrite <- Hb2 in Hg1.
    borrow_cases e2 u2 body2
      (with_patch (v_bookId v1) (borrow_patch book0)
         (with_loan (inserted_row e1 (borrow_insert u1 v1)) s0));
      try reflexivity;
      cbn [set_book borrow_patch b_availableCopies u_availableCopies
           b_schoolId u_schoolId] in *; try congruence; lia.
  - rewrite Hg1. cbn. now rewrite Hlast.
Qed.

End LastCopy.

(** ** Handling a request alone is a schedule *)

Lemma handle_finish e h s : handle e h s = finish (start e h) s.
Proof. reflexivity. Qed.

Lemma interleave_app l1 l2 s a b :
  interleave (l1 ++ l2) s a b =
  let '(s', a', b') := interleave l1 s a b in interleave l2 s' a' b'.
Proof.
  revert s a b. induction l1 as [|[|] l1 IH]; intros s a b; cbn [app interleave].
  - reflexivity.
  - destruct (advance a s). apply IH.
  - destruct (advance b s). apply IH.
Qed.

Lemma first_alone e c p :
  forall s b, exists n,
    interleave (repeat true n) s {| task_env := e; task_prog := p; task_catch := c |} b
    = (fst (finish {| task_env := e; task_prog := p; task_catch := c |} s),
       {| task_env := e;
          task_prog := Ret (snd (finish {| task_env := e; task_prog := p;
                                           task_catch := c |} s));
          task_catch := c |},
       b).
Proof.
  unfold finish; cbn [task_env task_prog task_catch].
  induction p as [r|id k IH|id u k IH|uid k IH|id k IH|i k IH|id k IH|sid k IH];
    intros s b; cbn [exec].
  - exists 0%nat. reflexivity.
  - destruct (IH (getBook s id) s b) as [n Hn]. exists (S n).
    cbn [repeat interleave]. unfold advance; cbn [task_env task_prog task_catch step].
    exact Hn.
  - destruct (updateBook s id u) as [err|[s' x]] eqn:Hu.
    + exists 1%nat. cbn [repeat interleave]. unfold advance.
      cbn [task_env task_prog task_catch step]. rewrite Hu. reflexivity.
    + destruct (IH x s' b) as [n Hn]. exists (S n).
      cbn [repeat interleave]. unfold advance.
      cbn [task_env task_prog task_catch step]. rewrite Hu. exact Hn.
  - destruct (IH (getActiveTransactionsByUserId s uid) s b) as [n Hn]. exists (S n).
    cbn [repeat interleave]. unfold advance; cbn [task_env task_prog task_catch step].
    exact Hn.
  - destruct (IH (getTransactionById s id) s b) as [n Hn]. exists (S n).
    cbn [repeat interleave]. unfold advance; cbn [task_env task_prog task_catch step].
    exact Hn.
  - destruct (createTransaction e s i) as [err|[s' x]] eqn:Hu.
    + exists 1%nat. cbn [repeat interleave]. unfold advance.
      cbn [task_env task_prog task_catch step]. rewrite Hu. reflexivity.
    + destruct (IH x s' b) as [n Hn]. exists (S n).
      cbn [repeat interleave]. unfold advance.
      cbn [task_env task_prog task_catch step]. rewrite Hu. exact Hn.
  - destruct (returnBook e s id) as [s' x] eqn:Hu.
    destruct (IH x s' b) as [n Hn]. exists (S n).
    cbn [repeat interleave]. unfold advance.
    cbn [task_env task_prog task_catch step]. rewrite Hu. exact Hn.
  - destruct (IH (getOverdueTransactions e s sid) s b) as [n Hn]. exists (S n).
    cbn [repeat interleave]. unfold advance; cbn [task_env task_prog task_catch step].
    exact Hn.
Qed.

Lemma second_alone e c p :
  forall s a, exists n,
    interleave (repeat false n) s a {| task_env := e; task_prog := p; task_catch := c |}
    = (fst (finish {| task_env := e; task_prog := p; task_catch := c |} s),
       a,
       {| task_env := e;
          task_prog := Ret (snd (finish {| task_env := e; task_prog := p;
                                           task_catch := c |} s));
          task_catch := c |}).
Proof.
  unfold finish; cbn [task_env task_prog task_catch].
  induction p as [r|id k IH|id u k IH|uid k IH|id k IH|i k IH|id k IH|sid k IH];
    intros s a; cbn [exec].
  - exists 0%nat. reflexivity.
  - destruct (IH (getBook s id) s a) as [n Hn]. exists (S n).
    cbn [repeat interleave]. unfold advance; cbn [task_env task_prog task_catch step].
    exact Hn.
  - destruct (updateBook s id u) as [err|[s' x]] eqn:Hu.
    + exists 1%nat. cbn [repeat interleave]. unfold advance.
      cbn [task_env task_prog task_catch step]. rewrite Hu. reflexivity.
    + destruct (IH x s' a) as [n Hn]. exists (S n).
      cbn [repeat interleave]. unfold advance.
      cbn [task_env task_prog task_catch step]. rewrite Hu. exact Hn.
  - destruct (IH (getActiveTransactionsByUserId s uid) s a) as [n Hn]. exists (S n).
    cbn [repeat interleave]. unfold advance; cbn [task_env task_prog task_catch step].
    exact Hn.
  - destruct (IH (getTransactionById s id) s a) as [n Hn]. exists (S n).
    cbn [repeat interleave]. unfold advance; cbn [task_env task_prog task_catch step].
    exact Hn.
  - destruct (createTransaction e s i) as [err|[s' x]] eqn:Hu.
    + exists 1%nat. cbn [repeat interleave]. unfold advance.
      cbn [task_env task_prog task_catch step]. rewrite Hu. reflexivity.
    + destruct (IH x s' a) as [n Hn]. exists (S n).
      cbn [repeat interleave]. unfold advance.
      cbn [task_env task_prog task_catch step]. rewrite Hu. exact Hn.
  - destruct (returnBook e s id) as [s' x] eqn:Hu.
    destruct (IH x s' a) as [n Hn]. exists (S n).
    cbn [repeat interleave]. unfold advance.
    cbn [task_env task_prog task_catch step]. rewrite Hu. exact Hn.
  - destruct (IH (getOverdueTransactions e s sid) s a) as [n Hn]. exists (S n).
    cbn [repeat interleave]. unfold advance; cbn [task_env task_prog task_catch step].
    exact Hn.
Qed.

(** Handling the first request to completion and then the second is the
    schedule that gives the first all its turns before the second. *)
Lemma serial_schedule eA hA eB hB s :
  exists n m,
    outcome (interleave (repeat true n ++ repeat false m) s (start eA hA) (start eB hB))
    = Some (fst (handle eB hB (fst (handle eA hA s))),
            snd (handle eA hA s),
            snd (handle eB hB (fst (handle eA hA s)))).
Proof.
  rewrite !handle_finish. unfold start.
  destruct (first_alone eA (catch_block hA) (try_block hA) s
              {| task_env := eB; task_prog := try_block hB;
                 task_catch := catch_block hB |}) as [n Hn].
  set (a := {| task_env := eA; task_prog := try_block hA;
               task_catch := catch_block hA |}) in *.
  destruct (second_alone eB (catch_block hB) (try_block hB) (fst (finish a s))
              {| task_env := eA; task_prog := Ret (snd (finish a s));
                 task_catch := catch_block hA |}) as [m Hm].
  exists n, m. rewrite interleave_app, Hn, Hm. reflexivity.
Qed.

(** A request that borrows the book when it is handled alone meets every
    condition of [Eligible]. *)
Lemma eligible_alone s0 bid book0 e user body :
  getBook s0 bid = Some book0 ->
  body_bookId body = JStr bid ->
  res_status (snd (handle e (borrow user body) s0)) = 201 ->
  exists v, Eligible s0 bid book0 e user body v.
Proof.
  intros Hb Hbody H201. pose proof (borrow_result e user body s0) as Hres.
  destruct (handle e (borrow user body) s0) as [s' r]; cbn [fst snd] in *.
  inversion Hres; subst; cbn [res_status respond] in H201; try discriminate.
  match goal with Hp : parse body = Some v |- _ =>
    pose proof (parse_fields _ _ Hp) as (Hid & _) end.
  assert (Hv : v_bookId v = bid) by congruence.
  rewrite Hv in *. same_rows. exists v. now constructor.
Qed.

(** C1, as the code has it. Two Borrow requests for a book with
    availableCopies = 1, each of which answers 201 when it is handled alone:
    handled one after the other (the schedule that gives the first all its
    store operations before the second), the first answers 201 and the
    second 400 "No copies available"; however their store operations
    interleave, both respond once each has had four turns, and whenever
    both have responded at least one of them has answered 201. *)
Theorem last_copy_borrowed s0 bid book0 e1 e2 u1 u2 body1 body2 :
  getBook s0 bid = Some book0 ->
  b_availableCopies book0 = 1 ->
  body_bookId body1 = JStr bid ->
  body_bookId body2 = JStr bid ->
  res_status (snd (handle e1 (borrow u1 body1) s0)) = 201 ->
  res_status (snd (handle e2 (borrow u2 body2) s0)) = 201 ->
  (exists s1 loan,
     handle e1 (borrow u1 body1) s0
       = (s1, {| res_status := 201; res_json := TransactionJson (Some loan) |})
     /\ handle e2 (borrow u2 body2) s1 = (s1, respond 400 "No copies available")
     /\ option_map b_availableCopies (getBook s1 bid) = Some 0
     /\ exists n m,
          outcome (interleave (repeat true n ++ repeat false m) s0
                     (start e1 (borrow u1 body1)) (start e2 (borrow u2 body2)))
          = Some (s1,
                  {| res_status := 201; res_json := TransactionJson (Some loan) |},
                  respond 400 "No copies available"))
  /\ (forall sched,
        (4 <= turns true sched)%nat ->
        (4 <= turns false sched)%nat ->
        exists s' r1 r2,
          outcome (interleave sched s0 (start e1 (borrow u1 body1))
                                       (start e2 (borrow u2 body2)))
          = Some (s', r1, r2))
  /\ (forall sched s' r1 r2,
        outcome (interleave sched s0 (start e1 (borrow u1 body1))
                                     (start e2 (borrow u2 body2)))
          = Some (s', r1, r2) ->
        res_status r1 = 201 \/ res_status r2 = 201).
Proof.
  intros Hb Hl Hbody1 Hbody2 Halone1 Halone2.
  destruct (eligible_alone s0 bid book0 e1 u1 body1 Hb Hbody1 Halone1) as [v1 H1].
  destruct (eligible_alone s0 bid book0 e2 u2 body2 Hb Hbody2 Halone2) as [v2 H2].
  split; [|split].
  - destruct (serial_borrows s0 bid book0 Hb Hl e1 e2 u1 u2 body1 body2 v1 v2 H1 H2)
      as (s1 & loan & Ha & Hb2 & Hav).
    exists s1, loan. repeat split; try assumption.
    destruct (serial_schedule e1 (borrow u1 body1) e2 (borrow u2 body2) s0)
      as (n & m & Hs).
    exists n, m. rewrite Hs, Ha. cbn [fst snd]. rewrite Hb2. reflexivity.
  - intros sched.
    now apply (both_respond s0 bid book0 Hb Hl e1 e2 u1 u2 body1 body2 v1 v2).
  - intros sched s' r1 r2.
    now apply (one_borrow_succeeds s0 bid book0 Hb Hl e1 e2 u1 u2 body1 body2 v1 v2).
Qed.

Lemma last_copy_borrowed_witness :
  let A := start (Sample.env 1000 "t1") (borrow Sample.alice (Sample.body "b1" 5000)) in
  let B := start (Sample.env 1000 "t2") (borrow Sample.bob (Sample.body "b1" 5000)) in
  let sched := [true; true; false; false; false; false; true; true] in
  let r1 := {| res_status := 201;
               res_json := TransactionJson (Some
                 {| t_id := "t1"; t_bookId := "b1"; t_userId := "alice";
                    t_schoolId := Some "school-a"; t_borrowedAt := 1000;
                    t_dueDate := 5000; t_returnedAt := None;
                    t_status := "active" |}) |} in
  let r2 := {| res_status := 201;
               res_json := TransactionJson (Some
                 {| t_id := "t2"; t_bookId := "b1"; t_userId := "bob";
                    t_schoolId := Some "school-a"; t_borrowedAt := 1000;
                    t_dueDate := 5000; t_returnedAt := None;
                    t_status := "active" |}) |} in
  getBook Sample.catalog "b1" = Some Sample.book1
  /\ b_availableCopies Sample.book1 = 1
  /\ res_status (snd (handle (Sample.env 1000 "t1")
                        (borrow Sample.alice (Sample.body "b1" 5000))
                        Sample.catalog)) = 201
  /\ res_status (snd (handle (Sample.env 1000 "t2")
                        (borrow Sample.bob (Sample.body "b1" 5000))
                        Sample.catalog)) = 201
  /\ option_map snd (outcome (interleave sched Sample.catalog A B)) = Some r2
  /\ (res_status r1 = 201 \/ res_status r2 = 201).
Proof.
  cbv zeta. split; [reflexivity|]. split; [reflexivity|].
  split; [reflexivity|]. split; [reflexivity|]. split; [reflexivity|].
  eapply (proj2 (proj2 (last_copy_borrowed Sample.catalog "b1" Sample.book1
                  (Sample.env 1000 "t1") (Sample.env 1000 "t2")
                  Sample.alice Sample.bob
                  (Sample.body "b1" 5000) (Sample.body "b1" 5000)
                  eq_refl eq_refl eq_refl eq_refl eq_refl eq_refl))
           [true; true; false; false; false; false; true; true]).
  reflexivity.
Defined.

(** C1, as stated, fails: when the two requests take turns at their store
    operations, both read availableCopies = 1 before either writes, both
    answer 201, and the book with a single copy has two active loans. *)
Lemma both_borrows_succeed :
  let A := start (Sample.env 1000 "t1") (borrow Sample.alice (Sample.body "b1" 5000)) in
  let B := start (Sample.env 1000 "t2") (borrow Sample.bob (Sample.body "b1" 5000)) in
  exists s' r1 r2,
    outcome (interleave [true; false; true; false; true; false; true; false]
               Sample.catalog A B) = Some (s', r1, r2)
    /\ res_status r1 = 201
    /\ res_status r2 = 201
    /\ active_on "b1" (borrowTransactions s') = 2
    /\ option_map b_totalCopies (getBook s' "b1") = Some 1.
Proof.
  cbv zeta. do 3 eexists. split; [reflexivity|]. repeat split.
Qed.

(** * Further properties of the lending routes *)

(** ** What a Borrow does *)

(** X1. In a store whose counters fit the integer column, a Borrow that does
    not answer 201 leaves the store as it was: it has recorded no loan and
    taken no copy. *)
Theorem borrow_all_or_nothing e user body s :
  Forall (fun b => int4_ok (b_availableCopies b) = true) (books s) ->
  res_status (snd (handle e (borrow user body) s)) <> 201 ->
  fst (handle e (borrow user body) s) = s.
Proof.
  intros Hall Hne.
  pose proof (borrow_result e user body s) as Hres.
  destruct (handle e (borrow user body) s) as [s' r]; cbn [fst snd] in *.
  inversion Hres; subst; cbn [res_status respond] in *; try reflexivity.
  - exfalso.
    match goal with Hg : getBook s _ = Some book |- _ =>
      apply find_some_id in Hg as [Hin _] end.
    rewrite Forall_forall in Hall. specialize (Hall book Hin).
    unfold int4_ok in *. rewrite andb_true_iff, !Z.leb_le in Hall.
    match goal with Hr : _ = false |- _ =>
      rewrite andb_false_iff, !Z.leb_gt in Hr end.
    unfold INT4_MIN, INT4_MAX in *. lia.
  - congruence.
Qed.

Lemma borrow_all_or_nothing_witness :
  let s := Sample.catalog in
  let far := 253402300800000 in
  let out := handle (Sample.env 1000 "t1") (borrow Sample.alice (Sample.body "b1" far)) s in
  Forall (fun b => int4_ok (b_availableCopies b) = true) (books s)
  /\ res_status (snd out) = 500
  /\ fst out = s.
Proof.
  cbv zeta.
  assert (H : Forall (fun b => int4_ok (b_availableCopies b) = true)
                (books Sample.catalog)) by (repeat constructor).
  split; [exact H|]. split; [reflexivity|].
  apply (borrow_all_or_nothing (Sample.env 1000 "t1") Sample.alice
           (Sample.body "b1" 253402300800000) Sample.catalog H).
  cbn. discriminate.
Defined.

(** X2. The loan a successful Borrow creates is the actor's: its user and
    school are those of the token, whatever school the body names; its book
    and due date are the body's; it is borrowed now, has no return time, and
    its status is the body's status when the body gives one and "active"
    otherwise. It is added after the loans on record, which stay as they
    were. *)
Theorem borrow_creates_the_actors_loan e user body s s' loan :
  handle e (borrow user body) s
    = (s', {| res_status := 201; res_json := TransactionJson (Some loan) |}) ->
  t_id loan = uuid e
  /\ t_userId loan = userId user
  /\ t_schoolId loan = schoolId user
  /\ body_bookId body = JStr (t_bookId loan)
  /\ body_dueDate body = ValidDate (t_dueDate loan)
  /\ t_borrowedAt loan = now e
  /\ t_returnedAt loan = None
  /\ ((body_status body = JUndefined /\ t_status loan = "active")
      \/ body_status body = JStr (t_status loan))
  /\ borrowTransactions s' = (borrowTransactions s ++ [loan])%list.
Proof.
  intros H. pose proof (borrow_result e user body s) as Hres. rewrite H in Hres.
  cbn [fst snd] in Hres. inversion Hres; subst; clear Hres.
  match goal with Hp : parse body = Some v |- _ =>
    pose proof (parse_due_date _ _ Hp) as Hd;
    pose proof (parse_fields _ _ Hp) as (Hb & Hr & Hs) end.
  cbn [inserted_row borrow_insert t_id t_userId t_schoolId t_bookId t_dueDate
       t_borrowedAt t_returnedAt t_status i_bookId i_userId i_schoolId i_dueDate
       i_returnedAt i_status].
  repeat split; try assumption; try reflexivity.
  unfold parse in *.
  destruct (body_bookId body), (body_schoolId body), (body_dueDate body),
    (body_returnedAt body), (body_status body); try discriminate;
    match goal with Hp : Some _ = Some v |- _ => injection Hp as <- end;
    cbn; auto.
Qed.

Lemma borrow_creates_the_actors_loan_witness :
  let body := {| body_bookId := JStr "b1"; body_schoolId := JStr "school-b";
                 body_dueDate := ValidDate 5000; body_returnedAt := JNull;
                 body_status := JStr "returned" |} in
  let loan := {| t_id := "t1"; t_bookId := "b1"; t_userId := "alice";
                 t_schoolId := Some "school-a"; t_borrowedAt := 1000;
                 t_dueDate := 5000; t_returnedAt := None;
                 t_status := "returned" |} in
  let out := handle (Sample.env 1000 "t1") (borrow Sample.alice body) Sample.catalog in
  out = (fst out, {| res_status := 201; res_json := TransactionJson (Some loan) |})
  /\ t_schoolId loan = schoolId Sample.alice
  /\ borrowTransactions (fst out) = (borrowTransactions Sample.catalog ++ [loan])%list.
Proof.
  cbv zeta. split; [reflexivity|].
  pose proof (borrow_creates_the_actors_loan (Sample.env 1000 "t1") Sample.alice
    {| body_bookId := JStr "b1"; body_schoolId := JStr "school-b";
       body_dueDate := ValidDate 5000; body_returnedAt := JNull;
       body_status := JStr "returned" |} Sample.catalog _ _ eq_refl) as H.
  split; [exact (proj1 (proj2 (proj2 H)))|].
  exact (proj2 (proj2 (proj2 (proj2 (proj2 (proj2 (proj2 (proj2 H)))))))).
Defined.

(** X3. A successful Borrow takes exactly one copy of its book: the row
    [getBook] finds for it has availableCopies one lower, status "borrowed"
    when that reaches 0 and its old status otherwise, and its other columns
    unchanged; the row of every other id is what it was. *)
Theorem borrow_takes_one_copy e user body s s' loan :
  handle e (borrow user body) s
    = (s', {| res_status := 201; res_json := TransactionJson (Some loan) |}) ->
  (exists book book',
     getBook s (t_bookId loan) = Some book
     /\ getBook s' (t_bookId loan) = Some book'
     /\ b_availableCopies book' = b_availableCopies book - 1
     /\ 0 <= b_availableCopies book'
     /\ b_status book'
        = (if b_availableCopies book' =? 0 then "borrowed" else b_status book)
     /\ book_identity book' = book_identity book)
  /\ (forall id, id <> t_bookId loan -> getBook s' id = getBook s id).
Proof.
  intros H. pose proof (borrow_result e user body s) as Hres. rewrite H in Hres.
  cbn [fst snd] in Hres. inversion Hres; subst; clear Hres.
  cbn [inserted_row borrow_insert t_bookId i_bookId].
  match goal with Hg : getBook s _ = Some book |- _ =>
    pose proof (find_some_id b_id _ _ _ Hg) as [_ Hid] end.
  split.
  - exists book, (set_book (borrow_patch book) book).
    split; [assumption|]. split.
    + rewrite getBook_with_patch, getBook_with_loan.
      match goal with Hg : getBook s _ = Some book |- _ => rewrite Hg end.
      cbn [option_map]. now rewrite Hid, String.eqb_refl.
    + cbn [set_book borrow_patch b_availableCopies b_status u_availableCopies
           u_status]. repeat split; try reflexivity. lia.
  - intros id Hne. rewrite getBook_with_patch, getBook_with_loan.
    destruct (getBook s id) as [b|] eqn:Hg; cbn [option_map]; [|reflexivity].
    apply find_some_id in Hg as [_ Hb].
    replace (b_id b =? v_bookId v)%string with false; [reflexivity|].
    symmetry. apply String.eqb_neq. congruence.
Qed.

Lemma borrow_takes_one_copy_witness :
  let out := handle (Sample.env 1000 "t1")
               (borrow Sample.alice (Sample.body "b1" 5000)) Sample.catalog in
  res_status (snd out) = 201
  /\ option_map b_availableCopies (getBook (fst out) "b1") = Some 0
  /\ getBook (fst out) "b2" = getBook Sample.catalog "b2".
Proof.
  cbv zeta. split; [reflexivity|]. split; [reflexivity|].
  refine (proj2 (borrow_takes_one_copy (Sample.env 1000 "t1") Sample.alice
            (Sample.body "b1" 5000) Sample.catalog _ _ eq_refl) "b2" _).
  discriminate.
Defined.

(** X4. A Borrow answers 201 only to an actor with a school, for a book on
    record of that very school with a copy available, and only while the
    actor has fewer than five active loans. *)
Theorem borrow_succeeds_only_if e user body s :
  res_status (snd (handle e (borrow user body) s)) = 201 ->
  truthy (schoolId user) = true
  /\ (List.length (getActiveTransactionsByUserId s (userId user)) < 5)%nat
  /\ exists id book,
       body_bookId body = JStr id
       /\ getBook s id = Some book
       /\ b_schoolId book = schoolId user
       /\ 0 < b_availableCopies book.
Proof.
  intros H. pose proof (borrow_result e user body s) as Hres.
  destruct (handle e (borrow user body) s) as [s' r]; cbn [fst snd] in *.
  inversion Hres; subst; cbn [res_status respond] in H; try discriminate.
  split; [assumption|]. split; [assumption|].
  exists (v_bookId v), book. repeat split; try assumption.
  - match goal with Hp : parse body = Some v |- _ =>
      apply (parse_fields _ _ Hp) end.
  - now apply opt_string_eqb_eq.
Qed.

Lemma borrow_succeeds_only_if_witness :
  res_status (snd (handle (Sample.env 1000 "t1")
                     (borrow Sample.alice (Sample.body "b1" 5000)) Sample.catalog)) = 201
  /\ truthy (schoolId Sample.alice) = true.
Proof.
  split; [reflexivity|].
  exact (proj1 (borrow_succeeds_only_if (Sample.env 1000 "t1") Sample.alice
                  (Sample.body "b1" 5000) Sample.catalog eq_refl)).
Defined.

(** ** What a Return does *)

(** X5. A Return answers 200 only for a loan on record that is "active", to
    an actor with a school that is the loan's school, who is the borrower or
    has the role admin or super_admin. *)
Theorem return_succeeds_only_if e user id s :
  res_status (snd (handle e (return_ user id) s)) = 200 ->
  exists t,
    getTransactionById s id = Some t
    /\ t_status t = "active"
    /\ truthy (schoolId user) = true
    /\ t_schoolId t = schoolId user
    /\ (t_userId t = userId user \/ role user = "admin" \/ role user = "super_admin").
Proof.
  intros H. pose proof (return_result e user id s) as Hres.
  destruct (handle e (return_ user id) s) as [s' r]; cbn [fst snd] in *.
  assert (Hguards : forall t,
    same_school user (t_schoolId t) = true ->
    is_owner_or_admin user t = true ->
    truthy (schoolId user) = true
    /\ t_schoolId t = schoolId user
    /\ (t_userId t = userId user \/ role user = "admin" \/ role user = "super_admin")).
  { intros t Hs Ho. unfold same_school in Hs. apply andb_true_iff in Hs as [Hy Heq].
    apply opt_string_eqb_eq in Heq. unfold is_owner_or_admin in Ho.
    rewrite !orb_true_iff, !String.eqb_eq in Ho. tauto. }
  inversion Hres; subst; cbn [res_status respond] in H; try discriminate;
    exists t; split; try assumption; split; try assumption; now apply Hguards.
Qed.

Lemma return_succeeds_only_if_witness :
  let s := Sample.store [Sample.book1]
             [Sample.loan "t1" "b1" "bob" (Some "school-a") 5000 "active"] in
  res_status (snd (handle (Sample.env 2000 "u") (return_ Sample.admin_a "t1") s)) = 200
  /\ exists t,
       getTransactionById s "t1" = Some t
       /\ t_status t = "active"
       /\ truthy (schoolId Sample.admin_a) = true
       /\ t_schoolId t = schoolId Sample.admin_a
       /\ (t_userId t = userId Sample.admin_a
           \/ role Sample.admin_a = "admin" \/ role Sample.admin_a = "super_admin").
Proof.
  cbv zeta. split; [reflexivity|].
  apply (return_succeeds_only_if (Sample.env 2000 "u") Sample.admin_a "t1").
  reflexivity.
Defined.



(** X7. A successful Return rewrites only the loan it names: that loan
    becomes "returned" with the current time as its return time and keeps
    its other columns, and the loan of every other id is what it was. *)
Theorem return_marks_only_that_loan e user id s :
  res_status (snd (handle e (return_ user id) s)) = 200 ->
  (exists t t',
     getTransactionById s id = Some t
     /\ getTransactionById (fst (handle e (return_ user id) s)) id = Some t'
     /\ t_status t' = "returned"
     /\ t_returnedAt t' = Some (now e)
     /\ loan_identity t' = loan_identity t)
  /\ (forall id', id' <> id ->
        getTransactionById (fst (handle e (return_ user id) s)) id'
        = getTransactionById s id').
Proof.
  intros H. pose proof (return_result e user id s) as Hres.
  destruct (handle e (return_ user id) s) as [s' r]; cbn [fst snd] in *.
  assert (Hkey : forall t,
    getTransactionById s id = Some t ->
    (exists t0 t',
       getTransactionById s id = Some t0
       /\ getTransactionById (with_return e id s) id = Some t'
       /\ t_status t' = "returned"
       /\ t_returnedAt t' = Some (now e)
       /\ loan_identity t' = loan_identity t0)
    /\ (forall id', id' <> id ->
          getTransactionById (with_return e id s) id' = getTransactionById s id')).
  { intros t Hg. pose proof (find_some_id t_id _ _ _ Hg) as [_ Hid]. split.
    - exists t, (set_returned e t). split; [assumption|].
      rewrite getTransactionById_with_return, Hg. cbn [option_map].
      rewrite Hid, String.eqb_refl. repeat split.
    - intros id' Hne. rewrite getTransactionById_with_return.
      destruct (getTransactionById s id') as [x|] eqn:Hx; cbn [option_map];
        [|reflexivity].
      apply find_some_id in Hx as [_ Hx].
      replace (t_id x =? id)%string with false; [reflexivity|].
      symmetry. apply String.eqb_neq. congruence. }
  inversion Hres; subst; cbn [res_status respond] in H; try discriminate;
    now apply (Hkey t).
Qed.

Lemma return_marks_only_that_loan_witness :
  let s := Sample.store [Sample.book1]
             [Sample.loan "t1" "b1" "alice" (Some "school-a") 5000 "active";
              Sample.loan "t2" "b1" "bob" (Some "school-a") 6000 "active"] in
  let out := handle (Sample.env 2000 "u") (return_ Sample.alice "t1") s in
  res_status (snd out) = 200
  /\ getTransactionById (fst out) "t2" = getTransactionById s "t2".
Proof.
  cbv zeta. split; [reflexivity|].
  refine (proj2 (return_marks_only_that_loan (Sample.env 2000 "u") Sample.alice
            "t1"
            (Sample.store [Sample.book1]
               [Sample.loan "t1" "b1" "alice" (Some "school-a") 5000 "active";
                Sample.loan "t2" "b1" "bob" (Some "school-a") 6000 "active"])
            eq_refl) "t2" _).
  discriminate.
Defined.

(** X8. Once a Return has answered 200, no loan of that id is in any overdue
    list, for any scope and at any later time. *)
Theorem returned_loan_is_not_overdue e user id s e' sid t :
  res_status (snd (handle e (return_ user id) s)) = 200 ->
  In t (getOverdueTransactions e' (fst (handle e (return_ user id) s)) sid) ->
  t_id t <> id.
Proof.
  intros H Hin. apply getOverdueTransactions_spec in Hin as (Hin & Hact & _).
  assert (Hrows : forall l, In t (return_rows e id l) -> t_id t <> id).
  { intros l Hl. unfold return_rows in Hl. apply in_map_iff in Hl as (x & Hx & _).
    destruct (String.eqb_spec (t_id x) id) as [Heq|Hne].
    - subst t. cbn in Hact. discriminate.
    - now subst t. }
  pose proof (return_result e user id s) as Hres.
  destruct (handle e (return_ user id) s) as [s' r]; cbn [fst snd] in *.
  inversion Hres; subst; cbn [res_status respond] in H; try discriminate;
    now apply (Hrows (borrowTransactions s)).
Qed.

Lemma returned_loan_is_not_overdue_witness :
  let late := Sample.loan "t1" "b1" "alice" (Some "school-a") 900 "active" in
  let s := Sample.store [Sample.book1] [late] in
  let out := handle (Sample.env 2000 "u") (return_ Sample.alice "t1") s in
  getOverdueTransactions (Sample.env 2000 "u") s None = [late]
  /\ res_status (snd out) = 200
  /\ getOverdueTransactions (Sample.env 3000 "u") (fst out) None = []
  /\ (forall t, In t (getOverdueTransactions (Sample.env 3000 "u") (fst out) None) ->
                t_id t <> "t1").
Proof.
  cbv zeta. split; [reflexivity|]. split; [reflexivity|]. split; [reflexivity|].
  intros t.
  apply (returned_loan_is_not_overdue (Sample.env 2000 "u") Sample.alice "t1" _
           (Sample.env 3000 "u") None t).
  reflexivity.
Defined.

(** ** What lending keeps true *)

Lemma serve_all_preserves (P : Store -> Prop) :
  (forall r s, P s -> P (fst (serve r s))) ->
  forall rs s, P s -> P (serve_all rs s).
Proof.
  intros Hstep rs. induction rs as [|r rs IH]; intros s Hs; cbn [serve_all]; auto.
Qed.

Lemma active_loans_return_rows e id uid l :
  (List.length (filter (fun t => (t_userId t =? uid)%string
                                 && (t_status t =? "active")%string)
                       (return_rows e id l))
   <= List.length (filter (fun t => (t_userId t =? uid)%string
                                    && (t_status t =? "active")%string) l))%nat.
Proof.
  induction l as [|t l IH]; cbn [return_rows map filter]; [lia|].
  fold (return_rows e id l).
  destruct (t_id t =? id)%string; cbn [set_returned t_userId t_status].
  - replace ("returned" =? "active")%string with false by reflexivity.
    rewrite andb_false_r.
    destruct ((t_userId t =? uid)%string && (t_status t =? "active")%string);
      cbn [List.length]; lia.
  - destruct ((t_userId t =? uid)%string && (t_status t =? "active")%string);
      cbn [List.length]; lia.
Qed.

Lemma active_loans_with_loan row s uid :
  (List.length (getActiveTransactionsByUserId (with_loan row s) uid)
   <= List.length (getActiveTransactionsByUserId s uid)
      + (if (t_userId row =? uid)%string then 1 else 0))%nat.
Proof.
  unfold getActiveTransactionsByUserId, with_loan; cbn [borrowTransactions].
  rewrite filter_app, length_app. cbn [filter].
  destruct (t_userId row =? uid)%string; cbn [andb].
  - destruct (t_status row =? "active")%string; cbn [List.length]; lia.
  - cbn [List.length]. lia.
Qed.

Lemma within_loan_limit_serve r s :
  within_loan_limit s -> within_loan_limit (fst (serve r s)).
Proof.
  intros Hl.
  assert (Hloan : forall e user v,
    (List.length (getActiveTransactionsByUserId s (userId user)) < 5)%nat ->
    within_loan_limit (with_loan (inserted_row e (borrow_insert user v)) s)).
  { intros e user v Hlt. unfold within_loan_limit. intros uid.
    pose proof (active_loans_with_loan (inserted_row e (borrow_insert user v)) s uid)
      as Hle.
    cbn [inserted_row borrow_insert t_userId i_userId] in Hle.
    specialize (Hl uid).
    destruct (String.eqb_spec (userId user) uid) as [Heq|Hne]; [|lia].
    rewrite <- Heq in *. lia. }
  assert (Hret : forall e id, within_loan_limit (with_return e id s)).
  { intros e id. unfold within_loan_limit. intros uid. specialize (Hl uid).
    pose proof (active_loans_return_rows e id uid (borrowTransactions s)) as Hle.
    unfold getActiveTransactionsByUserId in *. cbn [with_return borrowTransactions].
    lia. }
  destruct r as [e user body|e user id|e user]; cbn [serve].
  - borrow_cases e user body s; cbn [fst]; try assumption.
    + now apply Hloan.
    + unfold within_loan_limit. intros uid. apply (Hloan e user v); assumption.
  - return_cases e user id s; cbn [fst]; try assumption; apply Hret.
  - now rewrite overdue_store.
Qed.

(** X9. Handled one after the other, Borrow and Return requests never give
    a member a sixth active loan: if no member has more than five active
    loans, none has after any sequence of requests. *)
Theorem loan_limit_is_kept rs s :
  within_loan_limit s -> within_loan_limit (serve_all rs s).
Proof.
  apply (serve_all_preserves within_loan_limit). apply within_loan_limit_serve.
Qed.

Lemma loan_limit_is_kept_witness :
  let rs := [Borrow (Sample.env 1000 "t1") Sample.alice (Sample.body "b1" 5000);
             Borrow (Sample.env 1001 "t2") Sample.carol (Sample.body "b2" 5000);
             Return (Sample.env 2000 "u") Sample.alice "t1"] in
  within_loan_limit Sample.catalog
  /\ (List.length
        (getActiveTransactionsByUserId (serve_all rs Sample.catalog) "carol") <= 5)%nat.
Proof.
  cbv zeta.
  assert (H : within_loan_limit Sample.catalog) by (intros uid; cbn; lia).
  split; [exact H|].
  exact (loan_limit_is_kept _ _ H "carol").
Defined.

Lemma loans_match_books_serve r s :
  loans_match_books s -> loans_match_books (fst (serve r s)).
Proof.
  intros Hm.
  assert (Hpatch : forall s1 id u,
    u_schoolId u = None -> loans_match_books s1 ->
    loans_match_books (with_patch id u s1)).
  { intros s1 id u Hu H1 t Hin. destruct (H1 t Hin) as (book & Hg & Hs).
    rewrite getBook_with_patch, Hg. cbn [option_map].
    destruct (b_id book =? id)%string; eexists; split; try reflexivity;
      try assumption.
    cbn [set_book b_schoolId]. now rewrite Hu. }
  assert (Hret : forall e id, loans_match_books (with_return e id s)).
  { intros e id t Hin. cbn [with_return borrowTransactions] in Hin.
    unfold return_rows in Hin. apply in_map_iff in Hin as (x & Hx & Hin).
    destruct (Hm x Hin) as (book & Hg & Hs). exists book.
    rewrite getBook_with_return.
    destruct (t_id x =? id)%string; subst t; cbn [set_returned t_bookId t_schoolId];
      auto. }
  assert (Hloan : forall e user v book,
    getBook s (v_bookId v) = Some book ->
    opt_string_eqb (b_schoolId book) (schoolId user) = true ->
    loans_match_books (with_loan (inserted_row e (borrow_insert user v)) s)).
  { intros e user v book Hg Hs t Hin. cbn [with_loan borrowTransactions] in Hin.
    rewrite getBook_with_loan. apply in_app_iff in Hin as [Hin|[<-|[]]].
    - now apply Hm.
    - exists book. cbn [inserted_row borrow_insert t_bookId t_schoolId i_bookId
                        i_schoolId].
      split; [assumption|]. now apply opt_string_eqb_eq. }
  destruct r as [e user body|e user id|e user]; cbn [serve].
  - borrow_cases e user body s; cbn [fst]; try assumption.
    + now apply Hloan with book.
    + apply Hpatch; [reflexivity|]. now apply Hloan with book.
  - return_cases e user id s; cbn [fst]; try assumption; try apply Hret.
    apply Hpatch; [reflexivity|]. apply Hret.
  - now rewrite overdue_store.
Qed.

(** X10. Handled one after the other, Borrow and Return requests keep every
    loan attached to a book on record of the loan's own school. *)
Theorem loans_stay_in_their_school rs s :
  loans_match_books s -> loans_match_books (serve_all rs s).
Proof.
  apply (serve_all_preserves loans_match_books). apply loans_match_books_serve.
Qed.

Lemma loans_stay_in_their_school_witness :
  let rs := [Borrow (Sample.env 1000 "t1") Sample.alice (Sample.body "b1" 5000);
             Borrow (Sample.env 1001 "t2") Sample.carol (Sample.body "b2" 5000);
             Return (Sample.env 2000 "u") Sample.alice "t1"] in
  loans_match_books Sample.catalog
  /\ loans_match_books (serve_all rs Sample.catalog).
Proof.
  cbv zeta.
  assert (H : loans_match_books Sample.catalog) by (intros t []).
  split; [exact H|].
  exact (loans_stay_in_their_school _ _ H).
Defined.

Lemma return_times_ok_serve r s :
  return_times_ok s -> return_times_ok (fst (serve r s)).
Proof.
  intros Hok.
  assert (Hret : forall e id, return_times_ok (with_return e id s)).
  { intros e id t Hin Hr. cbn [with_return borrowTransactions] in Hin.
    unfold return_rows in Hin. apply in_map_iff in Hin as (x & Hx & Hin).
    destruct (t_id x =? id)%string; subst t; [reflexivity|now apply Hok]. }
  assert (Hloan : forall e user body v,
    parse body = Some v ->
    return_times_ok (with_loan (inserted_row e (borrow_insert user v)) s)).
  { intros e user body v Hp t Hin Hr. cbn [with_loan borrowTransactions] in Hin.
    apply in_app_iff in Hin as [Hin|[<-|[]]]; [now apply Hok|].
    exfalso. apply Hr. cbn. apply (parse_fields _ _ Hp). }
  destruct r as [e user body|e user id|e user]; cbn [serve].
  - borrow_cases e user body s; cbn [fst]; try assumption;
      now apply Hloan with body.
  - return_cases e user id s; cbn [fst]; try assumption; apply Hret.
  - now rewrite overdue_store.
Qed.

(** X11. Handled one after the other, Borrow and Return requests keep this
    true of every loan: one that has a return time has the status
    "returned". *)
Theorem return_time_means_returned rs s :
  return_times_ok s -> return_times_ok (serve_all rs s).
Proof.
  apply (serve_all_preserves return_times_ok). apply return_times_ok_serve.
Qed.

Lemma return_time_means_returned_witness :
  let rs := [Borrow (Sample.env 1000 "t1") Sample.alice (Sample.body "b1" 5000);
             Return (Sample.env 2000 "u") Sample.alice "t1"] in
  return_times_ok Sample.catalog
  /\ return_times_ok (serve_all rs Sample.catalog).
Proof.
  cbv zeta.
  assert (H : return_times_ok Sample.catalog) by (intros t []).
  split; [exact H|].
  exact (return_time_means_returned _ _ H).
Defined.

Lemma status_follows_counter_serve r s :
  consistent s -> status_follows_counter s ->
  status_follows_counter (fst (serve r s)).
Proof.
  intros Hc Hst.
  assert (Hpatch : forall s1 id u book,
    books s1 = books s ->
    getBook s id = Some book ->
    (b_status (set_book u book) = "borrowed"
     <-> b_availableCopies (set_book u book) = 0) ->
    status_follows_counter (with_patch id u s1)).
  { intros s1 id u book Hb Hg Hnew b Hin.
    cbn [with_patch books] in Hin. rewrite Hb in Hin. unfold update_books in Hin.
    apply in_map_iff in Hin as (x & Hx & Hin).
    destruct (String.eqb_spec (b_id x) id) as [Heq|Hne]; subst b; [|now apply Hst].
    assert (x = book) as ->; [|assumption].
    pose proof (getBook_unique s x (proj1 Hc) Hin) as Hu. rewrite Heq in Hu.
    congruence. }
  destruct r as [e user body|e user id|e user]; cbn [serve].
  - borrow_cases e user body s; cbn [fst]; try assumption.
    apply Hpatch with book; [reflexivity|assumption|].
    cbn [set_book borrow_patch b_status b_availableCopies u_status
         u_availableCopies].
    match goal with Hg : getBook s _ = Some book |- _ =>
      apply find_some_id in Hg as [Hin _] end.
    pose proof (Hst book Hin) as Hold.
    destruct (Z.eqb_spec (b_availableCopies book - 1) 0) as [Hz|Hnz];
      [tauto|].
    split; intros Hnew; [|lia]. apply Hold in Hnew. lia.
  - return_cases e user id s; cbn [fst]; try assumption.
    apply Hpatch with book; [reflexivity|assumption|].
    cbn [set_book return_patch b_status b_availableCopies u_status
         u_availableCopies].
    match goal with Hg : getBook s _ = Some book |- _ =>
      destruct (consistent_found _ _ _ Hc Hg) as (_ & _ & K0 & _) end.
    split; [discriminate|lia].
  - now rewrite overdue_store.
Qed.

(** X12. Handled one after the other, Borrow and Return requests keep the
    stored status of every book in step with its counter: starting from a
    consistent store in which a book says "borrowed" exactly when it has no
    available copy, that still holds after any sequence of requests. *)
Theorem status_tracks_counter rs s :
  consistent s -> status_follows_counter s ->
  status_follows_counter (serve_all rs s).
Proof.
  revert s. induction rs as [|r rs IH]; intros s Hc Hst; cbn [serve_all];
    [assumption|].
  apply IH; [now apply consistent_serve|now apply status_follows_counter_serve].
Qed.

Lemma status_tracks_counter_witness :
  let rs := [Borrow (Sample.env 1000 "t1") Sample.alice (Sample.body "b1" 5000);
             Return (Sample.env 2000 "u") Sample.alice "t1";
             Borrow (Sample.env 3000 "t3") Sample.bob (Sample.body "b1" 9000)] in
  consistent Sample.catalog
  /\ status_follows_counter Sample.catalog
  /\ status_follows_counter (serve_all rs Sample.catalog).
Proof.
  cbv zeta.
  assert (Hc : consistent Sample.catalog).
  { apply fresh_catalog_consistent. split; [reflexivity|]. split.
    - cbn. repeat constructor; cbn; intuition discriminate.
    - repeat constructor; cbn; unfold INT4_MAX; lia. }
  assert (Hs : status_follows_counter Sample.catalog).
  { intros b [<-|[<-|[]]]; cbn; split; intros H; discriminate. }
  split; [exact Hc|]. split; [exact Hs|].
  exact (status_tracks_counter _ _ Hc Hs).
Defined.

Lemma loan_identity_serve r s id t :
  getTransactionById s id = Some t ->
  exists t', getTransactionById (fst (serve r s)) id = Some t'
             /\ loan_identity t' = loan_identity t.
Proof.
  intros Hg.
  assert (Hloan : forall x,
    exists t', getTransactionById (with_loan x s) id = Some t'
               /\ loan_identity t' = loan_identity t).
  { intros x. exists t. now rewrite getTransactionById_with_loan, Hg. }
  assert (Hret : forall e' id',
    exists t', getTransactionById (with_return e' id' s) id = Some t'
               /\ loan_identity t' = loan_identity t).
  { intros e' id'. rewrite getTransactionById_with_return, Hg. cbn [option_map].
    destruct (t_id t =? id')%string; eauto. }
  destruct r as [e user body|e user id'|e user]; cbn [serve].
  - borrow_cases e user body s; cbn [fst]; eauto.
    rewrite getTransactionById_with_patch. apply Hloan.
  - return_cases e user id' s; cbn [fst]; eauto.
    rewrite getTransactionById_with_patch. apply Hret.
  - rewrite overdue_store. eauto.
Qed.

(** X13. The lending routes never delete a loan and never rewrite what was
    fixed when it was created: after any sequence of requests a loan on
    record is still found under its id, with the same book, borrower,
    school, borrowing time and due date. *)
Theorem loans_are_kept rs s id t :
  getTransactionById s id = Some t ->
  exists t', getTransactionById (serve_all rs s) id = Some t'
             /\ loan_identity t' = loan_identity t.
Proof.
  revert s t. induction rs as [|r rs IH]; intros s t Hg; cbn [serve_all]; eauto.
  destruct (loan_identity_serve r s id t Hg) as (t1 & Hg1 & H1).
  destruct (IH _ _ Hg1) as (t' & Hg' & H'). exists t'. split; congruence.
Qed.

Lemma loans_are_kept_witness :
  let t := Sample.loan "t1" "b1" "alice" (Some "school-a") 5000 "active" in
  let s := Sample.store [Sample.book1] [t] in
  let rs := [Return (Sample.env 2000 "u") Sample.alice "t1";
             Borrow (Sample.env 3000 "t3") Sample.bob (Sample.body "b1" 9000)] in
  getTransactionById s "t1" = Some t
  /\ exists t', getTransactionById (serve_all rs s) "t1" = Some t'
                /\ loan_identity t' = loan_identity t.
Proof.
  cbv zeta. split; [reflexivity|].
  apply (loans_are_kept _ _ "t1"). reflexivity.
Defined.

Lemma book_identity_serve r s id :
  option_map book_identity (getBook (fst (serve r s)) id)
  = option_map book_identity (getBook s id).
Proof.
  assert (Hpatch : forall s1 bid u,
    u_title u = None -> u_author u = None -> u_isbn u = None ->
    u_category u = None -> u_totalCopies u = None -> u_schoolId u = None ->
    getBook s1 id = getBook s id ->
    option_map book_identity (getBook (with_patch bid u s1) id)
    = option_map book_identity (getBook s id)).
  { intros s1 bid u H1 H2 H3 H4 H5 H6 Hsame.
    rewrite getBook_with_patch, Hsame.
    destruct (getBook s id) as [b|]; cbn [option_map]; [|reflexivity].
    destruct (b_id b =? bid)%string; [|reflexivity].
    unfold book_identity, set_book; cbn. now rewrite H1, H2, H3, H4, H5, H6. }
  destruct r as [e user body|e user id'|e user]; cbn [serve].
  - borrow_cases e user body s; cbn [fst]; try reflexivity.
    now apply Hpatch.
  - return_cases e user id' s; cbn [fst]; try reflexivity.
    now apply Hpatch.
  - now rewrite overdue_store.
Qed.

(** X14. The lending routes write nothing of a book but its available
    copies and its status: after any sequence of requests the book found
    under an id has the id, title, author, ISBN, category, total copies,
    school and creation time of the book that was found under it before,
    and an id without a book is still without one. *)
Theorem lending_keeps_the_catalog rs s id :
  option_map book_identity (getBook (serve_all rs s) id)
  = option_map book_identity (getBook s id).
Proof.
  revert s. induction rs as [|r rs IH]; intros s; cbn [serve_all]; [reflexivity|].
  rewrite IH. apply book_identity_serve.
Qed.

(** * The read routes *)

Lemma truthy_scope (sid : option string) :
  truthy (if truthy sid then sid else None) = truthy sid.
Proof. destruct (truthy sid) eqn:H; [assumption|reflexivity]. Qed.

(** X15. GET /api/transactions answers an actor whose role is not "admin"
    with exactly the loans that carry the actor's user id, and an "admin"
    with exactly the loans of the admin's school (all loans when the admin
    has no school). *)
Theorem list_transactions_scope user s :
  exists l,
    list_transactions user s = Body 200 l
    /\ (role user <> "admin" ->
        forall t, In t l <->
                  In t (borrowTransactions s) /\ t_userId t = userId user)
    /\ (role user = "admin" ->
        forall t, In t l <->
                  In t (borrowTransactions s)
                  /\ (truthy (schoolId user) = true -> t_schoolId t = schoolId user)).
Proof.
  unfold list_transactions.
  destruct (String.eqb_spec (role user) "admin") as [Hr|Hr]; eexists;
    (split; [reflexivity|]); split; intros H; try contradiction; intros t.
  - unfold getAllTransactions. rewrite truthy_scope.
    destruct (truthy (schoolId user)) eqn:Hs.
    + rewrite filter_In, opt_string_eqb_eq. intuition.
    + intuition discriminate.
  - unfold getTransactionsByUserId. rewrite filter_In, String.eqb_eq. tauto.
Qed.

Lemma list_transactions_scope_witness :
  let mine := Sample.loan "t1" "b1" "alice" (Some "school-a") 5000 "active" in
  let other := Sample.loan "t2" "b1" "bob" (Some "school-a") 5000 "active" in
  let s := Sample.store [Sample.book1] [mine; other] in
  role Sample.alice <> "admin"
  /\ list_transactions Sample.alice s = Body 200 [mine]
  /\ exists l,
       list_transactions Sample.alice s = Body 200 l
       /\ forall t, In t l <->
                    In t (borrowTransactions s) /\ t_userId t = userId Sample.alice.
Proof.
  cbv zeta. split; [discriminate|]. split; [reflexivity|].
  destruct (list_transactions_scope Sample.alice
    (Sample.store [Sample.book1]
       [Sample.loan "t1" "b1" "alice" (Some "school-a") 5000 "active";
        Sample.loan "t2" "b1" "bob" (Some "school-a") 5000 "active"]))
    as (l & Hl & Huser & _).
  exists l. split; [exact Hl|]. apply Huser. discriminate.
Defined.

Lemma or_default_none d : or_default None d = d.
Proof. reflexivity. Qed.

(** X16. GET /api/transactions/my-loans answers an actor without a school
    with the empty list, and an actor with a school with one entry per loan
    of theirs at that school, in the order of the query. An entry takes its
    book details only from a book of that school: when no book of the
    actor's school has the loan's book id, the title and author are
    "Unknown" and the ISBN is empty. *)
Theorem my_loans_show_own_school_only user s :
  (truthy (schoolId user) = false -> my_loans user s = Body 200 [])
  /\ (forall sid,
        schoolId user = Some sid ->
        truthy (schoolId user) = true ->
        exists l,
          my_loans user s = Body 200 l
          /\ map lw_id l
             = map t_id (getTransactionsByUserAndSchool s (userId user) sid)
          /\ forall x, In x l ->
               (forall b, In b (books s) -> b_id b = lw_bookId x ->
                          b_schoolId b <> Some sid) ->
               lw_bookTitle x = "Unknown"
               /\ lw_bookAuthor x = "Unknown"
               /\ lw_bookIsbn x = "").
Proof.
  unfold my_loans. split.
  - destruct (schoolId user) as [sid|]; [|reflexivity]. now intros ->.
  - intros sid -> Ht. rewrite Ht. eexists. split; [reflexivity|]. split.
    + rewrite map_map. reflexivity.
    + intros x Hx Hnone. apply in_map_iff in Hx as (t & <- & _).
      unfold loan_with_book; cbn [lw_bookId lw_bookTitle lw_bookAuthor lw_bookIsbn].
      destruct (find (fun b => (b_id b =? t_bookId t)%string)
                     (getAllBooks s (Some sid))) as [b|] eqn:Hf.
      * exfalso. apply find_some in Hf as [Hin Hid].
        unfold getAllBooks in Hin. rewrite Ht in Hin.
        apply filter_In in Hin as [Hin Hs].
        apply (Hnone b Hin); [now apply String.eqb_eq|now apply opt_string_eqb_eq].
      * repeat split.
Qed.

Lemma my_loans_show_own_school_only_witness :
  let t := Sample.loan "t1" "b2" "alice" (Some "school-a") 5000 "active" in
  let s := Sample.store [Sample.book1; Sample.book2] [t] in
  schoolId Sample.alice = Some "school-a"
  /\ truthy (schoolId Sample.alice) = true
  /\ option_map (map lw_bookTitle)
       (match my_loans Sample.alice s with Body _ l => Some l | _ => None end)
     = Some ["Unknown"].
Proof.
  cbv zeta. split; [reflexivity|]. split; [reflexivity|].
  destruct (proj2 (my_loans_show_own_school_only Sample.alice
    (Sample.store [Sample.book1; Sample.book2]
      [Sample.loan "t1" "b2" "alice" (Some "school-a") 5000 "active"]))
    "school-a" eq_refl eq_refl) as (l & Hl & _).
  rewrite Hl. cbn in Hl. injection Hl as <-. reflexivity.
Defined.

Lemma get_book_ok user id s b :
  get_book user id s = Body 200 b
  <-> getBook s id = Some b
      /\ (truthy (schoolId user) = true -> b_schoolId b = schoolId user).
Proof.
  unfold get_book. destruct (getBook s id) as [book|]; [|split; [discriminate|]].
  2:{ intros [H _]. discriminate. }
  destruct (truthy (schoolId user)) eqn:Ht; cbn [andb].
  - destruct (opt_string_eqb (b_schoolId book) (schoolId user)) eqn:Hs; cbn [negb].
    + apply opt_string_eqb_eq in Hs. split.
      * intros H. injection H as <-. auto.
      * intros [H _]. congruence.
    + split; [discriminate|]. intros [H Hsch]. injection H as <-.
      specialize (Hsch eq_refl). apply opt_string_eqb_eq in Hsch. congruence.
  - split.
    + intros H. injection H as <-. split; [reflexivity|discriminate].
    + intros [H _]. congruence.
Qed.

(** X17. GET /api/books/:id answers with a book exactly when the book is on
    record and, if the actor has a school, is of that school: an actor
    with a school never reads a book of another school, an actor without a
    school reads any. *)
Theorem get_book_access user id s b :
  get_book user id s = Body 200 b
  <-> getBook s id = Some b
      /\ (truthy (schoolId user) = true -> b_schoolId b = schoolId user).
Proof. exact (get_book_ok user id s b). Qed.

Lemma get_book_access_witness :
  getBook Sample.catalog "b1" = Some Sample.book1
  /\ get_book Sample.alice "b1" Sample.catalog = Body 200 Sample.book1
  /\ get_book Sample.carol "b1" Sample.catalog = Msg 403 "Access denied".
Proof.
  split; [reflexivity|]. split; [|reflexivity].
  apply (proj2 (get_book_access Sample.alice "b1" Sample.catalog Sample.book1)).
  split; reflexivity.
Defined.

(** X18. With book ids a key, the books GET /api/books lists to an actor are
    exactly the books GET /api/books/:id gives that actor under their own
    id. *)
Theorem listed_books_are_the_readable_ones user s b :
  NoDup (map b_id (books s)) ->
  (exists l, list_books user s = Body 200 l /\ In b l)
  <-> get_book user (b_id b) s = Body 200 b.
Proof.
  intros Hnd. rewrite get_book_ok. unfold list_books, getAllBooks.
  rewrite truthy_scope. split.
  - intros (l & Hl & Hin). injection Hl as <-.
    destruct (truthy (schoolId user)) eqn:Ht.
    + apply filter_In in Hin as [Hin Hs]. split; [now apply getBook_unique|].
      intros _. now apply opt_string_eqb_eq.
    + split; [now apply getBook_unique|discriminate].
  - intros [Hg Hs]. apply find_some in Hg as [Hin _].
    eexists. split; [reflexivity|].
    destruct (truthy (schoolId user)) eqn:Ht; [|assumption].
    apply filter_In. split; [assumption|]. apply opt_string_eqb_eq. auto.
Qed.

Lemma listed_books_are_the_readable_ones_witness :
  NoDup (map b_id (books Sample.catalog))
  /\ get_book Sample.alice "b1" Sample.catalog = Body 200 Sample.book1
  /\ exists l, list_books Sample.alice Sample.catalog = Body 200 l
               /\ In Sample.book1 l.
Proof.
  assert (Hnd : NoDup (map b_id (books Sample.catalog)))
    by (cbn; repeat constructor; cbn; intuition discriminate).
  split; [exact Hnd|]. split; [reflexivity|].
  apply (proj2 (listed_books_are_the_readable_ones Sample.alice Sample.catalog
                  Sample.book1 Hnd)).
  reflexivity.
Defined.

(** * The middleware *)

Lemma split_space_no_space s : has_space s = false -> split_space s = [s].
Proof.
  induction s as [|c s IH]; cbn [has_space split_space]; [reflexivity|].
  destruct (Ascii.eqb c " "); [discriminate|]. cbn [orb]. intros H.
  now rewrite (IH H).
Qed.

Lemma split_space_app a b :
  has_space a = false ->
  split_space (a ++ String " " b) = a :: split_space b.
Proof.
  induction a as [|c a IH]; cbn [has_space String.append split_space].
  - intros _. reflexivity.
  - destruct (Ascii.eqb c " ") eqn:Hc; [discriminate|]. cbn [orb]. intros H.
    now rewrite (IH H).
Qed.

(** X19. [authenticateToken] takes as the token what stands between the
    first and the second space of the Authorization header: for a first
    word and a token without spaces, the token non-empty, the request
    passes with the payload [verifyToken] gives for that token and is
    rejected with 403 when [verifyToken] refuses it, whatever the first
    word is and whatever follows a second space. *)
Theorem authenticateToken_takes_second_word verifyToken scheme tok tail :
  has_space scheme = false ->
  has_space tok = false ->
  tok <> "" ->
  authenticateToken verifyToken
    (Some (scheme ++ String " " (tok ++ match tail with
                                        | Some rest => String " " rest
                                        | None => ""
                                        end)))
  = match verifyToken tok with
    | Some user => Pass user
    | None => Reject 403 "Invalid or expired token"
    end.
Proof.
  intros Hs Ht Hne. unfold authenticateToken.
  assert (Hnonempty : forall x, ((scheme ++ String " " x) =? "")%string = false).
  { intros x. destruct scheme; reflexivity. }
  rewrite Hnonempty, split_space_app by assumption.
  assert (Hsecond : nth_error
    (scheme :: split_space (tok ++ match tail with
                                   | Some rest => String " " rest
                                   | None => ""
                                   end)) 1 = Some tok).
  { destruct tail as [rest|].
    - rewrite split_space_app by assumption. reflexivity.
    - rewrite (split_space_no_space (tok ++ "")).
      + cbn. f_equal. clear. induction tok as [|c t IH]; cbn; [reflexivity|].
        now rewrite IH.
      + clear -Ht. induction tok as [|c t IH]; cbn in *; [reflexivity|].
        destruct (Ascii.eqb c " "); [discriminate|]. now apply IH. }
  rewrite Hsecond.
  destruct (String.eqb_spec tok ""); [contradiction|reflexivity].
Qed.

Lemma authenticateToken_takes_second_word_witness :
  let verify := fun t => if (t =? "abc.def.ghi")%string then Some Sample.alice else None in
  authenticateToken verify (Some "Basic abc.def.ghi trailing") = Pass Sample.alice.
Proof.
  cbv zeta.
  apply (authenticateToken_takes_second_word
           (fun t => if (t =? "abc.def.ghi")%string then Some Sample.alice else None)
           "Basic" "abc.def.ghi" (Some "trailing"));
    [reflexivity | reflexivity | discriminate].
Defined.

(** X20. [authenticateToken] answers 401 "Authentication required", without
    consulting [verifyToken], when the header is absent, when it has no
    space in it, and when nothing stands between its first and its second
    space. *)
Theorem authenticateToken_requires_a_token verifyToken :
  authenticateToken verifyToken None = Reject 401 "Authentication required"
  /\ (forall h, has_space h = false ->
        authenticateToken verifyToken (Some h)
        = Reject 401 "Authentication required")
  /\ (forall scheme rest, has_space scheme = false ->
        authenticateToken verifyToken (Some (scheme ++ String " " (String " " rest)))
        = Reject 401 "Authentication required").
Proof.
  split; [reflexivity|]. split.
  - intros h Hh. unfold authenticateToken.
    destruct (String.eqb_spec h "") as [->|Hne]; [reflexivity|].
    now rewrite split_space_no_space.
  - intros scheme rest Hs. unfold authenticateToken.
    replace ((scheme ++ String " " (String " " rest)) =? "")%string with false
      by (destruct scheme; reflexivity).
    rewrite split_space_app by assumption. reflexivity.
Qed.

Lemma authenticateToken_requires_a_token_witness :
  authenticateToken (fun _ => Some Sample.alice) (Some "Bearer")
  = Reject 401 "Authentication required".
Proof.
  apply (proj1 (proj2 (authenticateToken_requires_a_token
                         (fun _ => Some Sample.alice))) "Bearer").
  reflexivity.
Defined.

(** * The catalog routes *)

Lemma getBook_none_iff s id :
  getBook s id = None <-> existsb (fun x => (b_id x =? id)%string) (books s) = false.
Proof.
  unfold getBook. induction (books s) as [|b l IH]; cbn [find existsb]; [tauto|].
  destruct (b_id b =? id)%string; cbn [orb]; [split; discriminate|exact IH].
Qed.

Lemma getBookByIsbn_none_key s isbn sid :
  truthy sid = true ->
  (getBookByIsbn s isbn sid = None
   <-> existsb (same_key isbn sid) (books s) = false).
Proof.
  intros Ht. unfold getBookByIsbn. rewrite Ht.
  destruct sid as [x|]; [|discriminate].
  induction (books s) as [|b l IH]; cbn [find existsb]; [tauto|].
  unfold same_key at 1. unfold opt_string_eqb at 1.
  destruct (b_schoolId b) as [y|]; rewrite ?andb_false_r; cbn [orb]; [|exact IH].
  destruct ((b_isbn b =? isbn)%string && (y =? x)%string); cbn [orb];
    [split; discriminate|exact IH].
Qed.

Lemma find_app_none {A} (p : A -> bool) l x :
  find p l = None -> find p (l ++ [x]) = if p x then Some x else None.
Proof.
  induction l as [|a l IH]; cbn [app find]; [reflexivity|].
  destruct (p a); [discriminate|exact IH].
Qed.

Lemma find_app_some {A} (p : A -> bool) l l' y :
  find p l = Some y -> find p (l ++ l') = Some y.
Proof.
  induction l as [|a l IH]; cbn [app find]; [discriminate|].
  destruct (p a); [trivial|exact IH].
Qed.

Lemma create_book_created e user parsed s s' b :
  create_book e user parsed s = (s', Body 201 b) ->
  includes ["admin"; "super_admin"] (role user) = true
  /\ truthy (schoolId user) = true
  /\ exists f,
       parsed = Some f
       /\ getBookByIsbn s (bf_isbn f) (schoolId user) = None
       /\ createBook e s (with_school f (schoolId user)) = inr (s', b).
Proof.
  unfold create_book, requireRole.
  destruct (includes ["admin"; "super_admin"] (role user)); cbn [negb];
    [|discriminate].
  destruct (truthy (schoolId user)); cbn [negb]; [|discriminate].
  destruct parsed as [f|]; [|discriminate]. cbn [with_school ib_isbn].
  destruct (getBookByIsbn s (bf_isbn f) (schoolId user)) eqn:Hi; [discriminate|].
  destruct (createBook e s _) as [err|[s1 b1]] eqn:Hc; [discriminate|].
  intros H. injection H as <- <-. repeat split. exists f. auto.
Qed.

Lemma create_book_code e user parsed s :
  (reply_code (snd (create_book e user parsed s)) = 201
   <-> includes ["admin"; "super_admin"] (role user) = true
       /\ truthy (schoolId user) = true
       /\ opt_on_record (schools s) (schoolId user) = true
       /\ exists f,
            parsed = Some f
            /\ getBookByIsbn s (bf_isbn f) (schoolId user) = None
            /\ getBook s (uuid e) = None
            /\ int4_ok (match bf_totalCopies f with Some x => x | None => 1 end) = true
            /\ int4_ok (match bf_availableCopies f with Some x => x | None => 1 end)
               = true)
  /\ (reply_code (snd (create_book e user parsed s)) <> 201 ->
      fst (create_book e user parsed s) = s).
Proof.
  unfold create_book, requireRole.
  destruct (includes ["admin"; "super_admin"] (role user)); cbn [negb].
  2:{ split; [split; [discriminate|intros [H _]; discriminate]|reflexivity]. }
  destruct (truthy (schoolId user)) eqn:Ht; cbn [negb].
  2:{ split; [split; [discriminate|intros (_ & H & _); discriminate]|reflexivity]. }
  destruct parsed as [f|].
  2:{ split; [split; [discriminate|intros (_ & _ & _ & f & H & _); discriminate]
             |reflexivity]. }
  cbn [with_school ib_isbn].
  destruct (getBookByIsbn s (bf_isbn f) (schoolId user)) eqn:Hi.
  { split; [split; [discriminate|]|reflexivity].
    intros (_ & _ & _ & f' & Hf & Hn & _). injection Hf as <-. congruence. }
  unfold createBook.
  cbn [created_book with_school b_totalCopies b_availableCopies b_id b_isbn
       b_schoolId ib_totalCopies ib_availableCopies ib_isbn ib_schoolId].
  pose proof (proj1 (getBookByIsbn_none_key s (bf_isbn f) (schoolId user) Ht) Hi)
    as Hkey. rewrite Hkey, orb_false_r.
  destruct (int4_ok (match bf_totalCopies f with Some x => x | None => 1 end))
    eqn:H1; cbn [andb negb].
  2:{ split; [split; [discriminate|]|reflexivity].
      intros (_ & _ & _ & f' & Hf & _ & _ & Hx & _). injection Hf as <-. congruence. }
  destruct (int4_ok (match bf_availableCopies f with Some x => x | None => 1 end))
    eqn:H2; cbn [andb negb].
  2:{ split; [split; [discriminate|]|reflexivity].
      intros (_ & _ & _ & f' & Hf & _ & _ & _ & Hx). injection Hf as <-. congruence. }
  destruct (existsb (fun x => (b_id x =? uuid e)%string) (books s)) eqn:Hid;
    cbn [fst snd reply_code].
  { split; [split; [discriminate|]|reflexivity].
    intros (_ & _ & _ & f' & Hf & _ & Hg & _). apply getBook_none_iff in Hg.
    congruence. }
  destruct (opt_on_record (schools s) (schoolId user)) eqn:Hsch;
    cbn [negb fst snd reply_code].
  - split; [|congruence]. split; [|reflexivity]. intros _.
    repeat split. exists f. repeat split; try assumption.
    now apply getBook_none_iff.
  - split; [split; [discriminate|]|reflexivity].
    intros (_ & _ & Hx & _). discriminate.
Qed.



Lemma create_book_row e user parsed s s' b :
  create_book e user parsed s = (s', Body 201 b) ->
  b_schoolId b = schoolId user
  /\ b_id b = uuid e
  /\ b_createdAt b = now e
  /\ (exists f,
        parsed = Some f
        /\ b_title b = bf_title f /\ b_author b = bf_author f
        /\ b_isbn b = bf_isbn f /\ b_category b = bf_category f
        /\ b_status b = match bf_status f with Some x => x | None => "available" end
        /\ b_totalCopies b = match bf_totalCopies f with Some x => x | None => 1 end
        /\ b_availableCopies b
           = match bf_availableCopies f with Some x => x | None => 1 end)
  /\ books s' = (books s ++ [b])%list
  /\ borrowTransactions s' = borrowTransactions s
  /\ getBook s' (b_id b) = Some b
  /\ getBookByIsbn s' (b_isbn b) (schoolId user) = Some b.
Proof.
  intros H. apply create_book_created in H as (_ & Ht & f & Hp & Hi & Hc).
  unfold createBook in Hc.
  destruct (negb _); [discriminate|].
  destruct (existsb (fun x => (b_id x =? b_id (created_book e (with_school f
              (schoolId user))))%string) (books s)) eqn:Hid;
    cbn [orb] in Hc; [discriminate|].
  destruct (existsb (same_key _ _) (books s)); [discriminate|].
  destruct (negb (opt_on_record _ _)); [discriminate|].
  injection Hc as <- <-.
  cbn [created_book with_school b_schoolId b_id b_createdAt b_title b_author
       b_isbn b_category b_status b_totalCopies b_availableCopies ib_title
       ib_author ib_isbn ib_category ib_status ib_totalCopies ib_availableCopies
       ib_schoolId books borrowTransactions] in *.
  split; [reflexivity|]. split; [reflexivity|]. split; [reflexivity|].
  split; [exists f; repeat split; assumption|].
  split; [reflexivity|]. split; [reflexivity|]. split.
  - unfold getBook; cbn [books]. rewrite find_app_none.
    + cbn [b_id]. now rewrite String.eqb_refl.
    + apply getBook_none_iff in Hid. exact Hid.
  - unfold getBookByIsbn in *; cbn [books]. rewrite Ht in *.
    rewrite find_app_none by assumption.
    cbn [created_book with_school b_isbn b_schoolId ib_isbn ib_schoolId].
    rewrite String.eqb_refl.
    replace (opt_string_eqb (schoolId user) (schoolId user)) with true;
      [reflexivity|].
    symmetry. now apply opt_string_eqb_eq.
Qed.

(** X22. The book POST /api/books creates belongs to the actor's school,
    whatever school the body names; it has the title, author, ISBN and
    category of the body, the body's status and counters where the body
    gives them and "available", 1 and 1 where it does not; it is added
    after the books on record, the loans stay as they were, and it is then
    found both under its id and under its ISBN at that school. *)
Theorem create_book_effect e user parsed s s' b :
  create_book e user parsed s = (s', Body 201 b) ->
  b_schoolId b = schoolId user
  /\ b_id b = uuid e
  /\ b_createdAt b = now e
  /\ (exists f,
        parsed = Some f
        /\ b_title b = bf_title f /\ b_author b = bf_author f
        /\ b_isbn b = bf_isbn f /\ b_category b = bf_category f
        /\ b_status b = match bf_status f with Some x => x | None => "available" end
        /\ b_totalCopies b = match bf_totalCopies f with Some x => x | None => 1 end
        /\ b_availableCopies b
           = match bf_availableCopies f with Some x => x | None => 1 end)
  /\ books s' = (books s ++ [b])%list
  /\ borrowTransactions s' = borrowTransactions s
  /\ getBook s' (b_id b) = Some b
  /\ getBookByIsbn s' (b_isbn b) (schoolId user) = Some b.
Proof. exact (create_book_row e user parsed s s' b). Qed.

Lemma create_book_effect_witness :
  let f := {| bf_title := "Emma"; bf_author := "Austen"; bf_isbn := "222";
              bf_category := "Fiction"; bf_status := None;
              bf_totalCopies := Some 3; bf_availableCopies := None |} in
  let out := create_book (Sample.env 1000 "b9") Sample.admin_a (Some f) Sample.catalog in
  let b := {| b_id := "b9"; b_title := "Emma"; b_author := "Austen";
              b_isbn := "222"; b_category := "Fiction"; b_status := "available";
              b_totalCopies := 3; b_availableCopies := 1;
              b_schoolId := Some "school-a"; b_createdAt := 1000 |} in
  out = (fst out, Body 201 b)
  /\ getBookByIsbn (fst out) "222" (Some "school-a") = Some b.
Proof.
  cbv zeta. split; [reflexivity|].
  pose proof (create_book_effect (Sample.env 1000 "b9") Sample.admin_a
    (Some {| bf_title := "Emma"; bf_author := "Austen"; bf_isbn := "222";
             bf_category := "Fiction"; bf_status := None;
             bf_totalCopies := Some 3; bf_availableCopies := None |})
    Sample.catalog _ _ eq_refl) as H.
  exact (proj2 (proj2 (proj2 (proj2 (proj2 (proj2 (proj2 H))))))).
Defined.

Lemma filter_id_nil s id :
  filter (fun b => (b_id b =? id)%string) (books s) = [] <-> getBook s id = None.
Proof.
  unfold getBook. induction (books s) as [|b l IH]; cbn [filter find]; [tauto|].
  destruct (b_id b =? id)%string; [split; discriminate|exact IH].
Qed.

Lemma find_other_after_delete (l : list Book) id id' :
  id' <> id ->
  find (fun b => (b_id b =? id')%string)
       (filter (fun b => negb (b_id b =? id)%string) l)
  = find (fun b => (b_id b =? id')%string) l.
Proof.
  intros Hne. induction l as [|b l IH]; cbn [filter find]; [reflexivity|].
  destruct (String.eqb_spec (b_id b) id) as [Heq|Hd]; cbn [negb find].
  - replace (b_id b =? id')%string with false; [exact IH|].
    symmetry. apply String.eqb_neq. congruence.
  - now rewrite IH.
Qed.

Lemma find_deleted (l : list Book) id :
  find (fun b => (b_id b =? id)%string)
       (filter (fun b => negb (b_id b =? id)%string) l) = None.
Proof.
  induction l as [|b l IH]; cbn [filter find]; [reflexivity|].
  destruct (b_id b =? id)%string eqn:E; cbn [negb find]; [exact IH|].
  now rewrite E.
Qed.

(** X23. DELETE /api/books/:id refuses to remove a book that any loan on
    record names, active or returned: an actor who may touch the book gets
    500 "Failed to delete book" and the store is as it was. *)
Theorem delete_book_with_loans_fails user id s book t :
  includes ["admin"; "super_admin"] (role user) = true ->
  getBook s id = Some book ->
  (truthy (schoolId user) = true -> b_schoolId book = schoolId user) ->
  In t (borrowTransactions s) ->
  t_bookId t = id ->
  delete_book user id s = (s, Msg 500 "Failed to delete book").
Proof.
  intros Hr Hg Hs Hin Hid. unfold delete_book, requireRole. rewrite Hr, Hg.
  cbn [negb].
  replace (truthy (schoolId user)
           && negb (opt_string_eqb (b_schoolId book) (schoolId user))) with false.
  2:{ destruct (truthy (schoolId user)); [|reflexivity]. cbn [andb].
      rewrite (proj2 (opt_string_eqb_eq _ _) (Hs eq_refl)). reflexivity. }
  unfold deleteBook.
  destruct (filter (fun b => (b_id b =? id)%string) (books s)) eqn:Hf.
  - apply filter_id_nil in Hf. congruence.
  - replace (existsb (fun x => (t_bookId x =? id)%string) (borrowTransactions s))
      with true; [reflexivity|].
    symmetry. apply existsb_exists. exists t. split; [assumption|].
    now apply String.eqb_eq.
Qed.

Lemma delete_book_with_loans_fails_witness :
  let t := Sample.loan "t1" "b1" "alice" (Some "school-a") 5000 "returned" in
  let s := Sample.store [Sample.book1] [t] in
  getBook s "b1" = Some Sample.book1
  /\ delete_book Sample.admin_a "b1" s = (s, Msg 500 "Failed to delete book").
Proof.
  cbv zeta. split; [reflexivity|].
  apply (delete_book_with_loans_fails Sample.admin_a "b1" _ Sample.book1
           (Sample.loan "t1" "b1" "alice" (Some "school-a") 5000 "returned"));
    try reflexivity.
  left. reflexivity.
Defined.

Lemma delete_book_outcome user id s :
  (reply_code (snd (delete_book user id s)) = 200 ->
   includes ["admin"; "super_admin"] (role user) = true
   /\ (exists book,
         getBook s id = Some book
         /\ (truthy (schoolId user) = true -> b_schoolId book = schoolId user))
   /\ (forall t, In t (borrowTransactions s) -> t_bookId t <> id)
   /\ getBook (fst (delete_book user id s)) id = None
   /\ (forall id', id' <> id ->
         getBook (fst (delete_book user id s)) id' = getBook s id')
   /\ borrowTransactions (fst (delete_book user id s)) = borrowTransactions s)
  /\ (reply_code (snd (delete_book user id s)) <> 200 ->
      fst (delete_book user id s) = s).
Proof.
  unfold delete_book, requireRole.
  destruct (includes ["admin"; "super_admin"] (role user)); cbn [negb];
    [|split; [discriminate|reflexivity]].
  destruct (getBook s id) as [book|] eqn:Hg; [|split; [discriminate|reflexivity]].
  destruct (truthy (schoolId user)
            && negb (opt_string_eqb (b_schoolId book) (schoolId user))) eqn:Hs;
    [split; [discriminate|reflexivity]|].
  unfold deleteBook.
  destruct (filter (fun b => (b_id b =? id)%string) (books s)) eqn:Hf.
  { apply filter_id_nil in Hf. congruence. }
  destruct (existsb (fun t => (t_bookId t =? id)%string) (borrowTransactions s))
    eqn:Hx; [split; [discriminate|reflexivity]|].
  cbn [negb fst snd reply_code]. split; [|congruence]. intros _.
  split; [reflexivity|]. split.
  { exists book. split; [reflexivity|]. intros Ht. rewrite Ht in Hs.
    cbn [andb] in Hs. apply negb_false_iff in Hs. now apply opt_string_eqb_eq. }
  split.
  { intros t Hin Heq.
    assert (existsb (fun t => (t_bookId t =? id)%string) (borrowTransactions s)
            = true); [|congruence].
    apply existsb_exists. exists t. split; [assumption|now apply String.eqb_eq]. }
  split; [apply find_deleted|]. split; [|reflexivity].
  intros id' Hne. now apply find_other_after_delete.
Qed.

(** X24. When DELETE /api/books/:id answers 200 the actor is an admin or
    super admin, the book was on record, of the actor's school if the actor
    has one, and no loan named it; afterwards no book has that id, the book
    of every other id is what it was, and the loans are untouched. Any
    other answer leaves the store as it was. *)
Theorem delete_book_effect user id s :
  (reply_code (snd (delete_book user id s)) = 200 ->
   includes ["admin"; "super_admin"] (role user) = true
   /\ (exists book,
         getBook s id = Some book
         /\ (truthy (schoolId user) = true -> b_schoolId book = schoolId user))
   /\ (forall t, In t (borrowTransactions s) -> t_bookId t <> id)
   /\ getBook (fst (delete_book user id s)) id = None
   /\ (forall id', id' <> id ->
         getBook (fst (delete_book user id s)) id' = getBook s id')
   /\ borrowTransactions (fst (delete_book user id s)) = borrowTransactions s)
  /\ (reply_code (snd (delete_book user id s)) <> 200 ->
      fst (delete_book user id s) = s).
Proof. exact (delete_book_outcome user id s). Qed.

Lemma delete_book_effect_witness :
  reply_code (snd (delete_book Sample.admin_a "b1" Sample.catalog)) = 200
  /\ getBook (fst (delete_book Sample.admin_a "b1" Sample.catalog)) "b1" = None
  /\ reply_code (snd (delete_book Sample.admin_a "b2" Sample.catalog)) <> 200
  /\ fst (delete_book Sample.admin_a "b2" Sample.catalog) = Sample.catalog.
Proof.
  split; [reflexivity|]. split.
  - apply (proj1 (delete_book_effect Sample.admin_a "b1" Sample.catalog)).
    reflexivity.
  - split; [cbn; discriminate|].
    apply (proj2 (delete_book_effect Sample.admin_a "b2" Sample.catalog)).
    cbn. discriminate.
Defined.

Lemma patch_book_outcome user id parsed s :
  (reply_code (snd (patch_book user id parsed s)) = 200 ->
   includes ["admin"; "super_admin"] (role user) = true
   /\ exists book u,
        getBook s id = Some book
        /\ (truthy (schoolId user) = true -> b_schoolId book = schoolId user)
        /\ parsed = Some u
        /\ snd (patch_book user id parsed s)
           = Body 200 (Some (set_book u book))
        /\ getBook (fst (patch_book user id parsed s)) id
           = Some (set_book u book)
        /\ (forall id', id' <> id ->
              getBook (fst (patch_book user id parsed s)) id'
              = getBook s id')
        /\ borrowTransactions (fst (patch_book user id parsed s))
           = borrowTransactions s)
  /\ (reply_code (snd (patch_book user id parsed s)) <> 200 ->
      fst (patch_book user id parsed s) = s).
Proof.
  unfold patch_book, requireRole.
  destruct (includes ["admin"; "super_admin"] (role user)); cbn [negb];
    [|split; [discriminate|reflexivity]].
  destruct (getBook s id) as [book|] eqn:Hg; [|split; [discriminate|reflexivity]].
  destruct (truthy (schoolId user)
            && negb (opt_string_eqb (b_schoolId book) (schoolId user))) eqn:Hs;
    [split; [discriminate|reflexivity]|].
  destruct parsed as [u|]; [|split; [discriminate|reflexivity]].
  unfold updateBook_any, updateBook.
  destruct (update_is_empty u); [split; [discriminate|reflexivity]|].
  destruct (opt_int4_ok (u_totalCopies u) && opt_int4_ok (u_availableCopies u));
    [|split; [discriminate|reflexivity]].
  fold (with_patch id u s).
  destruct (_ && keys_unique (books (with_patch id u s)));
    [|split; [discriminate|reflexivity]].
  cbn [fst snd reply_code]. split; [|congruence]. intros _.
  pose proof (find_some_id b_id _ _ _ Hg) as [_ Hid].
  assert (Hnew : getBook (with_patch id u s) id = Some (set_book u book)).
  { rewrite getBook_with_patch, Hg. cbn [option_map].
    now rewrite Hid, String.eqb_refl. }
  split; [reflexivity|]. exists book, u.
  split; [reflexivity|]. split.
  { intros Ht. rewrite Ht in Hs. cbn [andb] in Hs. apply negb_false_iff in Hs.
    now apply opt_string_eqb_eq. }
  split; [reflexivity|]. split; [now rewrite Hnew|]. split; [exact Hnew|].
  split; [|reflexivity].
  intros id' Hne. rewrite getBook_with_patch.
  destruct (getBook s id') as [b|] eqn:Hb; cbn [option_map]; [|reflexivity].
  apply find_some_id in Hb as [_ Hb].
  replace (b_id b =? id)%string with false; [reflexivity|].
  symmetry. apply String.eqb_neq. congruence.
Qed.

(** X25. When PATCH /api/books/:id answers 200 the actor is an admin or super
    admin, the book was on record and, if the actor has a school, of that
    school; the row found under the id is then the old row with exactly the
    columns of the validated update overwritten, and it is the body of the
    answer; the book of every other id and the loans are what they were.
    The counters are written as given: nothing relates availableCopies to
    totalCopies. Any other answer leaves the store as it was. *)
Theorem patch_book_effect user id parsed s :
  (reply_code (snd (patch_book user id parsed s)) = 200 ->
   includes ["admin"; "super_admin"] (role user) = true
   /\ exists book u,
        getBook s id = Some book
        /\ (truthy (schoolId user) = true -> b_schoolId book = schoolId user)
        /\ parsed = Some u
        /\ snd (patch_book user id parsed s)
           = Body 200 (Some (set_book u book))
        /\ getBook (fst (patch_book user id parsed s)) id
           = Some (set_book u book)
        /\ (forall id', id' <> id ->
              getBook (fst (patch_book user id parsed s)) id'
              = getBook s id')
        /\ borrowTransactions (fst (patch_book user id parsed s))
           = borrowTransactions s)
  /\ (reply_code (snd (patch_book user id parsed s)) <> 200 ->
      fst (patch_book user id parsed s) = s).
Proof. exact (patch_book_outcome user id parsed s). Qed.

Lemma patch_book_effect_witness :
  let u := {| u_title := None; u_author := None; u_isbn := None;
              u_category := None; u_status := None; u_totalCopies := None;
              u_availableCopies := Some 7; u_schoolId := None |} in
  let out := patch_book Sample.admin_a "b1" (Some u) Sample.catalog in
  reply_code (snd out) = 200
  /\ option_map b_availableCopies (getBook (fst out) "b1") = Some 7
  /\ option_map b_totalCopies (getBook (fst out) "b1") = Some 1
  /\ borrowTransactions (fst out) = borrowTransactions Sample.catalog.
Proof.
  cbv zeta. split; [reflexivity|]. split; [reflexivity|]. split; [reflexivity|].
  destruct (proj1 (patch_book_effect Sample.admin_a "b1"
    (Some {| u_title := None; u_author := None; u_isbn := None;
             u_category := None; u_status := None; u_totalCopies := None;
             u_availableCopies := Some 7; u_schoolId := None |})
    Sample.catalog) eq_refl) as (_ & book & u & _ & _ & _ & _ & _ & _ & H).
  exact H.
Defined.

(** * Loans and the catalog together *)

Lemma loans_have_books_patch id u s :
  loans_have_books s -> loans_have_books (with_patch id u s).
Proof.
  intros H t Hin. rewrite getBook_with_patch.
  specialize (H t Hin). destruct (getBook s (t_bookId t)); [discriminate|tauto].
Qed.

Lemma loans_have_books_serve r s :
  loans_have_books s -> loans_have_books (fst (serve r s)).
Proof.
  intros Hm.
  assert (Hret : forall e id, loans_have_books (with_return e id s)).
  { intros e id t Hin. cbn [with_return borrowTransactions] in Hin.
    unfold return_rows in Hin. apply in_map_iff in Hin as (x & Hx & Hin).
    rewrite getBook_with_return. specialize (Hm x Hin).
    destruct (t_id x =? id)%string; subst t; exact Hm. }
  assert (Hloan : forall e user v book,
    getBook s (v_bookId v) = Some book ->
    loans_have_books (with_loan (inserted_row e (borrow_insert user v)) s)).
  { intros e user v book Hg t Hin. cbn [with_loan borrowTransactions] in Hin.
    rewrite getBook_with_loan. apply in_app_iff in Hin as [Hin|[<-|[]]].
    - now apply Hm.
    - cbn [inserted_row borrow_insert t_bookId i_bookId]. congruence. }
  destruct r as [e user body|e user id|e user]; cbn [serve].
  - borrow_cases e user body s; cbn [fst]; try assumption.
    + now apply Hloan with book.
    + apply loans_have_books_patch. now apply Hloan with book.
  - return_cases e user id s; cbn [fst]; try assumption; try apply Hret.
    apply loans_have_books_patch. apply Hret.
  - now rewrite overdue_store.
Qed.

(** X27. In a store where every loan names a book on record, a Return that
    answers 200 has found the book of its loan and raised its counter by
    one: the branch of the handler for a book that is missing is not
    taken. *)
Theorem return_finds_its_book e user id s :
  loans_have_books s ->
  res_status (snd (handle e (return_ user id) s)) = 200 ->
  exists t book,
    getTransactionById s id = Some t
    /\ getBook s (t_bookId t) = Some book
    /\ option_map b_availableCopies
         (getBook (fst (handle e (return_ user id) s)) (t_bookId t))
       = Some (b_availableCopies book + 1).
Proof.
  intros Hm H. pose proof (return_result e user id s) as Hres.
  destruct (handle e (return_ user id) s) as [s' r]; cbn [fst snd] in *.
  inversion Hres; subst; cbn [res_status respond] in H; try discriminate.
  - exfalso.
    match goal with Hg : getTransactionById s id = Some t |- _ =>
      apply find_some_id in Hg as [Hin _] end.
    now apply (Hm t Hin).
  - exists t, book. split; [assumption|]. split; [assumption|].
    rewrite getBook_with_patch, getBook_with_return.
    match goal with Hg : getBook s _ = Some book |- _ =>
      rewrite Hg; apply find_some_id in Hg as [_ Hid] end.
    cbn [option_map]. now rewrite Hid, String.eqb_refl.
Qed.

Lemma return_finds_its_book_witness :
  let t := Sample.loan "t1" "b1" "alice" (Some "school-a") 5000 "active" in
  let taken := set_book (borrow_patch Sample.book1) Sample.book1 in
  let s := Sample.store [taken; Sample.book2] [t] in
  loans_have_books s
  /\ res_status (snd (handle (Sample.env 2000 "u") (return_ Sample.alice "t1") s)) = 200
  /\ exists t' book,
       getTransactionById s "t1" = Some t'
       /\ getBook s (t_bookId t') = Some book
       /\ option_map b_availableCopies
            (getBook (fst (handle (Sample.env 2000 "u") (return_ Sample.alice "t1") s))
               (t_bookId t'))
          = Some (b_availableCopies book + 1).
Proof.
  cbv zeta.
  assert (H : loans_have_books
    (Sample.store [set_book (borrow_patch Sample.book1) Sample.book1; Sample.book2]
       [Sample.loan "t1" "b1" "alice" (Some "school-a") 5000 "active"])).
  { intros t [<-|[]]. cbn. discriminate. }
  split; [exact H|]. split; [reflexivity|].
  exact (return_finds_its_book (Sample.env 2000 "u") Sample.alice "t1" _ H eq_refl).
Defined.

Lemma create_book_store e user parsed s :
  fst (create_book e user parsed s) = s
  \/ exists b,
       books (fst (create_book e user parsed s)) = (books s ++ [b])%list
       /\ borrowTransactions (fst (create_book e user parsed s))
          = borrowTransactions s.
Proof.
  destruct (create_book e user parsed s) as [s' r] eqn:Hc.
  destruct r as [code b|code m|].
  - destruct (Z.eq_dec code 201) as [->|Hne].
    + right. exists b. apply create_book_row in Hc. cbn [fst]. tauto.
    + left. pose proof (proj2 (create_book_code e user parsed s)) as H.
      rewrite Hc in H. now apply H.
  - unfold create_book, requireRole in Hc.
    destruct (negb _); [now injection Hc as <- _; left|].
    destruct (negb _); [now injection Hc as <- _; left|].
    destruct parsed; [|discriminate].
    destruct (getBookByIsbn _ _ _); [now injection Hc as <- _; left|].
    destruct (createBook _ _ _) as [|[]]; [now injection Hc as <- _; left|].
    discriminate.
  - unfold create_book, requireRole in Hc.
    destruct (negb _); [discriminate|].
    destruct (negb _); [discriminate|].
    destruct parsed; [|now injection Hc as <-; left].
    destruct (getBookByIsbn _ _ _); [discriminate|].
    destruct (createBook _ _ _) as [|[]]; discriminate.
Qed.

Lemma loans_have_books_call c s :
  loans_have_books s -> loans_have_books (serve_call c s).
Proof.
  intros Hm. destruct c as [r|e user parsed|user id parsed|user id];
    cbn [serve_call].
  - now apply loans_have_books_serve.
  - destruct (create_book_store e user parsed s) as [->|(b & Hb & Ht)];
      [assumption|].
    intros t Hin. rewrite Ht in Hin. specialize (Hm t Hin).
    unfold getBook in *. rewrite Hb.
    destruct (find (fun b0 => (b_id b0 =? t_bookId t)%string) (books s)) eqn:Hf;
      [|contradiction].
    now rewrite (find_app_some _ _ _ _ Hf).
  - pose proof (patch_book_outcome user id parsed s) as [Hok Hno].
    destruct (Z.eq_dec (reply_code (snd (patch_book user id parsed s))) 200)
      as [H200|Hne]; [|now rewrite (Hno Hne)].
    destruct (Hok H200) as (_ & book & u & _ & _ & _ & _ & Hid & Hother & Ht).
    intros t Hin. rewrite Ht in Hin. specialize (Hm t Hin).
    destruct (String.eqb_spec (t_bookId t) id) as [->|Hd];
      [now rewrite Hid|now rewrite Hother].
  - pose proof (delete_book_outcome user id s) as [Hok Hno].
    destruct (Z.eq_dec (reply_code (snd (delete_book user id s))) 200)
      as [H200|Hne]; [|now rewrite (Hno Hne)].
    destruct (Hok H200) as (_ & _ & Hfree & _ & Hother & Ht).
    intros t Hin. rewrite Ht in Hin. rewrite Hother; [now apply Hm|].
    now apply Hfree.
Qed.

(** X26. Through the routes that write the store (borrow, return, and the
    creation, update and deletion of books), handled one after the other, a
    loan never loses its book: if every loan names a book on record, every
    loan still does after any sequence of requests. *)
Theorem loans_keep_their_books cs s :
  loans_have_books s -> loans_have_books (serve_calls cs s).
Proof.
  revert s. induction cs as [|c cs IH]; intros s Hm; cbn [serve_calls];
    [assumption|].
  apply IH. now apply loans_have_books_call.
Qed.

Lemma loans_keep_their_books_witness :
  let cs := [Lend (Borrow (Sample.env 1000 "t1") Sample.alice (Sample.body "b1" 5000));
             DeleteBook Sample.admin_a "b1";
             Lend (Return (Sample.env 2000 "u") Sample.alice "t1");
             DeleteBook Sample.admin_a "b1"] in
  let s := serve_calls cs Sample.catalog in
  loans_have_books Sample.catalog
  /\ option_map b_availableCopies (getBook s "b1") = Some 1
  /\ loans_have_books s.
Proof.
  cbv zeta.
  assert (H : loans_have_books Sample.catalog) by (intros t []).
  split; [exact H|]. split; [reflexivity|].
  exact (loans_keep_their_books _ _ H).
Defined.
